(** * Terminal core: viewport, scroll offset, writer and selection geometry

    A shallow embedding of [src/cascadia/TerminalCore/Terminal.cpp].  The
    engine state is a record, every member function is a function on that
    record, and the collaborators the engine only calls into (the text
    buffer, its cursor, the render target and the registered callback) are
    a small record plus a trace of the calls that reach them. *)

From Stdlib Require Import ZArith List Bool Lia String.
Import ListNotations.
Open Scope Z_scope.

(** ** Machine integers *)

(** [SHORT] is a signed 16-bit integer and [int] a signed 32-bit one.  Both
    are carried as [Z]; a store into a narrower type wraps. *)
Definition wrap (bits : Z) (z : Z) : Z :=
  (z + 2 ^ (bits - 1)) mod 2 ^ bits - 2 ^ (bits - 1).

Definition to_short (z : Z) : Z := wrap 16 z.
Definition to_int (z : Z) : Z := wrap 32 z.

Definition SHORT_MIN : Z := -32768.
Definition SHORT_MAX : Z := 32767.
Definition INT_MIN : Z := -2147483648.
Definition INT_MAX : Z := 2147483647.

Definition is_short (z : Z) : Prop := SHORT_MIN <= z <= SHORT_MAX.
Definition is_int (z : Z) : Prop := INT_MIN <= z <= INT_MAX.

Definition in_short (z : Z) : bool := (SHORT_MIN <=? z) && (z <=? SHORT_MAX).

(** ** Results of code that can throw or fail *)

(** [gsl::narrow] and [THROW_IF_FAILED] leave the function by an exception;
    a loop of the model that is cut short by its fuel says so. *)
Inductive outcome (A : Type) : Type :=
| Ok (a : A)
| Throw
| OutOfFuel.
Arguments Ok {A} a.
Arguments Throw {A}.
Arguments OutOfFuel {A}.

Definition bind {A B : Type} (m : outcome A) (k : A -> outcome B) : outcome B :=
  match m with
  | Ok a => k a
  | Throw => Throw
  | OutOfFuel => OutOfFuel
  end.

Notation "x <- m ;; k" := (bind m (fun x => k))
  (at level 61, m at next level, right associativity).

(** [gsl::narrow<SHORT>(z)]: the value when it fits, an exception otherwise. *)
Definition narrow_short (z : Z) : outcome Z :=
  if in_short z then Ok z else Throw.

(** [ShortAdd(a, b, &r)] of intsafe under [THROW_IF_FAILED]. *)
Definition ShortAdd (a b : Z) : outcome Z := narrow_short (a + b).

(** [ShortSub(a, b, &r)] of intsafe under [THROW_IF_FAILED]. *)
Definition ShortSub (a b : Z) : outcome Z := narrow_short (a - b).

(** ** Coordinates, rectangles, viewports *)

Record COORD : Type := mkCOORD { X : Z; Y : Z }.

Record SMALL_RECT : Type :=
  mkRECT { Left : Z; Top : Z; Right : Z; Bottom : Z }.

Definition COORD_eqb (a b : COORD) : bool :=
  (X a =? X b) && (Y a =? Y b).

(** Modelled from the spec: the [Viewport] type (types/inc/viewport.hpp is
    not among the sources).  A viewport is a rectangle given by its origin
    and its dimensions; the live viewport is "rectangle {top row, width,
    height}", its bottom-inclusive row is [top + height - 1]. *)
Record Viewport : Type := mkViewport { Origin : COORD; Dims : COORD }.

Definition FromDimensions (origin dims : COORD) : Viewport :=
  mkViewport origin dims.
Definition Viewport_Empty : Viewport := mkViewport (mkCOORD 0 0) (mkCOORD 0 0).
Definition Dimensions (v : Viewport) : COORD := Dims v.
Definition vTop (v : Viewport) : Z := Y (Origin v).
Definition vLeft (v : Viewport) : Z := X (Origin v).
Definition Width (v : Viewport) : Z := X (Dims v).
Definition Height (v : Viewport) : Z := Y (Dims v).
Definition BottomInclusive (v : Viewport) : Z := vTop v + Height v - 1.
Definition BottomExclusive (v : Viewport) : Z := vTop v + Height v.
Definition RightInclusive (v : Viewport) : Z := vLeft v + Width v - 1.

(** ** Collaborators *)

Definition wchar_t : Type := Z.
Definition UNICODE_BACKSPACE : wchar_t := 8.
Definition UNICODE_LINEFEED : wchar_t := 10.
Definition UNICODE_CARRIAGERETURN : wchar_t := 13.

(** What reaches the render target and the registered scroll callback, in
    the order of the calls. *)
Inductive Event : Type :=
| TriggerRedrawAll
| ScrollPositionChanged (top height bottom : Z).

(** Modelled from the spec: the external text buffer (its class is not
    among the sources).  It "exposes a cursor position, a cell-write
    operation returning how many buffer cells were consumed, a
    circular-rotate operation, and a resize operation"; the model keeps the
    cursor, the size, the number of rotations done and the runs handed to
    the cell-write operation. *)
Record TextBuffer : Type := mkTextBuffer {
  Cursor : COORD;
  GetSize : Viewport;
  rotations : Z;
  written : list (COORD * list wchar_t)
}.

(** Modelled from the spec: [Cursor::SetPosition], "commit [proposed] as the
    new cursor position". *)
Definition SetPosition (b : TextBuffer) (p : COORD) : TextBuffer :=
  mkTextBuffer p (GetSize b) (rotations b) (written b).

(** Modelled from the spec: [TextBuffer::IncrementCircularBuffer], one step
    of the circular rotation; the model counts the steps. *)
Definition IncrementCircularBuffer (b : TextBuffer) : TextBuffer :=
  mkTextBuffer (Cursor b) (GetSize b) (rotations b + 1) (written b).

(** Modelled from the spec: the effect of [TextBuffer::Write] on the buffer;
    the model logs the run and the cursor it was written at.  The cells it
    occupies are the answer of the collaborator, see [cellDistance]. *)
Definition record_write (b : TextBuffer) (run : list wchar_t) : TextBuffer :=
  mkTextBuffer (Cursor b) (GetSize b) (rotations b)
               (written b ++ [(Cursor b, run)]).

Inductive HRESULT : Type :=
| S_OK
| S_FALSE
| E_FAILED (code : Z).

Definition FAILED (hr : HRESULT) : bool :=
  match hr with E_FAILED _ => true | _ => false end.

(** ** Engine state *)

Record Terminal : Type := mkTerminal {
  _mutableViewport : Viewport;
  _scrollbackLines : Z;
  _scrollOffset : Z;
  _snapOnInput : bool;
  _selectionAnchor : COORD;
  _endSelectionPosition : COORD;
  _boxSelection : bool;
  _renderSelection : bool;
  _title : string;
  _buffer : TextBuffer;
  (** whether a handler is registered in [_pfnScrollPositionChanged] *)
  _pfnScrollPositionChanged : bool;
  (** the function-local [static bool skipNewline] of [_WriteBuffer] *)
  skipNewline : bool;
  (** calls made on the render target and on the scroll callback *)
  trace : list Event
}.

Definition set_mutableViewport (t : Terminal) (v : Viewport) : Terminal :=
  mkTerminal v (_scrollbackLines t) (_scrollOffset t) (_snapOnInput t)
    (_selectionAnchor t) (_endSelectionPosition t) (_boxSelection t)
    (_renderSelection t) (_title t) (_buffer t) (_pfnScrollPositionChanged t)
    (skipNewline t) (trace t).

Definition set_scrollOffset (t : Terminal) (o : Z) : Terminal :=
  mkTerminal (_mutableViewport t) (_scrollbackLines t) o (_snapOnInput t)
    (_selectionAnchor t) (_endSelectionPosition t) (_boxSelection t)
    (_renderSelection t) (_title t) (_buffer t) (_pfnScrollPositionChanged t)
    (skipNewline t) (trace t).

Definition set_buffer (t : Terminal) (b : TextBuffer) : Terminal :=
  mkTerminal (_mutableViewport t) (_scrollbackLines t) (_scrollOffset t)
    (_snapOnInput t) (_selectionAnchor t) (_endSelectionPosition t)
    (_boxSelection t) (_renderSelection t) (_title t) b
    (_pfnScrollPositionChanged t) (skipNewline t) (trace t).

Definition set_skipNewline (t : Terminal) (f : bool) : Terminal :=
  mkTerminal (_mutableViewport t) (_scrollbackLines t) (_scrollOffset t)
    (_snapOnInput t) (_selectionAnchor t) (_endSelectionPosition t)
    (_boxSelection t) (_renderSelection t) (_title t) (_buffer t)
    (_pfnScrollPositionChanged t) f (trace t).

Definition emit (t : Terminal) (e : Event) : Terminal :=
  mkTerminal (_mutableViewport t) (_scrollbackLines t) (_scrollOffset t)
    (_snapOnInput t) (_selectionAnchor t) (_endSelectionPosition t)
    (_boxSelection t) (_renderSelection t) (_title t) (_buffer t)
    (_pfnScrollPositionChanged t) (skipNewline t) (trace t ++ [e]).

Definition set_selection (t : Terminal) (a e : COORD) (render : bool)
  : Terminal :=
  mkTerminal (_mutableViewport t) (_scrollbackLines t) (_scrollOffset t)
    (_snapOnInput t) a e (_boxSelection t) render (_title t) (_buffer t)
    (_pfnScrollPositionChanged t) (skipNewline t) (trace t).

Definition set_boxSelection (t : Terminal) (f : bool) : Terminal :=
  mkTerminal (_mutableViewport t) (_scrollbackLines t) (_scrollOffset t)
    (_snapOnInput t) (_selectionAnchor t) (_endSelectionPosition t) f
    (_renderSelection t) (_title t) (_buffer t) (_pfnScrollPositionChanged t)
    (skipNewline t) (trace t).

(** ** Viewport geometry *)

Definition GetBufferHeight (t : Terminal) : Z :=
  BottomExclusive (_mutableViewport t).

(** [_ViewStartIndex] is also the length of the scrollback. *)
Definition _ViewStartIndex (t : Terminal) : Z := vTop (_mutableViewport t).

(** [_VisibleStartIndex] is the first visible line of the buffer. *)
Definition _VisibleStartIndex (t : Terminal) : Z :=
  Z.max 0 (to_int (_ViewStartIndex t - _scrollOffset t)).

Definition _GetVisibleViewport (t : Terminal) : outcome Viewport :=
  top <- narrow_short (_VisibleStartIndex t) ;;
  Ok (FromDimensions (mkCOORD 0 top) (Dimensions (_mutableViewport t))).

Definition GetScrollOffset (t : Terminal) : Z := _VisibleStartIndex t.

Definition _NotifyScrollEvent (t : Terminal) : outcome Terminal :=
  if _pfnScrollPositionChanged t then
    visible <- _GetVisibleViewport t ;;
    Ok (emit t (ScrollPositionChanged (vTop visible) (Height visible)
                                      (GetBufferHeight t)))
  else Ok t.

(** ** User scrolling *)

Definition UserScrollViewport (t : Terminal) (viewTop : Z) : Terminal :=
  let clampedNewTop := Z.max 0 viewTop in
  let realTop := _ViewStartIndex t in
  let newDelta := to_int (realTop - clampedNewTop) in
  emit (set_scrollOffset t (Z.max 0 newDelta)) TriggerRedrawAll.

(** ** Construction *)

(** The constructor's member initialisers.  [_scrollbackLines], the two
    selection coordinates and the buffer are not initialised there; the
    model starts them at zero and at an empty buffer. *)
Definition Terminal_new : Terminal :=
  mkTerminal Viewport_Empty 0 0 true (mkCOORD 0 0) (mkCOORD 0 0) false false
    EmptyString (mkTextBuffer (mkCOORD 0 0) Viewport_Empty 0 []) false false [].

Definition Create (t : Terminal) (viewportSize : COORD) (scrollbackLines : Z)
  : Terminal :=
  let t1 := set_mutableViewport t (FromDimensions (mkCOORD 0 0) viewportSize) in
  let t2 :=
    mkTerminal (_mutableViewport t1) scrollbackLines (_scrollOffset t1)
      (_snapOnInput t1) (_selectionAnchor t1) (_endSelectionPosition t1)
      (_boxSelection t1) (_renderSelection t1) (_title t1) (_buffer t1)
      (_pfnScrollPositionChanged t1) (skipNewline t1) (trace t1) in
  let bufferSize :=
    mkCOORD (X viewportSize) (to_short (Y viewportSize + scrollbackLines)) in
  set_buffer t2
    (mkTextBuffer (mkCOORD 0 0) (FromDimensions (mkCOORD 0 0) bufferSize) 0 []).

Definition SetScrollPositionChangedCallback (t : Terminal) (registered : bool)
  : Terminal :=
  mkTerminal (_mutableViewport t) (_scrollbackLines t) (_scrollOffset t)
    (_snapOnInput t) (_selectionAnchor t) (_endSelectionPosition t)
    (_boxSelection t) (_renderSelection t) (_title t) (_buffer t)
    registered (skipNewline t) (trace t).

(** ** Selection flags *)

Definition SetBoxSelection (t : Terminal) (isEnabled : bool) : Terminal :=
  set_boxSelection t isEnabled.

Definition ClearSelection (t : Terminal) : Terminal :=
  set_selection t (mkCOORD 0 0) (mkCOORD 0 0) false.

(** The position is on the visible viewport; the scroll offset is taken off
    its row so that it maps to the right spot of the live viewport.  An
    exception of [gsl::narrow] or [THROW_IF_FAILED] leaves the function. *)
Definition SetEndSelectionPosition (t : Terminal) (position : COORD)
  : outcome Terminal :=
  offset <- narrow_short (_scrollOffset t) ;;
  y <- ShortSub (Y position) offset ;;
  Ok (set_selection t (_selectionAnchor t) (mkCOORD (X position) y)
                    (_renderSelection t)).

Definition SetSelectionAnchor (t : Terminal) (position : COORD)
  : outcome Terminal :=
  offset <- narrow_short (_scrollOffset t) ;;
  y <- ShortSub (Y position) offset ;;
  SetEndSelectionPosition
    (set_selection t (mkCOORD (X position) y) (_endSelectionPosition t) true)
    position.

(** ** Selection geometry *)

(** The body of the [for] of [_GetSelectionRects]: one rectangle per pass,
    [row] being a [SHORT] that [row++] wraps. *)
Fixpoint selection_rows (fuel : nat) (t : Terminal) (higherCoord lowerCoord : COORD)
  (row : Z) : outcome (list SMALL_RECT) :=
  if row <=? Y lowerCoord then
    match fuel with
    | O => OutOfFuel
    | S fuel' =>
        start <- narrow_short (_ViewStartIndex t) ;;
        top <- ShortAdd row start ;;
        bottom <- ShortAdd row start ;;
        let left :=
          if _boxSelection t then Z.min (X higherCoord) (X lowerCoord)
          else if row =? Y higherCoord then X higherCoord else 0 in
        let right :=
          if _boxSelection t then Z.max (X higherCoord) (X lowerCoord)
          else if row =? Y lowerCoord then X lowerCoord
               else to_short (RightInclusive (GetSize (_buffer t))) in
        rest <- selection_rows fuel' t higherCoord lowerCoord (to_short (row + 1)) ;;
        Ok (mkRECT left top right bottom :: rest)
    end
  else Ok [].

Definition _GetSelectionRects (fuel : nat) (t : Terminal)
  : outcome (list SMALL_RECT) :=
  if negb (_renderSelection t) then Ok []
  else
    (* (0,0) is top-left so vertical comparison is inverted *)
    let higherCoord :=
      if Y (_selectionAnchor t) <=? Y (_endSelectionPosition t)
      then _selectionAnchor t else _endSelectionPosition t in
    let lowerCoord :=
      if Y (_selectionAnchor t) >? Y (_endSelectionPosition t)
      then _selectionAnchor t else _endSelectionPosition t in
    selection_rows fuel t higherCoord lowerCoord (Y higherCoord).

(** ** The writer *)

Definition substr (s : list wchar_t) (i : Z) (n : nat) : list wchar_t :=
  firstn n (skipn (Z.to_nat i) s).

Definition is_surrogate (wch : wchar_t) : bool :=
  (55296 <=? wch) && (wch <=? 57343).

(** The rotation loop: [n] passes of [IncrementCircularBuffer] and [Y--]. *)
Fixpoint cycle (n : nat) (b : TextBuffer) (y : Z) : TextBuffer * Z :=
  match n with
  | O => (b, y)
  | S n' => cycle n' (IncrementCircularBuffer b) (to_short (y - 1))
  end.

(** What the dispatch on the character leaves: either the [continue] of a
    suppressed line feed, or the buffer after the cell write, the proposed
    cursor position and the change of the loop index before its [i++]. *)
Inductive proposal : Type :=
| Suppressed
| Proposed (b : TextBuffer) (p : COORD) (skip : Z).

Section Engine.

(** The collaborators' answers.  [cellDistance b run] is the distance
    [end.GetCellDistance(it)] after [_buffer->Write(it)] of [run] on the
    buffer [b]; [ResizeTraditional b size] is the result and the buffer
    after the call; [HandleKey vkey modifiers] is the input encoder. *)
Variable cellDistance : TextBuffer -> list wchar_t -> Z.
Variable ResizeTraditional : TextBuffer -> COORD -> HRESULT * TextBuffer.
Variable HandleKey : Z -> Z -> bool.

Definition UserResize (t : Terminal) (viewportSize : COORD)
  : outcome (HRESULT * Terminal) :=
  let oldDimensions := Dimensions (_mutableViewport t) in
  if COORD_eqb viewportSize oldDimensions then Ok (S_FALSE, t)
  else
    let t1 :=
      set_mutableViewport t (FromDimensions (mkCOORD 0 0) viewportSize) in
    let bufferSize :=
      mkCOORD (X viewportSize)
              (to_short (Y viewportSize + _scrollbackLines t1)) in
    let (hr, b) := ResizeTraditional (_buffer t1) bufferSize in
    let t2 := set_buffer t1 b in
    if FAILED hr then Ok (hr, t2)
    else
      t3 <- _NotifyScrollEvent t2 ;;
      Ok (S_OK, t3).

Definition LEFT_CTRL_PRESSED : Z := 8.
Definition LEFT_ALT_PRESSED : Z := 2.
Definition SHIFT_PRESSED : Z := 16.

Definition SendKeyEvent (t : Terminal) (vkey : Z)
  (ctrlPressed altPressed shiftPressed : bool) : outcome (bool * Terminal) :=
  t1 <- (if _snapOnInput t && negb (_scrollOffset t =? 0)
         then _NotifyScrollEvent (set_scrollOffset t 0)
         else Ok t) ;;
  let modifiers :=
    Z.lor (Z.lor (Z.lor 0 (if ctrlPressed then LEFT_CTRL_PRESSED else 0))
                 (if altPressed then LEFT_ALT_PRESSED else 0))
          (if shiftPressed then SHIFT_PRESSED else 0) in
  Ok (HandleKey vkey modifiers, t1).

(** Lines 227-274: the dispatch on [wch]. *)
Definition propose (t : Terminal) (s : list wchar_t) (i : Z) (wch : wchar_t)
  : outcome proposal :=
  let b := _buffer t in
  let cursorPosBefore := Cursor b in
  let bufferSize := GetSize b in
  if wch =? UNICODE_LINEFEED then
    if skipNewline t then Ok Suppressed
    else Ok (Proposed b (mkCOORD (X cursorPosBefore)
                                 (to_short (Y cursorPosBefore + 1))) 0)
  else if wch =? UNICODE_CARRIAGERETURN then
    Ok (Proposed b (mkCOORD 0 (Y cursorPosBefore)) 0)
  else if wch =? UNICODE_BACKSPACE then
    if X cursorPosBefore =? 0 then
      Ok (Proposed b (mkCOORD (to_short (Width bufferSize - 1))
                              (to_short (Y cursorPosBefore - 1))) 0)
    else
      Ok (Proposed b (mkCOORD (to_short (X cursorPosBefore - 1))
                              (Y cursorPosBefore)) 0)
  else if is_surrogate wch then
    let run := substr s i 2 in
    let d := cellDistance b run in
    n <- narrow_short d ;;
    Ok (Proposed (record_write b run)
                 (mkCOORD (to_short (X cursorPosBefore + n))
                          (Y cursorPosBefore)) (d - 1))
  else
    let run := substr s i 1 in
    let d := cellDistance b run in
    n <- narrow_short d ;;
    Ok (Proposed (record_write b run)
                 (mkCOORD (to_short (X cursorPosBefore + n))
                          (Y cursorPosBefore)) 0).

(** Lines 276-310: rotation, commit, the flag, the viewport and the
    notification.  The result also says whether a notification was owed. *)
Definition commit (t : Terminal) (b : TextBuffer) (proposed : COORD)
  : outcome (Terminal * bool) :=
  let cursorPosBefore := Cursor (_buffer t) in
  let bufferSize := GetSize b in
  let newRows := Y proposed - Height bufferSize + 1 in
  let '(b1, y1, notify1) :=
    if 0 <? newRows
    then let (b', y') := cycle (Z.to_nat newRows) b (Y proposed) in
         (b', y', true)
    else (b, Y proposed, false) in
  let b2 := SetPosition b1 (mkCOORD (X proposed) y1) in
  let cursorPosAfter := Cursor b2 in
  let t1 :=
    set_skipNewline (set_buffer t b2)
                    (Y cursorPosAfter =? Y cursorPosBefore + 1) in
  r <- (if Y cursorPosAfter >? BottomInclusive (_mutableViewport t1) then
          let newViewTop :=
            Z.max 0 (Y cursorPosAfter - (Height (_mutableViewport t1) - 1)) in
          if negb (newViewTop =? vTop (_mutableViewport t1)) then
            top <- narrow_short newViewTop ;;
            Ok (set_mutableViewport t1
                  (FromDimensions (mkCOORD 0 top)
                                  (Dimensions (_mutableViewport t1))), true)
          else Ok (t1, notify1)
        else Ok (t1, notify1)) ;;
  let '(t2, notifyScroll) := r in
  if (notifyScroll : bool) then
    t3 <- _NotifyScrollEvent (emit t2 TriggerRedrawAll) ;;
    Ok (t3, true)
  else Ok (t2, false).

(** One pass of the [for] of [_WriteBuffer] at index [i], with the index
    of the next pass. *)
Definition _WriteBuffer_step (t : Terminal) (s : list wchar_t) (i : Z)
  : outcome (Terminal * Z) :=
  let wch := nth (Z.to_nat i) s 0 in
  p <- propose t s i wch ;;
  match p with
  | Suppressed => Ok (set_skipNewline t false, i + 1)
  | Proposed b proposed skip =>
      r <- commit t b proposed ;;
      Ok (fst r, i + skip + 1)
  end.

(** The [for] itself.  The index is a [size_t]: one that would go below
    zero is above every length, and ends the loop. *)
Fixpoint _WriteBuffer_from (fuel : nat) (t : Terminal) (s : list wchar_t)
  (i : Z) : outcome Terminal :=
  if (0 <=? i) && (i <? Z.of_nat (List.length s)) then
    match fuel with
    | O => OutOfFuel
    | S fuel' =>
        r <- _WriteBuffer_step t s i ;;
        _WriteBuffer_from fuel' (fst r) s (snd r)
    end
  else Ok t.

Definition _WriteBuffer (fuel : nat) (t : Terminal) (s : list wchar_t)
  : outcome Terminal :=
  _WriteBuffer_from fuel t s 0.

End Engine.

(** ** Concrete collaborators *)

(** A buffer whose cell write occupies one cell per code unit handed over. *)
Definition unit_cells (b : TextBuffer) (run : list wchar_t) : Z :=
  Z.of_nat (List.length run).

(** A buffer whose resize succeeds and takes the requested size. *)
Definition resize_ok (b : TextBuffer) (size : COORD) : HRESULT * TextBuffer :=
  (S_OK, mkTextBuffer (Cursor b) (FromDimensions (mkCOORD 0 0) size)
                      (rotations b) (written b)).

(** A buffer whose resize fails with [E_OUTOFMEMORY] and changes nothing. *)
Definition E_OUTOFMEMORY : Z := 2147942414.

Definition resize_fails (b : TextBuffer) (size : COORD)
  : HRESULT * TextBuffer :=
  (E_FAILED E_OUTOFMEMORY, b).

Definition no_key_output (vkey modifiers : Z) : bool := false.

(** A session of 80 columns by 24 rows with [scrollback] lines of history
    and a handler registered for scroll changes. *)
Definition session (scrollback : Z) : Terminal :=
  SetScrollPositionChangedCallback
    (Create Terminal_new (mkCOORD 80 24) scrollback) true.

Definition CRLF : list wchar_t := [UNICODE_CARRIAGERETURN; UNICODE_LINEFEED].

Fixpoint repeat_run (n : nat) (run : list wchar_t) : list wchar_t :=
  match n with
  | O => []
  | S n' => run ++ repeat_run n' run
  end.

(** "Hello\r\n" *)
Definition hello_crlf : list wchar_t := [72; 101; 108; 108; 111; 13; 10].

(** The session after thirty lines of output, seven of them in the
    scrollback, and a user scroll to row 2 of the buffer. *)
Definition scrolled_session : Terminal :=
  Eval vm_compute in
    match _WriteBuffer unit_cells 60 (session 100) (repeat_run 30 CRLF) with
    | Ok t => UserScrollViewport t 2
    | _ => session 100
    end.

(** ** Valid states *)

(** The live viewport sits at a row [top >= 0] and has a height [> 0],
    both [SHORT]s; the scroll offset is a non-negative [int]. *)
Definition engine_ok (t : Terminal) : Prop :=
  0 <= vTop (_mutableViewport t) <= SHORT_MAX /\
  0 < Height (_mutableViewport t) <= SHORT_MAX /\
  0 <= _scrollOffset t <= INT_MAX.

(** The scroll offset stays within the scrollback. *)
Definition scroll_in_range (t : Terminal) : Prop :=
  0 <= _scrollOffset t <= _ViewStartIndex t.

Definition clamp (z lo hi : Z) : Z := Z.max lo (Z.min z hi).

(** Everything of the engine except the scroll offset and the trace. *)
Definition same_but_scroll (t t' : Terminal) : Prop :=
  _mutableViewport t' = _mutableViewport t /\
  _scrollbackLines t' = _scrollbackLines t /\
  _snapOnInput t' = _snapOnInput t /\
  _selectionAnchor t' = _selectionAnchor t /\
  _endSelectionPosition t' = _endSelectionPosition t /\
  _boxSelection t' = _boxSelection t /\
  _renderSelection t' = _renderSelection t /\
  _title t' = _title t /\
  _buffer t' = _buffer t /\
  _pfnScrollPositionChanged t' = _pfnScrollPositionChanged t /\
  skipNewline t' = skipNewline t.

Definition is_scroll_notification (e : Event) : bool :=
  match e with ScrollPositionChanged _ _ _ => true | TriggerRedrawAll => false end.

Definition scroll_notifications (l : list Event) : list Event :=
  filter is_scroll_notification l.

(** What the writer needs of a state: a valid engine, a cursor made of
    [SHORT]s and a buffer of positive [SHORT] height. *)
Definition writer_ok (t : Terminal) : Prop :=
  engine_ok t /\
  is_short (X (Cursor (_buffer t))) /\
  is_short (Y (Cursor (_buffer t))) /\
  0 < Height (GetSize (_buffer t)) <= SHORT_MAX.

(** The cursor lies inside the buffer. *)
Definition cursor_in_buffer (b : TextBuffer) : Prop :=
  0 <= X (Cursor b) < Width (GetSize b) /\
  0 <= Y (Cursor b) < Height (GetSize b).

(** Rows the buffer is rotated by for a proposed position, and the row
    the cursor is then committed at. *)
Definition rotated_rows (b : TextBuffer) (proposed : COORD) : Z :=
  Z.max 0 (Y proposed - Height (GetSize b) + 1).

Definition committed_row (b : TextBuffer) (proposed : COORD) : Z :=
  Z.min (Y proposed) (Height (GetSize b) - 1).

(** The notification made when one is owed. *)
Definition owed_events (t : Terminal) : list Event :=
  TriggerRedrawAll ::
  (if _pfnScrollPositionChanged t
   then [ScrollPositionChanged (_VisibleStartIndex t)
           (Height (_mutableViewport t)) (GetBufferHeight t)]
   else []).

(** What [commit t b proposed] leaves in [t'], [owed] telling whether a
    notification was owed. *)
Definition commit_spec (t : Terminal) (b : TextBuffer) (proposed : COORD)
  (t' : Terminal) (owed : bool) : Prop :=
  Cursor (_buffer t') = mkCOORD (X proposed) (committed_row b proposed) /\
  rotations (_buffer t') = rotations b + rotated_rows b proposed /\
  GetSize (_buffer t') = GetSize b /\
  written (_buffer t') = written b /\
  skipNewline t' =
    (committed_row b proposed =? Y (Cursor (_buffer t)) + 1) /\
  Dimensions (_mutableViewport t') = Dimensions (_mutableViewport t) /\
  vTop (_mutableViewport t) <= vTop (_mutableViewport t') /\
  _scrollOffset t' = _scrollOffset t /\
  _pfnScrollPositionChanged t' = _pfnScrollPositionChanged t /\
  (owed = true <->
     0 < rotated_rows b proposed \/
     vTop (_mutableViewport t') <> vTop (_mutableViewport t)) /\
  trace t' = trace t ++ (if owed then owed_events t' else []).

(** Whether the pass at index [i] is the [continue] of a suppressed line
    feed. *)
Definition suppresses (cellDistance : TextBuffer -> list wchar_t -> Z)
  (t : Terminal) (s : list wchar_t) (i : Z) : bool :=
  match propose cellDistance t s i (nth (Z.to_nat i) s 0) with
  | Ok Suppressed => true
  | _ => false
  end.

(** A character the writer hands to the buffer's cell write. *)
Definition is_content (wch : wchar_t) : Prop :=
  wch <> UNICODE_LINEFEED /\
  wch <> UNICODE_CARRIAGERETURN /\
  wch <> UNICODE_BACKSPACE.

(** The run handed to the cell write for the character at index [i]. *)
Definition content_run (s : list wchar_t) (i : Z) : list wchar_t :=
  substr s i (if is_surrogate (nth (Z.to_nat i) s 0) then 2 else 1).

(** A fresh 80 by 24 session without scrollback, with or without a scroll
    handler, in a process whose suppression flag is [flag]. *)
Definition fresh_session (registered flag : bool) : Terminal :=
  set_skipNewline
    (SetScrollPositionChangedCallback
       (Create Terminal_new (mkCOORD 80 24) 0) registered) flag.

(** The session without scrollback after 23 lines and a carriage return:
    the cursor is at the start of the last row of the buffer. *)
Definition last_row_session : Terminal :=
  Eval vm_compute in
    match _WriteBuffer unit_cells 47 (session 0)
            (repeat_run 23 CRLF ++ [UNICODE_CARRIAGERETURN]) with
    | Ok t => t
    | _ => session 0
    end.

(** The session without scrollback after 79 letters: the cursor is in the
    last column of the first row. *)
Definition last_column_session : Terminal :=
  Eval vm_compute in
    match _WriteBuffer unit_cells 79 (session 0) (repeat_run 79 [65]) with
    | Ok t => t
    | _ => session 0
    end.

(** The smaller and the larger of the two stored selection rows. *)
Definition first_selected_row (t : Terminal) : Z :=
  Z.min (Y (_selectionAnchor t)) (Y (_endSelectionPosition t)).

Definition last_selected_row (t : Terminal) : Z :=
  Z.max (Y (_selectionAnchor t)) (Y (_endSelectionPosition t)).

(** Rows and their sums with the scrollback depth stay within [SHORT], and
    the last row is not [SHORT_MAX] itself. *)
Definition selection_in_range (t : Terminal) : Prop :=
  is_short (_ViewStartIndex t) /\
  is_short (first_selected_row t) /\
  last_selected_row t < SHORT_MAX /\
  SHORT_MIN <= first_selected_row t + _ViewStartIndex t /\
  last_selected_row t + _ViewStartIndex t <= SHORT_MAX.

(** The left and right edges the loop gives the rectangle of [row]. *)
Definition row_left (t : Terminal) (higherCoord lowerCoord : COORD) (row : Z)
  : Z :=
  if _boxSelection t then Z.min (X higherCoord) (X lowerCoord)
  else if row =? Y higherCoord then X higherCoord else 0.

Definition row_right (t : Terminal) (higherCoord lowerCoord : COORD) (row : Z)
  : Z :=
  if _boxSelection t then Z.max (X higherCoord) (X lowerCoord)
  else if row =? Y lowerCoord then X lowerCoord
       else to_short (RightInclusive (GetSize (_buffer t))).

Definition no_rect : SMALL_RECT := mkRECT 0 0 0 0.

(** A selection made on a fresh session without scrollback: the anchor is
    set, then the end is moved to [last]. *)
Definition select (anchor last : COORD) : outcome Terminal :=
  t <- SetSelectionAnchor (session 0) anchor ;;
  SetEndSelectionPosition t last.

(** The fresh session after one line feed. *)
Definition after_line_feed : Terminal :=
  Eval vm_compute in
    match _WriteBuffer_step unit_cells (session 0)
            [UNICODE_LINEFEED; UNICODE_LINEFEED] 0 with
    | Ok (t, _) => t
    | _ => session 0
    end.

(** ** Input events handed to the write-input callback *)

(** Modelled from the spec: the input events of the encoder ([IInputEvent]
    and [KeyEvent] are not among the sources).  An event has a type and,
    when it is a key event, the character it carries. *)
Inductive InputEventType : Type :=
| KeyEventType
| MouseEventType
| WindowBufferSizeEventType
| MenuEventType
| FocusEventType.

Record IInputEvent : Type :=
  mkInputEvent { EventType : InputEventType; GetCharData : wchar_t }.

Definition is_key_event (ev : IInputEvent) : bool :=
  match EventType ev with KeyEventType => true | _ => false end.

Fixpoint _KeyEventsToText (inEventsToWrite : list IInputEvent)
  : list wchar_t :=
  match inEventsToWrite with
  | [] => []
  | ev :: rest =>
      if is_key_event ev
      then GetCharData ev :: _KeyEventsToText rest
      else _KeyEventsToText rest
  end.

(** The lambda [passAlongInput] of the constructor: the texts handed to
    [_pfnWriteInput], which may not be registered. *)
Definition passAlongInput (pfnWriteInput : bool)
  (inEventsToWrite : list IInputEvent) : list (list wchar_t) :=
  if negb pfnWriteInput then [] else [_KeyEventsToText inEventsToWrite].

(** ** Further notions for the properties *)

(** The coordinate with the smaller row and the one with the larger row,
    as [_GetSelectionRects] picks them. *)
Definition higher_coord (t : Terminal) : COORD :=
  if Y (_selectionAnchor t) <=? Y (_endSelectionPosition t)
  then _selectionAnchor t else _endSelectionPosition t.

Definition lower_coord (t : Terminal) : COORD :=
  if Y (_selectionAnchor t) >? Y (_endSelectionPosition t)
  then _selectionAnchor t else _endSelectionPosition t.

(** The live viewport lies inside the buffer, and the cursor is not below
    the live viewport. *)
Definition viewport_in_buffer (t : Terminal) : Prop :=
  BottomExclusive (_mutableViewport t) <= Height (GetSize (_buffer t)).

Definition cursor_in_view (t : Terminal) : Prop :=
  Y (Cursor (_buffer t)) <= BottomInclusive (_mutableViewport t).

(** What the writer leaves alone: every engine field but the live top,
    which it only moves down, the buffer's size, and so all but the
    cursor, the rotation count, the cells, the flag and the trace. *)
Definition writer_frame (t t' : Terminal) : Prop :=
  _scrollOffset t' = _scrollOffset t /\
  _scrollbackLines t' = _scrollbackLines t /\
  _snapOnInput t' = _snapOnInput t /\
  _selectionAnchor t' = _selectionAnchor t /\
  _endSelectionPosition t' = _endSelectionPosition t /\
  _boxSelection t' = _boxSelection t /\
  _renderSelection t' = _renderSelection t /\
  _title t' = _title t /\
  _pfnScrollPositionChanged t' = _pfnScrollPositionChanged t /\
  Dimensions (_mutableViewport t') = Dimensions (_mutableViewport t) /\
  vTop (_mutableViewport t) <= vTop (_mutableViewport t') /\
  GetSize (_buffer t') = GetSize (_buffer t).

(** The loop of [_WriteBuffer] read as a fold over the characters: each
    character is written as a run of its own.  The two agree on text
    without surrogates. *)
Fixpoint write_chars (cellDistance : TextBuffer -> list wchar_t -> Z)
  (t : Terminal) (s : list wchar_t) : outcome Terminal :=
  match s with
  | [] => Ok t
  | c :: rest =>
      r <- _WriteBuffer_step cellDistance t [c] 0 ;;
      write_chars cellDistance (fst r) rest
  end.

Definition no_surrogates (s : list wchar_t) : Prop :=
  Forall (fun c => is_surrogate c = false) s.

(** What holds of a session between its calls, resizes apart. *)
Definition session_ok (t : Terminal) : Prop :=
  writer_ok t /\
  Y (Cursor (_buffer t)) < Height (GetSize (_buffer t)) /\
  viewport_in_buffer t /\
  cursor_in_view t /\
  scroll_in_range t.

(** The calls a session receives, resizes apart. *)
Inductive action : Type :=
| AWrite (fuel : nat) (s : list wchar_t)
| AScroll (viewTop : Z)
| AKey (vkey : Z) (ctrlPressed altPressed shiftPressed : bool)
| ASetAnchor (position : COORD)
| ASetEnd (position : COORD)
| ASetBox (isEnabled : bool)
| AClear.

Definition perform (cellDistance : TextBuffer -> list wchar_t -> Z)
  (HandleKey : Z -> Z -> bool) (t : Terminal) (a : action)
  : outcome Terminal :=
  match a with
  | AWrite fuel s => _WriteBuffer cellDistance fuel t s
  | AScroll viewTop => Ok (UserScrollViewport t viewTop)
  | AKey vkey c a s =>
      r <- SendKeyEvent HandleKey t vkey c a s ;; Ok (snd r)
  | ASetAnchor position => SetSelectionAnchor t position
  | ASetEnd position => SetEndSelectionPosition t position
  | ASetBox isEnabled => Ok (SetBoxSelection t isEnabled)
  | AClear => Ok (ClearSelection t)
  end.

Fixpoint perform_all (cellDistance : TextBuffer -> list wchar_t -> Z)
  (HandleKey : Z -> Z -> bool) (t : Terminal) (l : list action)
  : outcome Terminal :=
  match l with
  | [] => Ok t
  | a :: rest =>
      t1 <- perform cellDistance HandleKey t a ;;
      perform_all cellDistance HandleKey t1 rest
  end.

(** The scroll targets of the actions are [int]s. *)
Definition action_ok (a : action) : Prop :=
  match a with
  | AScroll viewTop => is_int viewTop
  | _ => True
  end.

(** ** Creation from settings *)

(** Modelled from the spec: the settings provider ([ICoreSettings] is not
    among the sources); it "supplies default foreground/background, a
    16-entry color table, a scroll-on-input flag, initial column/row
    counts, and a scrollback-line count", the counts being [int]s. *)
Record ICoreSettings : Type := mkSettings {
  DefaultForeground : Z;
  DefaultBackground : Z;
  GetColorTableEntry : Z -> Z;
  SnapOnInput : bool;
  InitialCols : Z;
  InitialRows : Z;
  HistorySize : Z
}.

(** The palette fields of the engine, [_defaultFg], [_defaultBg] and
    [_colorTable], which no other function modelled here reads. *)
Record Palette : Type := mkPalette {
  _defaultFg : Z;
  _defaultBg : Z;
  _colorTable : list Z
}.

(** [table[i] = v], inside the table. *)
Fixpoint store (i : nat) (v : Z) (table : list Z) : list Z :=
  match table, i with
  | [], _ => []
  | _ :: rest, O => v :: rest
  | x :: rest, S i' => x :: store i' v rest
  end.

(** The [for] of [CreateFromSettings]: [n] passes from index [i]. *)
Fixpoint copy_color_entries (settings : ICoreSettings) (n : nat) (i : Z)
  (table : list Z) : list Z :=
  match n with
  | O => table
  | S n' =>
      copy_color_entries settings n' (i + 1)
        (store (Z.to_nat i) (GetColorTableEntry settings i) table)
  end.

Definition set_snapOnInput (t : Terminal) (f : bool) : Terminal :=
  mkTerminal (_mutableViewport t) (_scrollbackLines t) (_scrollOffset t) f
    (_selectionAnchor t) (_endSelectionPosition t) (_boxSelection t)
    (_renderSelection t) (_title t) (_buffer t) (_pfnScrollPositionChanged t)
    (skipNewline t) (trace t).

Definition CreateFromSettings (settings : ICoreSettings)
  (t : Terminal) (palette : Palette) : Terminal * Palette :=
  let palette' :=
    mkPalette (DefaultForeground settings) (DefaultBackground settings)
      (copy_color_entries settings 16 0 (_colorTable palette)) in
  let t1 := set_snapOnInput t (SnapOnInput settings) in
  let viewportSize :=
    mkCOORD (to_short (InitialCols settings))
            (to_short (InitialRows settings)) in
  (Create t1 viewportSize (to_short (HistorySize settings)), palette').

(** * Properties *)

(** ** Machine integers *)

Lemma to_short_small (z : Z) : is_short z -> to_short z = z.
Proof.
  unfold is_short, SHORT_MIN, SHORT_MAX, to_short, wrap. intros H.
  change (2 ^ (16 - 1)) with 32768. change (2 ^ 16) with 65536.
  rewrite Z.mod_small by lia. lia.
Qed.

Lemma to_short_range (z : Z) : is_short (to_short z).
Proof.
  unfold is_short, SHORT_MIN, SHORT_MAX, to_short, wrap.
  change (2 ^ (16 - 1)) with 32768. change (2 ^ 16) with 65536.
  pose proof (Z.mod_pos_bound (z + 32768) 65536 eq_refl). lia.
Qed.

Lemma to_int_small (z : Z) : is_int z -> to_int z = z.
Proof.
  unfold is_int, INT_MIN, INT_MAX, to_int, wrap. intros H.
  change (2 ^ (32 - 1)) with 2147483648. change (2 ^ 32) with 4294967296.
  rewrite Z.mod_small by lia. lia.
Qed.

Lemma narrow_short_small (z : Z) : is_short z -> narrow_short z = Ok z.
Proof.
  unfold is_short, narrow_short, in_short. intros [H1 H2].
  apply Z.leb_le in H1. apply Z.leb_le in H2. now rewrite H1, H2.
Qed.

(** ** Visible top *)

Lemma _VisibleStartIndex_bounds (t : Terminal) :
  engine_ok t ->
  0 <= _VisibleStartIndex t <= _ViewStartIndex t.
Proof.
  unfold engine_ok, _VisibleStartIndex, _ViewStartIndex, SHORT_MAX, INT_MAX.
  intros (Ht & _ & Ho).
  rewrite to_int_small by (unfold is_int, INT_MIN, INT_MAX; lia). lia.
Qed.

Lemma _NotifyScrollEvent_ok (t : Terminal) :
  engine_ok t ->
  _NotifyScrollEvent t =
    Ok (if _pfnScrollPositionChanged t
        then emit t (ScrollPositionChanged (_VisibleStartIndex t)
                       (Height (_mutableViewport t)) (GetBufferHeight t))
        else t).
Proof.
  intros Hok. pose proof (_VisibleStartIndex_bounds t Hok) as Hb.
  unfold _NotifyScrollEvent, _GetVisibleViewport.
  destruct (_pfnScrollPositionChanged t); [|reflexivity].
  rewrite narrow_short_small; [reflexivity|].
  destruct Hok as (Ht & _). unfold _ViewStartIndex in Hb.
  unfold is_short, SHORT_MIN, SHORT_MAX in *. lia.
Qed.

(** ** User scrolling *)

(** C10.  [UserScrollViewport] writes the scroll offset and nothing else of
    the engine: the live viewport, the scrollback capacity, the selection
    anchor and end, the box and render flags, the title, the buffer and the
    registered callback are as before; the only call it makes is the full
    redraw of the render target, and the scroll callback is not invoked. *)
Theorem UserScrollViewport_frame :
  forall (t : Terminal) (viewTop : Z),
    same_but_scroll t (UserScrollViewport t viewTop) /\
    trace (UserScrollViewport t viewTop) = trace t ++ [TriggerRedrawAll] /\
    scroll_notifications (trace (UserScrollViewport t viewTop)) =
      scroll_notifications (trace t).
Proof.
  intros t viewTop. split; [|split].
  - unfold same_but_scroll, UserScrollViewport; cbn. now repeat split.
  - reflexivity.
  - unfold UserScrollViewport, scroll_notifications; cbn [trace emit].
    rewrite filter_app; cbn. now rewrite app_nil_r.
Qed.

Lemma UserScrollViewport_offset (t : Terminal) (viewTop : Z) :
  is_int viewTop ->
  0 <= _ViewStartIndex t <= SHORT_MAX ->
  _scrollOffset (UserScrollViewport t viewTop) =
    Z.max 0 (_ViewStartIndex t - Z.max 0 viewTop).
Proof.
  unfold is_int, INT_MIN, INT_MAX, SHORT_MAX. intros Hv Ht.
  unfold UserScrollViewport; cbn [_scrollOffset emit set_scrollOffset].
  rewrite to_int_small by (unfold is_int, INT_MIN, INT_MAX; lia).
  reflexivity.
Qed.

(** C3.  From a state whose live top is a non-negative [SHORT], scrolling
    to any [int] target and reading the scroll position back gives the
    target clamped to [0 .. scrollback depth]: the target itself when it is
    in that range, 0 below it, the scrollback depth above it. *)
Theorem UserScrollViewport_GetScrollOffset :
  forall (t : Terminal) (viewTop : Z),
    is_int viewTop ->
    0 <= _ViewStartIndex t <= SHORT_MAX ->
    GetScrollOffset (UserScrollViewport t viewTop) =
      clamp viewTop 0 (_ViewStartIndex t) /\
    (0 <= viewTop <= _ViewStartIndex t ->
       GetScrollOffset (UserScrollViewport t viewTop) = viewTop) /\
    (viewTop < 0 -> GetScrollOffset (UserScrollViewport t viewTop) = 0) /\
    (viewTop > _ViewStartIndex t ->
       GetScrollOffset (UserScrollViewport t viewTop) = _ViewStartIndex t).
Proof.
  intros t viewTop Hv Ht.
  assert (E : GetScrollOffset (UserScrollViewport t viewTop) =
              clamp viewTop 0 (_ViewStartIndex t)).
  { unfold GetScrollOffset, _VisibleStartIndex.
    rewrite UserScrollViewport_offset by assumption.
    replace (_ViewStartIndex (UserScrollViewport t viewTop))
      with (_ViewStartIndex t) by reflexivity.
    unfold is_int, INT_MIN, INT_MAX, SHORT_MAX in *.
    rewrite to_int_small by (unfold is_int, INT_MIN, INT_MAX; lia).
    unfold clamp. lia. }
  rewrite E. unfold clamp. repeat split; lia.
Qed.

Lemma UserScrollViewport_GetScrollOffset_witness :
  GetScrollOffset (UserScrollViewport scrolled_session 40) =
    clamp 40 0 (_ViewStartIndex scrolled_session) /\
  GetScrollOffset (UserScrollViewport scrolled_session 40) = 7.
Proof.
  split.
  - refine (proj1 (UserScrollViewport_GetScrollOffset scrolled_session 40 _ _)).
    + unfold is_int, INT_MIN, INT_MAX. lia.
    + unfold SHORT_MAX. cbn. lia.
  - reflexivity.
Defined.

Lemma UserScrollViewport_scroll_in_range (t : Terminal) (viewTop : Z) :
  is_int viewTop ->
  0 <= _ViewStartIndex t <= SHORT_MAX ->
  scroll_in_range (UserScrollViewport t viewTop).
Proof.
  intros Hv Ht. unfold scroll_in_range.
  rewrite UserScrollViewport_offset by assumption.
  replace (_ViewStartIndex (UserScrollViewport t viewTop))
    with (_ViewStartIndex t) by reflexivity.
  lia.
Qed.

(** ** Resizing *)

Section Resize.

Variable ResizeTraditional : TextBuffer -> COORD -> HRESULT * TextBuffer.

Lemma UserResize_unchanged (t : Terminal) :
  UserResize ResizeTraditional t (Dimensions (_mutableViewport t)) =
    Ok (S_FALSE, t).
Proof.
  unfold UserResize, COORD_eqb. now rewrite !Z.eqb_refl.
Qed.

(** C1, as the code has it.  When the requested size differs from the live
    viewport's and the buffer's resize fails, [UserResize] returns that
    failure and makes no scroll notification; the scrollback capacity,
    the scroll offset, the selection, the flags, the title and the
    callback are as before, and the buffer is what its own resize left.
    The live viewport, though, has already been replaced by one of the
    requested size at the origin. *)
Theorem UserResize_failure :
  forall (t : Terminal) (viewportSize : COORD) (hr : HRESULT) (b : TextBuffer),
    COORD_eqb viewportSize (Dimensions (_mutableViewport t)) = false ->
    ResizeTraditional (_buffer t)
      (mkCOORD (X viewportSize)
               (to_short (Y viewportSize + _scrollbackLines t))) = (hr, b) ->
    FAILED hr = true ->
    exists t' : Terminal,
      UserResize ResizeTraditional t viewportSize = Ok (hr, t') /\
      _mutableViewport t' = FromDimensions (mkCOORD 0 0) viewportSize /\
      _buffer t' = b /\
      trace t' = trace t /\
      _scrollOffset t' = _scrollOffset t /\
      _scrollbackLines t' = _scrollbackLines t /\
      _snapOnInput t' = _snapOnInput t /\
      _selectionAnchor t' = _selectionAnchor t /\
      _endSelectionPosition t' = _endSelectionPosition t /\
      _boxSelection t' = _boxSelection t /\
      _renderSelection t' = _renderSelection t /\
      _title t' = _title t /\
      _pfnScrollPositionChanged t' = _pfnScrollPositionChanged t /\
      skipNewline t' = skipNewline t.
Proof.
  intros t viewportSize hr b Hne Hres Hfail.
  exists (set_buffer
            (set_mutableViewport t (FromDimensions (mkCOORD 0 0) viewportSize))
            b).
  split.
  - unfold UserResize. rewrite Hne.
    cbn [_buffer _scrollbackLines set_mutableViewport].
    rewrite Hres, Hfail. reflexivity.
  - cbn. now repeat split.
Qed.

Lemma UserResize_success (t : Terminal) (viewportSize : COORD)
  (hr : HRESULT) (b : TextBuffer) :
  COORD_eqb viewportSize (Dimensions (_mutableViewport t)) = false ->
  ResizeTraditional (_buffer t)
    (mkCOORD (X viewportSize)
             (to_short (Y viewportSize + _scrollbackLines t))) = (hr, b) ->
  FAILED hr = false ->
  UserResize ResizeTraditional t viewportSize =
    t' <- _NotifyScrollEvent
            (set_buffer
               (set_mutableViewport t
                  (FromDimensions (mkCOORD 0 0) viewportSize)) b) ;;
    Ok (S_OK, t').
Proof.
  intros Hne Hres Hok. unfold UserResize. rewrite Hne.
  cbn [_buffer _scrollbackLines set_mutableViewport].
  rewrite Hres, Hok. reflexivity.
Qed.

(** Whatever the outcome of a resize, the visible top it leaves lies
    between zero and the scrollback depth. *)
Lemma UserResize_visible_top (t t' : Terminal) (viewportSize : COORD)
  (hr : HRESULT) :
  engine_ok t ->
  0 < Y viewportSize <= SHORT_MAX ->
  UserResize ResizeTraditional t viewportSize = Ok (hr, t') ->
  0 <= _VisibleStartIndex t' <= _ViewStartIndex t'.
Proof.
  intros Hok Hy Hrun. apply _VisibleStartIndex_bounds.
  unfold UserResize in Hrun.
  destruct (COORD_eqb viewportSize (Dimensions (_mutableViewport t))).
  - now inversion Hrun; subst.
  - destruct (ResizeTraditional _ _) as [hr0 b].
    set (t2 := set_buffer _ b) in Hrun.
    assert (Hok2 : engine_ok t2).
    { destruct Hok as (_ & _ & Ho).
      unfold engine_ok, t2, FromDimensions, Height, vTop; cbn.
      unfold SHORT_MAX in *. repeat split; lia. }
    destruct (FAILED hr0).
    + now inversion Hrun; subst.
    + rewrite (_NotifyScrollEvent_ok t2 Hok2) in Hrun. cbn in Hrun.
      inversion Hrun; subst.
      destruct (_pfnScrollPositionChanged t); exact Hok2.
Qed.

End Resize.

Lemma UserResize_failure_witness :
  COORD_eqb (mkCOORD 100 30) (Dimensions (_mutableViewport (session 0))) = false /\
  exists t' : Terminal,
    UserResize resize_fails (session 0) (mkCOORD 100 30) =
      Ok (E_FAILED E_OUTOFMEMORY, t') /\
    _mutableViewport t' = FromDimensions (mkCOORD 0 0) (mkCOORD 100 30) /\
    _scrollOffset t' = _scrollOffset (session 0).
Proof.
  split; [reflexivity|].
  destruct (UserResize_failure resize_fails (session 0) (mkCOORD 100 30)
              (E_FAILED E_OUTOFMEMORY) (_buffer (session 0))
              eq_refl eq_refl eq_refl)
    as (t' & Hrun & Hvp & _ & _ & Hoff & _).
  exists t'. now repeat split.
Defined.

(** C1, as stated, fails: on the scrolled session a resize whose buffer
    reflow fails returns the failure, yet the live viewport's dimensions
    and top are no longer what they were before the call. *)
Lemma UserResize_failure_not_atomic :
  exists (hr : HRESULT) (t' : Terminal),
    UserResize resize_fails scrolled_session (mkCOORD 100 30) = Ok (hr, t') /\
    FAILED hr = true /\
    Dimensions (_mutableViewport scrolled_session) = mkCOORD 80 24 /\
    Dimensions (_mutableViewport t') = mkCOORD 100 30 /\
    vTop (_mutableViewport scrolled_session) = 7 /\
    vTop (_mutableViewport t') = 0 /\
    t' <> scrolled_session.
Proof.
  eexists. eexists. split; [reflexivity|].
  repeat split. intros E.
  apply (f_equal (fun t => vTop (_mutableViewport t))) in E.
  discriminate E.
Qed.

(** C2 at its failing input.  The scrolled session has its scroll offset
    within the scrollback (5 of 7 rows); a successful resize puts the live
    viewport back at row 0 and leaves the offset at 5, above the scrollback
    depth, while the visible top stays within bounds. *)
Theorem UserResize_scrollOffset_exceeds_scrollback :
  scroll_in_range scrolled_session /\
  exists t' : Terminal,
    UserResize resize_ok scrolled_session (mkCOORD 100 30) = Ok (S_OK, t') /\
    _scrollOffset t' = 5 /\
    _ViewStartIndex t' = 0 /\
    ~ scroll_in_range t' /\
    GetScrollOffset t' = 0.
Proof.
  split.
  - unfold scroll_in_range. cbn. lia.
  - eexists. split; [reflexivity|].
    repeat split. unfold scroll_in_range. cbn. lia.
Qed.

(** ** The writer: rotation and commit *)

Lemma cycle_rotates (n : nat) :
  forall (b : TextBuffer) (y : Z),
    SHORT_MIN <= y - Z.of_nat n -> y <= SHORT_MAX ->
    cycle n b y =
      (mkTextBuffer (Cursor b) (GetSize b) (rotations b + Z.of_nat n) (written b),
       y - Z.of_nat n).
Proof.
  induction n as [|n IH]; intros b y Hlo Hhi.
  - cbn [cycle]. destruct b; cbn. f_equal; [f_equal|]; lia.
  - cbn [cycle]. rewrite to_short_small
      by (unfold is_short, SHORT_MIN, SHORT_MAX in *; lia).
    rewrite IH by lia. cbn. f_equal; [f_equal|]; lia.
Qed.

Lemma owed_notification (t : Terminal) :
  engine_ok t ->
  exists t' : Terminal,
    _NotifyScrollEvent (emit t TriggerRedrawAll) = Ok t' /\
    trace t' = trace t ++ owed_events t' /\
    _mutableViewport t' = _mutableViewport t /\
    _buffer t' = _buffer t /\
    skipNewline t' = skipNewline t /\
    _scrollOffset t' = _scrollOffset t /\
    _pfnScrollPositionChanged t' = _pfnScrollPositionChanged t.
Proof.
  intros Hok.
  rewrite (_NotifyScrollEvent_ok (emit t TriggerRedrawAll) Hok).
  eexists. split; [reflexivity|].
  unfold owed_events.
  cbn [emit _pfnScrollPositionChanged].
  destruct (_pfnScrollPositionChanged t) eqn:Ecb.
  - cbn. rewrite Ecb, <- app_assoc. now repeat split.
  - cbn. rewrite Ecb. now repeat split.
Qed.

Lemma engine_ok_fields (t t' : Terminal) :
  _mutableViewport t' = _mutableViewport t ->
  _scrollOffset t' = _scrollOffset t ->
  engine_ok t -> engine_ok t'.
Proof. unfold engine_ok. now intros -> ->. Qed.

Lemma commit_ok (t : Terminal) (b : TextBuffer) (proposed : COORD) :
  engine_ok t ->
  is_short (Y proposed) ->
  0 < Height (GetSize b) <= SHORT_MAX ->
  exists (t' : Terminal) (owed : bool),
    commit t b proposed = Ok (t', owed) /\
    commit_spec t b proposed t' owed /\
    engine_ok t'.
Proof.
  intros Hok Hy Hh.
  assert (Hok' := Hok). destruct Hok' as (Htop & Hvh & Hoff).
  unfold is_short, SHORT_MIN, SHORT_MAX in *.
  unfold commit, commit_spec, rotated_rows, committed_row.
  set (H := Height (GetSize b)) in *.
  set (y := Y proposed) in *.
  (* the rotation *)
  assert (Hrot :
    (if 0 <? y - H + 1
     then let (b', y') := cycle (Z.to_nat (y - H + 1)) b y in (b', y', true)
     else (b, y, false)) =
    (mkTextBuffer (Cursor b) (GetSize b)
       (rotations b + Z.max 0 (y - H + 1)) (written b),
     Z.min y (H - 1), 0 <? y - H + 1)).
  { destruct (0 <? y - H + 1) eqn:E.
    - apply Z.ltb_lt in E.
      rewrite cycle_rotates
        by (unfold SHORT_MIN, SHORT_MAX; rewrite ?Z2Nat.id; lia).
      rewrite Z2Nat.id by lia.
      replace (Z.max 0 (y - H + 1)) with (y - H + 1) by lia.
      replace (Z.min y (H - 1)) with (y - (y - H + 1)) by lia.
      reflexivity.
    - apply Z.ltb_ge in E.
      replace (Z.max 0 (y - H + 1)) with 0 by lia.
      replace (Z.min y (H - 1)) with y by lia.
      rewrite Z.add_0_r. now destruct b. }
  rewrite Hrot. clear Hrot.
  cbn [Cursor _mutableViewport Y X].
  set (y1 := Z.min y (H - 1)).
  set (b2 := SetPosition _ _).
  set (t1 := set_skipNewline (set_buffer t b2) _).
  assert (Hok1 : engine_ok t1) by exact Hok.
  change (_mutableViewport t1) with (_mutableViewport t).
  change (Cursor b2) with (mkCOORD (X proposed) y1). cbn [Y].
  destruct (y1 >? BottomInclusive (_mutableViewport t)) eqn:Ebelow.
  - (* the cursor went below the live viewport *)
    assert (Hgt : y1 > BottomInclusive (_mutableViewport t))
      by (apply Z.gtb_lt in Ebelow; lia).
    unfold BottomInclusive in Hgt.
    set (newTop := Z.max 0 (y1 - (Height (_mutableViewport t) - 1))).
    assert (Hnew : vTop (_mutableViewport t) < newTop <= 32767)
      by (unfold newTop, y1; lia).
    assert (Ene : negb (newTop =? vTop (_mutableViewport t)) = true).
    { apply negb_true_iff, Z.eqb_neq. lia. }
    rewrite Ene.
    rewrite narrow_short_small
      by (unfold is_short, SHORT_MIN, SHORT_MAX; lia).
    cbn [bind].
    set (t2 := set_mutableViewport t1 _).
    assert (Hok2 : engine_ok t2).
    { unfold engine_ok, t2, FromDimensions, Dimensions, vTop, Height,
        SHORT_MAX; cbn. unfold Height in Hvh. repeat split; lia. }
    destruct (owed_notification t2 Hok2)
      as (t3 & Hrun & Htr & Hvp & Hb & Hs & Ho & Hc).
    rewrite Hrun. cbn [bind].
    exists t3, true. split; [reflexivity|]. split.
    + rewrite Hb, Hs, Hvp, Ho, Hc, Htr.
      repeat split; try reflexivity.
      * unfold vTop, t2; cbn. unfold vTop in Hnew. lia.
      * intros _. right. unfold vTop, t2; cbn. unfold vTop in Hnew. lia.
    + now apply (engine_ok_fields t2).
  - (* the live viewport stays *)
    cbn [bind].
    destruct (0 <? y - H + 1) eqn:E.
    + apply Z.ltb_lt in E.
      destruct (owed_notification t1 Hok1)
        as (t3 & Hrun & Htr & Hvp & Hb & Hs & Ho & Hc).
      rewrite Hrun. cbn [bind].
      exists t3, true. split; [reflexivity|]. split.
      * rewrite Hb, Hs, Hvp, Ho, Hc, Htr.
        repeat split; try reflexivity; lia.
      * now apply (engine_ok_fields t1).
    + apply Z.ltb_ge in E.
      exists t1, false. split; [reflexivity|]. split.
      * rewrite app_nil_r.
        repeat split; try reflexivity; try lia; try discriminate.
        intros [F|F]; [lia|now elim F].
      * exact Hok1.
Qed.

(** ** The writer: one pass of the loop *)

Ltac short_facts :=
  repeat split;
  first [ reflexivity
        | assumption
        | apply to_short_range
        | match goal with
          | H : is_short ?z |- _ <= ?z => apply H
          | H : is_short ?z |- ?z <= _ => apply H
          end ].

Section Writer.

Variable cellDistance : TextBuffer -> list wchar_t -> Z.

Let step := _WriteBuffer_step cellDistance.

Lemma propose_facts (t : Terminal) (s : list wchar_t) (i : Z)
  (wch : wchar_t) (b : TextBuffer) (p : COORD) (skip : Z) :
  is_short (X (Cursor (_buffer t))) ->
  is_short (Y (Cursor (_buffer t))) ->
  propose cellDistance t s i wch = Ok (Proposed b p skip) ->
  GetSize b = GetSize (_buffer t) /\
  rotations b = rotations (_buffer t) /\
  Cursor b = Cursor (_buffer t) /\
  is_short (X p) /\ is_short (Y p).
Proof.
  intros Hx Hy. unfold propose.
  assert (H0 : is_short 0) by (unfold is_short, SHORT_MIN, SHORT_MAX; lia).
  destruct (wch =? UNICODE_LINEFEED).
  { destruct (skipNewline t); intros E; inversion E; subst; cbn.
    short_facts. }
  destruct (wch =? UNICODE_CARRIAGERETURN).
  { intros E; inversion E; subst; cbn. short_facts. }
  destruct (wch =? UNICODE_BACKSPACE).
  { destruct (X (Cursor (_buffer t)) =? 0); intros E; inversion E; subst;
      cbn; short_facts. }
  destruct (is_surrogate wch).
  - destruct (narrow_short _); cbn [bind]; intros E; inversion E; subst.
    cbn. short_facts.
  - destruct (narrow_short _); cbn [bind]; intros E; inversion E; subst.
    cbn. short_facts.
Qed.

(** A pass that is not a suppressed line feed is the commit of what the
    dispatch proposed. *)
Lemma step_proposed (t : Terminal) (s : list wchar_t) (i : Z)
  (b : TextBuffer) (p : COORD) (skip : Z) :
  writer_ok t ->
  propose cellDistance t s i (nth (Z.to_nat i) s 0) =
    Ok (Proposed b p skip) ->
  exists (t' : Terminal) (owed : bool),
    step t s i = Ok (t', i + skip + 1) /\
    commit_spec t b p t' owed /\
    GetSize b = GetSize (_buffer t) /\
    rotations b = rotations (_buffer t) /\
    engine_ok t'.
Proof.
  intros (Hok & Hx & Hy & Hh) Hp.
  destruct (propose_facts t s i _ b p skip Hx Hy Hp)
    as (Hsize & Hrot & _ & _ & Hpy).
  destruct (commit_ok t b p Hok Hpy) as (t' & owed & Hc & Hspec & Hok').
  { now rewrite Hsize. }
  exists t', owed. unfold step, _WriteBuffer_step.
  rewrite Hp. cbn [bind]. rewrite Hc. cbn [bind fst].
  repeat (split; [first [reflexivity | assumption]|]). assumption.
Qed.

Lemma step_suppressed (t : Terminal) (s : list wchar_t) (i : Z) :
  propose cellDistance t s i (nth (Z.to_nat i) s 0) = Ok Suppressed ->
  step t s i = Ok (set_skipNewline t false, i + 1).
Proof.
  intros Hp. unfold step, _WriteBuffer_step. now rewrite Hp.
Qed.

Lemma propose_suppressed_iff (t : Terminal) (s : list wchar_t) (i : Z)
  (wch : wchar_t) :
  propose cellDistance t s i wch = Ok Suppressed <->
  wch = UNICODE_LINEFEED /\ skipNewline t = true.
Proof.
  unfold propose. split.
  - destruct (wch =? UNICODE_LINEFEED) eqn:E.
    + apply Z.eqb_eq in E. destruct (skipNewline t); [auto|discriminate].
    + destruct (wch =? UNICODE_CARRIAGERETURN); [discriminate|].
      destruct (wch =? UNICODE_BACKSPACE).
      { destruct (X (Cursor (_buffer t)) =? 0); discriminate. }
      destruct (is_surrogate wch); destruct (narrow_short _);
        cbn [bind]; discriminate.
  - intros [-> ->]. reflexivity.
Qed.

Lemma suppresses_iff (t : Terminal) (s : list wchar_t) (i : Z) :
  suppresses cellDistance t s i = true <->
  nth (Z.to_nat i) s 0 = UNICODE_LINEFEED /\ skipNewline t = true.
Proof.
  rewrite <- propose_suppressed_iff with (s := s) (i := i).
  unfold suppresses.
  destruct (propose cellDistance t s i (nth (Z.to_nat i) s 0)) as [[]| |];
    split; intros E; try reflexivity; discriminate E.
Qed.

(** C4.  Whenever the row proposed for the character at hand exceeds the
    last row of the buffer by [k > 0], the pass rotates the buffer exactly
    [k] times, commits the cursor at the last row of the buffer (the
    proposed row less [k]), and makes the owed notification: a full
    redraw, then the scroll callback when one is registered. *)
Theorem overflow_rotates_buffer :
  forall (t : Terminal) (s : list wchar_t) (i : Z)
         (b : TextBuffer) (proposed : COORD) (skip k : Z),
    writer_ok t ->
    propose cellDistance t s i (nth (Z.to_nat i) s 0) =
      Ok (Proposed b proposed skip) ->
    0 < k ->
    Y proposed = Height (GetSize (_buffer t)) - 1 + k ->
    exists t' : Terminal,
      _WriteBuffer_step cellDistance t s i = Ok (t', i + skip + 1) /\
      rotations (_buffer t') = rotations (_buffer t) + k /\
      Y (Cursor (_buffer t')) = Y proposed - k /\
      Y (Cursor (_buffer t')) = Height (GetSize (_buffer t)) - 1 /\
      X (Cursor (_buffer t')) = X proposed /\
      trace t' = trace t ++ owed_events t'.
Proof.
  intros t s i b proposed skip k Hw Hp Hk Hrow.
  destruct (step_proposed t s i b proposed skip Hw Hp)
    as (t' & owed & Hstep & Hspec & Hsize & Hrot & _).
  destruct Hspec as (Hcur & Hrots & _ & _ & _ & _ & _ & _ & _ & Howed & Htr).
  unfold rotated_rows, committed_row in *. rewrite Hsize in *.
  assert (Eo : owed = true) by (apply Howed; left; lia).
  subst owed. exists t'. rewrite Hcur, Hrots, Hrot, Htr. cbn [X Y].
  repeat split; try assumption; lia.
Qed.

(** What a pass that returns has done. *)
Lemma step_inv (t t1 : Terminal) (s : list wchar_t) (i i1 : Z) :
  writer_ok t ->
  step t s i = Ok (t1, i1) ->
  (suppresses cellDistance t s i = true /\
   t1 = set_skipNewline t false /\ i1 = i + 1) \/
  (suppresses cellDistance t s i = false /\
   exists (b : TextBuffer) (p : COORD) (skip : Z) (owed : bool),
     propose cellDistance t s i (nth (Z.to_nat i) s 0) =
       Ok (Proposed b p skip) /\
     commit_spec t b p t1 owed /\
     i1 = i + skip + 1 /\
     GetSize b = GetSize (_buffer t) /\
     rotations b = rotations (_buffer t) /\
     engine_ok t1).
Proof.
  intros Hw Hstep.
  destruct (propose cellDistance t s i (nth (Z.to_nat i) s 0))
    as [[|b p skip]| |] eqn:Hp.
  - left. rewrite (step_suppressed t s i Hp) in Hstep.
    inversion Hstep; subst. unfold suppresses. now rewrite Hp.
  - right. destruct (step_proposed t s i b p skip Hw Hp)
      as (t' & owed & Hs & Hspec & Hsize & Hrot & Hok').
    rewrite Hs in Hstep. inversion Hstep; subst.
    split; [unfold suppresses; now rewrite Hp|].
    exists b, p, skip, owed.
    repeat (split; [first [reflexivity | assumption]|]). assumption.
  - unfold step, _WriteBuffer_step in Hstep. rewrite Hp in Hstep.
    discriminate Hstep.
  - unfold step, _WriteBuffer_step in Hstep. rewrite Hp in Hstep.
    discriminate Hstep.
Qed.

Lemma step_writer_ok (t t1 : Terminal) (s : list wchar_t) (i i1 : Z) :
  writer_ok t ->
  step t s i = Ok (t1, i1) ->
  writer_ok t1.
Proof.
  intros Hw Hstep. assert (Hw' := Hw).
  destruct Hw' as (Hok & Hx & Hy & Hh).
  destruct (step_inv t t1 s i i1 Hw Hstep)
    as [(_ & -> & _) | (_ & b & p & skip & owed & Hp & Hspec & _ & Hsize & _ & Hok1)].
  - exact Hw.
  - destruct (propose_facts t s i _ b p skip Hx Hy Hp)
      as (_ & _ & _ & Hpx & Hpy).
    destruct Hspec as (Hcur & _ & Hsz & _).
    unfold writer_ok. rewrite Hcur, Hsz, Hsize. cbn [X Y].
    unfold committed_row. rewrite Hsize.
    unfold is_short, SHORT_MIN, SHORT_MAX in *.
    repeat split; try apply Hok1; lia.
Qed.

(** The flag a pass leaves: set exactly when the pass was not a suppressed
    line feed and committed the cursor one row below where it was. *)
Lemma step_sets_skipNewline (t t1 : Terminal) (s : list wchar_t) (i i1 : Z) :
  writer_ok t ->
  step t s i = Ok (t1, i1) ->
  skipNewline t1 =
    negb (suppresses cellDistance t s i) &&
    (Y (Cursor (_buffer t1)) =? Y (Cursor (_buffer t)) + 1).
Proof.
  intros Hw Hstep.
  destruct (step_inv t t1 s i i1 Hw Hstep)
    as [(-> & -> & _) | (-> & b & p & skip & owed & _ & Hspec & _)].
  - reflexivity.
  - destruct Hspec as (Hcur & _ & _ & _ & Hflag & _).
    rewrite Hflag, Hcur. reflexivity.
Qed.

(** A line feed: suppressed when the flag is set, otherwise one row down,
    the buffer rotating instead when the cursor is on its last row. *)
Lemma line_feed_step (t : Terminal) (s : list wchar_t) (i : Z) :
  writer_ok t ->
  Y (Cursor (_buffer t)) < Height (GetSize (_buffer t)) ->
  nth (Z.to_nat i) s 0 = UNICODE_LINEFEED ->
  (skipNewline t = true ->
     step t s i = Ok (set_skipNewline t false, i + 1)) /\
  (skipNewline t = false ->
     exists t2 : Terminal,
       step t s i = Ok (t2, i + 1) /\
       X (Cursor (_buffer t2)) = X (Cursor (_buffer t)) /\
       Y (Cursor (_buffer t2)) =
         Z.min (Y (Cursor (_buffer t)) + 1)
               (Height (GetSize (_buffer t)) - 1) /\
       rotations (_buffer t2) =
         rotations (_buffer t) +
         Z.max 0 (Y (Cursor (_buffer t)) + 2 - Height (GetSize (_buffer t)))).
Proof.
  intros Hw Hlt Hlf. assert (Hw' := Hw).
  destruct Hw' as (Hok & Hx & Hy & Hh). split; intros Hflag.
  - apply step_suppressed, propose_suppressed_iff. now split.
  - assert (Hp : propose cellDistance t s i (nth (Z.to_nat i) s 0) =
                 Ok (Proposed (_buffer t)
                       (mkCOORD (X (Cursor (_buffer t)))
                                (Y (Cursor (_buffer t)) + 1)) 0)).
    { unfold propose. rewrite Hlf, Z.eqb_refl, Hflag.
      rewrite to_short_small; [reflexivity|].
      unfold is_short, SHORT_MIN, SHORT_MAX in *. lia. }
    destruct (step_proposed t s i _ _ _ Hw Hp)
      as (t2 & owed & Hs & Hspec & _).
    destruct Hspec as (Hcur & Hrots & _).
    exists t2. rewrite Hcur, Hrots.
    unfold committed_row, rotated_rows. cbn [X Y].
    replace (i + 0 + 1) with (i + 1) in Hs by lia.
    repeat split; try assumption; try reflexivity. f_equal. lia.
Qed.

(** A carriage return never sets the flag. *)
Lemma carriage_return_step (t : Terminal) (s : list wchar_t) (i : Z) :
  writer_ok t ->
  Y (Cursor (_buffer t)) < Height (GetSize (_buffer t)) ->
  nth (Z.to_nat i) s 0 = UNICODE_CARRIAGERETURN ->
  exists t1 : Terminal,
    step t s i = Ok (t1, i + 1) /\
    Cursor (_buffer t1) = mkCOORD 0 (Y (Cursor (_buffer t))) /\
    skipNewline t1 = false.
Proof.
  intros Hw Hlt Hcr.
  assert (Hp : propose cellDistance t s i (nth (Z.to_nat i) s 0) =
               Ok (Proposed (_buffer t)
                     (mkCOORD 0 (Y (Cursor (_buffer t)))) 0)).
  { unfold propose. now rewrite Hcr. }
  destruct (step_proposed t s i _ _ _ Hw Hp) as (t1 & owed & Hs & Hspec & _).
  destruct Hspec as (Hcur & _ & _ & _ & Hflag & _).
  exists t1. rewrite Hcur, Hflag. unfold committed_row. cbn [X Y].
  replace (i + 0 + 1) with (i + 1) in Hs by lia.
  repeat split; try assumption.
  - f_equal. lia.
  - apply Z.eqb_neq. lia.
Qed.

(** C5, as the code has it.  A line feed is suppressed exactly when the
    pass before it, whatever its character, was not itself a suppressed
    line feed and committed the cursor exactly one row below where it
    started; the suppressed line feed leaves the cursor where it is and
    clears the flag.  In every other case the line feed keeps the column
    and moves the cursor one row down, except on the last row of the
    buffer, where the buffer rotates once and the row stays. *)
Theorem line_feed_suppression :
  forall (t t1 : Terminal) (s : list wchar_t) (i i1 : Z),
    writer_ok t ->
    Y (Cursor (_buffer t)) < Height (GetSize (_buffer t)) ->
    _WriteBuffer_step cellDistance t s i = Ok (t1, i1) ->
    nth (Z.to_nat i1) s 0 = UNICODE_LINEFEED ->
    let advanced :=
      negb (suppresses cellDistance t s i) &&
      (Y (Cursor (_buffer t1)) =? Y (Cursor (_buffer t)) + 1) in
    (suppresses cellDistance t1 s i1 = advanced) /\
    (advanced = true ->
       _WriteBuffer_step cellDistance t1 s i1 =
         Ok (set_skipNewline t1 false, i1 + 1)) /\
    (advanced = false ->
       exists t2 : Terminal,
         _WriteBuffer_step cellDistance t1 s i1 = Ok (t2, i1 + 1) /\
         X (Cursor (_buffer t2)) = X (Cursor (_buffer t1)) /\
         Y (Cursor (_buffer t2)) =
           Z.min (Y (Cursor (_buffer t1)) + 1)
                 (Height (GetSize (_buffer t1)) - 1) /\
         rotations (_buffer t2) =
           rotations (_buffer t1) +
           Z.max 0 (Y (Cursor (_buffer t1)) + 2
                    - Height (GetSize (_buffer t1)))).
Proof.
  intros t t1 s i i1 Hw Hlt Hstep Hlf advanced.
  assert (Hflag : skipNewline t1 = advanced)
    by exact (step_sets_skipNewline t t1 s i i1 Hw Hstep).
  assert (Hw1 : writer_ok t1) by exact (step_writer_ok t t1 s i i1 Hw Hstep).
  assert (Hlt1 : Y (Cursor (_buffer t1)) < Height (GetSize (_buffer t1))).
  { destruct (step_inv t t1 s i i1 Hw Hstep)
      as [(_ & -> & _) | (_ & b & p & skip & owed & _ & Hspec & _ & Hsize & _)].
    - exact Hlt.
    - destruct Hspec as (Hcur & _ & Hsz & _).
      rewrite Hcur, Hsz. unfold committed_row. cbn [Y]. lia. }
  destruct (line_feed_step t1 s i1 Hw1 Hlt1 Hlf) as (Hsup & Hadv).
  rewrite <- Hflag. split; [|split; assumption].
  destruct (skipNewline t1) eqn:E.
  - apply suppresses_iff. now split.
  - destruct (suppresses cellDistance t1 s i1) eqn:E1; [|reflexivity].
    apply suppresses_iff in E1. destruct E1 as (_ & E1). congruence.
Qed.

(** The cursor a pass commits for a proposed position. *)
Lemma step_cursor (t : Terminal) (s : list wchar_t) (i : Z)
  (b : TextBuffer) (p : COORD) (skip : Z) :
  writer_ok t ->
  propose cellDistance t s i (nth (Z.to_nat i) s 0) =
    Ok (Proposed b p skip) ->
  exists t' : Terminal,
    step t s i = Ok (t', i + skip + 1) /\
    GetSize (_buffer t') = GetSize (_buffer t) /\
    Cursor (_buffer t') =
      mkCOORD (X p) (Z.min (Y p) (Height (GetSize (_buffer t)) - 1)).
Proof.
  intros Hw Hp.
  destruct (step_proposed t s i b p skip Hw Hp)
    as (t' & owed & Hs & Hspec & Hsize & _).
  destruct Hspec as (Hcur & _ & Hsz & _).
  exists t'. rewrite Hcur, Hsz. unfold committed_row. rewrite Hsize.
  now repeat split.
Qed.

(** C8, as the code has it.  From a cursor inside the buffer, a pass on any
    character other than a backspace at column 0 of row 0 commits a row
    within [0, bufferHeight) and a column that is not negative.  After a
    line feed, a carriage return or a backspace the column is below the
    buffer width; after content it is the column before plus the cells
    the buffer reported (a count that the [SHORT] column arithmetic can
    hold), with no wrap at the right edge. *)
Theorem cursor_bounds_after_step :
  forall (t : Terminal) (s : list wchar_t) (i : Z),
    writer_ok t ->
    cursor_in_buffer (_buffer t) ->
    Width (GetSize (_buffer t)) <= SHORT_MAX ->
    0 <= cellDistance (_buffer t) (content_run s i)
      <= SHORT_MAX - Width (GetSize (_buffer t)) ->
    ~ (nth (Z.to_nat i) s 0 = UNICODE_BACKSPACE /\
       X (Cursor (_buffer t)) = 0 /\ Y (Cursor (_buffer t)) = 0) ->
    exists (t' : Terminal) (i' : Z),
      _WriteBuffer_step cellDistance t s i = Ok (t', i') /\
      GetSize (_buffer t') = GetSize (_buffer t) /\
      0 <= Y (Cursor (_buffer t')) < Height (GetSize (_buffer t)) /\
      0 <= X (Cursor (_buffer t')) /\
      (~ is_content (nth (Z.to_nat i) s 0) ->
         X (Cursor (_buffer t')) < Width (GetSize (_buffer t))) /\
      (is_content (nth (Z.to_nat i) s 0) ->
         X (Cursor (_buffer t')) =
           X (Cursor (_buffer t)) + cellDistance (_buffer t) (content_run s i)).
Proof.
  intros t s i Hw (Hcx & Hcy) HW Hcd Hnot.
  set (wch := nth (Z.to_nat i) s 0) in *.
  destruct (Z.eq_dec wch UNICODE_LINEFEED) as [Elf|Nlf].
  { (* line feed *)
    destruct (line_feed_step t s i Hw (proj2 Hcy) Elf) as (Hsup & Hadv).
    destruct (skipNewline t).
    - exists (set_skipNewline t false), (i + 1).
      split; [now apply Hsup|]. cbn.
      repeat split; try lia. intros (F & _). now elim F.
    - destruct (Hadv eq_refl) as (t2 & Hs & Hx & Hy & _).
      destruct (step_inv t t2 s i (i + 1) Hw Hs)
        as [(_ & -> & _) | (_ & b & p & skip & owed & _ & Hspec & _ & Hsize & _)].
      + exists (set_skipNewline t false), (i + 1). cbn in *.
        repeat split; try assumption; try lia. intros (F & _). now elim F.
      + destruct Hspec as (_ & _ & Hsz & _).
        exists t2, (i + 1). rewrite Hx, Hy, Hsz, Hsize.
        repeat split; try assumption; try lia. intros (F & _). now elim F. }
  destruct (Z.eq_dec wch UNICODE_CARRIAGERETURN) as [Ecr|Ncr].
  { (* carriage return *)
    destruct (carriage_return_step t s i Hw (proj2 Hcy) Ecr)
      as (t1 & Hs & Hcur & _).
    destruct (step_inv t t1 s i (i + 1) Hw Hs)
      as [(Hsup & _) | (_ & b & p & skip & owed & _ & Hspec & _ & Hsize & _)].
    - apply suppresses_iff in Hsup. fold wch in Hsup.
      destruct Hsup as (F & _). congruence.
    - destruct Hspec as (_ & _ & Hsz & _).
      exists t1, (i + 1). rewrite Hcur, Hsz, Hsize. cbn [X Y].
      repeat split; try assumption; try lia.
      intros (_ & F & _). now elim F. }
  assert (Enlf : (wch =? UNICODE_LINEFEED) = false) by now apply Z.eqb_neq.
  assert (Encr : (wch =? UNICODE_CARRIAGERETURN) = false)
    by now apply Z.eqb_neq.
  assert (Hw' := Hw). destruct Hw' as (Hok & Hsx & Hsy & Hh).
  unfold is_short, SHORT_MIN, SHORT_MAX in *.
  destruct (Z.eq_dec wch UNICODE_BACKSPACE) as [Ebs|Nbs].
  { (* backspace *)
    destruct (Z.eq_dec (X (Cursor (_buffer t))) 0) as [Ex|Nx].
    - assert (Hy1 : 1 <= Y (Cursor (_buffer t))) by (fold wch in Hnot; lia).
      assert (Hp : propose cellDistance t s i wch =
                   Ok (Proposed (_buffer t)
                         (mkCOORD (Width (GetSize (_buffer t)) - 1)
                                  (Y (Cursor (_buffer t)) - 1)) 0)).
      { unfold propose. rewrite Enlf, Encr, Ebs, Ex. cbn.
        rewrite !to_short_small
          by (unfold is_short, SHORT_MIN, SHORT_MAX; lia).
        reflexivity. }
      destruct (step_cursor t s i _ _ _ Hw Hp) as (t' & Hs & Hsz & Hcur).
      exists t', (i + 0 + 1). rewrite Hcur, Hsz. cbn [X Y].
      repeat split; try assumption; try lia.
      intros (_ & _ & F). now elim F.
    - assert (Hp : propose cellDistance t s i wch =
                   Ok (Proposed (_buffer t)
                         (mkCOORD (X (Cursor (_buffer t)) - 1)
                                  (Y (Cursor (_buffer t)))) 0)).
      { unfold propose. rewrite Enlf, Encr, Ebs.
        apply Z.eqb_neq in Nx. rewrite Nx. cbn.
        rewrite !to_short_small
          by (unfold is_short, SHORT_MIN, SHORT_MAX; lia).
        reflexivity. }
      destruct (step_cursor t s i _ _ _ Hw Hp) as (t' & Hs & Hsz & Hcur).
      exists t', (i + 0 + 1). rewrite Hcur, Hsz. cbn [X Y].
      repeat split; try assumption; try lia.
      intros (_ & _ & F). now elim F. }
  (* content *)
  assert (Enbs : (wch =? UNICODE_BACKSPACE) = false) by now apply Z.eqb_neq.
  pose proof Hcd as Hd.
  assert (Hp : exists skip : Z,
             propose cellDistance t s i wch =
               Ok (Proposed (record_write (_buffer t) (content_run s i))
                     (mkCOORD (X (Cursor (_buffer t))
                               + cellDistance (_buffer t) (content_run s i))
                              (Y (Cursor (_buffer t)))) skip)).
  { unfold propose, content_run in *. fold wch in Hd |- *.
    rewrite Enlf, Encr, Enbs.
    destruct (is_surrogate wch);
      rewrite narrow_short_small
        by (unfold is_short, SHORT_MIN, SHORT_MAX; lia);
      cbn [bind];
      rewrite to_short_small
        by (unfold is_short, SHORT_MIN, SHORT_MAX; lia);
      eexists; reflexivity. }
  destruct Hp as (skip & Hp).
  destruct (step_cursor t s i _ _ _ Hw Hp) as (t' & Hs & Hsz & Hcur).
  exists t', (i + skip + 1). rewrite Hcur, Hsz. cbn [X Y].
  repeat split; try assumption; try lia.
  intros F. elim F. now repeat split.
Qed.

(** ** The scroll offset under the writer and the key handler *)

Lemma step_scroll_in_range (t t1 : Terminal) (s : list wchar_t) (i i1 : Z) :
  writer_ok t ->
  scroll_in_range t ->
  step t s i = Ok (t1, i1) ->
  scroll_in_range t1.
Proof.
  intros Hw Hin Hstep.
  destruct (step_inv t t1 s i i1 Hw Hstep)
    as [(_ & -> & _) | (_ & b & p & skip & owed & _ & Hspec & _)].
  - exact Hin.
  - destruct Hspec as (_ & _ & _ & _ & _ & _ & Htop & Hoff & _).
    unfold scroll_in_range, _ViewStartIndex in *. rewrite Hoff. lia.
Qed.

Lemma _WriteBuffer_from_scroll_in_range (fuel : nat) :
  forall (t t' : Terminal) (s : list wchar_t) (i : Z),
    writer_ok t ->
    scroll_in_range t ->
    _WriteBuffer_from cellDistance fuel t s i = Ok t' ->
    writer_ok t' /\ scroll_in_range t'.
Proof.
  induction fuel as [|fuel IH]; intros t t' s i Hw Hin Hrun;
    cbn [_WriteBuffer_from] in Hrun;
    destruct ((0 <=? i) && (i <? Z.of_nat (List.length s)));
    try discriminate Hrun; try (inversion Hrun; subst; now split).
  destruct (_WriteBuffer_step cellDistance t s i) as [[t1 i1]| |] eqn:Hs;
    cbn [bind fst snd] in Hrun; try discriminate Hrun.
  apply (IH t1 t' s i1); try assumption.
  - exact (step_writer_ok t t1 s i i1 Hw Hs).
  - exact (step_scroll_in_range t t1 s i i1 Hw Hin Hs).
Qed.

End Writer.

Lemma SendKeyEvent_scroll_in_range (HandleKey : Z -> Z -> bool)
  (t : Terminal) (vkey : Z) (ctrl alt shift : bool) :
  engine_ok t ->
  scroll_in_range t ->
  exists (handled : bool) (t' : Terminal),
    SendKeyEvent HandleKey t vkey ctrl alt shift = Ok (handled, t') /\
    scroll_in_range t'.
Proof.
  intros Hok Hin. unfold SendKeyEvent.
  destruct (_snapOnInput t && negb (_scrollOffset t =? 0)).
  - assert (Hok0 : engine_ok (set_scrollOffset t 0)).
    { destruct Hok as (H1 & H2 & H3). unfold engine_ok, INT_MAX in *; cbn.
      repeat split; try apply H1; try apply H2; lia. }
    rewrite (_NotifyScrollEvent_ok _ Hok0). cbn [bind].
    eexists. eexists. split; [reflexivity|].
    unfold scroll_in_range, _ViewStartIndex in *.
    destruct Hok as ((H1 & _) & _).
    destruct (_pfnScrollPositionChanged (set_scrollOffset t 0)); cbn; lia.
  - cbn [bind]. eexists. eexists. split; [reflexivity|]. exact Hin.
Qed.

(** ** Selection geometry *)

Lemma selection_rows_ok (fuel : nat) :
  forall (t : Terminal) (hi lo : COORD) (row : Z),
    is_short (_ViewStartIndex t) ->
    is_short row ->
    Y lo < SHORT_MAX ->
    SHORT_MIN <= row + _ViewStartIndex t ->
    Y lo + _ViewStartIndex t <= SHORT_MAX ->
    row <= Y lo + 1 ->
    (Z.to_nat (Y lo + 1 - row) <= fuel)%nat ->
    exists rects : list SMALL_RECT,
      selection_rows fuel t hi lo row = Ok rects /\
      Z.of_nat (List.length rects) = Y lo + 1 - row /\
      forall k : nat,
        (k < List.length rects)%nat ->
        nth k rects no_rect =
          mkRECT (row_left t hi lo (row + Z.of_nat k))
                 (row + Z.of_nat k + _ViewStartIndex t)
                 (row_right t hi lo (row + Z.of_nat k))
                 (row + Z.of_nat k + _ViewStartIndex t).
Proof.
  induction fuel as [|fuel IH]; intros t hi lo row Hs Hr Hlo Hmin Hmax Hle Hfuel.
  - exists []. cbn [selection_rows].
    assert (E : (row <=? Y lo) = false) by (apply Z.leb_gt; lia).
    rewrite E. repeat split; cbn; lia.
  - cbn [selection_rows]. destruct (row <=? Y lo) eqn:E.
    + apply Z.leb_le in E.
      rewrite (narrow_short_small _ Hs). cbn [bind].
      unfold ShortAdd. rewrite narrow_short_small
        by (unfold is_short, SHORT_MIN, SHORT_MAX in *; lia).
      cbn [bind].
      rewrite to_short_small
        by (unfold is_short, SHORT_MIN, SHORT_MAX in *; lia).
      destruct (IH t hi lo (row + 1)) as (rest & Hrun & Hlen & Hnth);
        try assumption; try lia.
      { unfold is_short, SHORT_MIN, SHORT_MAX in *; lia. }
      rewrite Hrun. cbn [bind].
      eexists. split; [reflexivity|]. split.
      * cbn [List.length]. lia.
      * intros [|k] Hk; cbn [nth].
        -- rewrite Z.add_0_r. reflexivity.
        -- cbn [List.length] in Hk. rewrite Hnth by lia.
           replace (row + 1 + Z.of_nat k) with (row + Z.of_nat (S k)) by lia.
           reflexivity.
    + apply Z.leb_gt in E. exists []. repeat split; cbn; lia.
Qed.

(** The two ends the loop runs between. *)
Lemma selection_ends (t : Terminal) :
  Y (if Y (_selectionAnchor t) <=? Y (_endSelectionPosition t)
     then _selectionAnchor t else _endSelectionPosition t) =
    first_selected_row t /\
  Y (if Y (_selectionAnchor t) >? Y (_endSelectionPosition t)
     then _selectionAnchor t else _endSelectionPosition t) =
    last_selected_row t.
Proof.
  unfold first_selected_row, last_selected_row. split.
  - destruct (Z.leb_spec (Y (_selectionAnchor t)) (Y (_endSelectionPosition t)));
      lia.
  - rewrite Z.gtb_ltb.
    destruct (Z.ltb_spec (Y (_endSelectionPosition t)) (Y (_selectionAnchor t)));
      lia.
Qed.

(** C6.  With the selection not rendered, and so after [ClearSelection],
    there are no rectangles.  With it rendered there are exactly
    [|anchorRow - endRow| + 1] of them, the [k]-th for the row [k] below the
    smaller stored row, its top and bottom being that row plus the
    scrollback depth.  Rows and depth are [SHORT]s whose sums are [SHORT]s. *)
Theorem GetSelectionRects_rows :
  forall (t : Terminal) (fuel : nat),
    selection_in_range t ->
    (Z.to_nat (Z.abs (Y (_selectionAnchor t) - Y (_endSelectionPosition t)) + 1)
       <= fuel)%nat ->
    _GetSelectionRects fuel (ClearSelection t) = Ok [] /\
    (_renderSelection t = false -> _GetSelectionRects fuel t = Ok []) /\
    (_renderSelection t = true ->
       exists rects : list SMALL_RECT,
         _GetSelectionRects fuel t = Ok rects /\
         Z.of_nat (List.length rects) =
           Z.abs (Y (_selectionAnchor t) - Y (_endSelectionPosition t)) + 1 /\
         forall k : nat,
           (k < List.length rects)%nat ->
           Top (nth k rects no_rect) =
             first_selected_row t + Z.of_nat k + _ViewStartIndex t /\
           Bottom (nth k rects no_rect) =
             first_selected_row t + Z.of_nat k + _ViewStartIndex t /\
           first_selected_row t + Z.of_nat k <= last_selected_row t).
Proof.
  intros t fuel (Hs & Hfirst & Hlast & Hmin & Hmax) Hfuel.
  split; [reflexivity|]. split.
  - intros E. unfold _GetSelectionRects. now rewrite E.
  - intros E. unfold _GetSelectionRects. rewrite E. cbn [negb].
    destruct (selection_ends t) as (Ehi & Elo).
    set (hi := if Y (_selectionAnchor t) <=? _ then _ else _) in *.
    set (lo := if Y (_selectionAnchor t) >? _ then _ else _) in *.
    assert (Habs : Z.abs (Y (_selectionAnchor t) - Y (_endSelectionPosition t))
                   = Y lo - Y hi).
    { rewrite Ehi, Elo. unfold first_selected_row, last_selected_row. lia. }
    rewrite Habs in *.
    destruct (selection_rows_ok fuel t hi lo (Y hi))
      as (rects & Hrun & Hlen & Hnth);
      rewrite ?Ehi, ?Elo; try assumption.
    + unfold first_selected_row, last_selected_row. lia.
    + rewrite <- Ehi, <- Elo.
      replace (Y lo + 1 - Y hi) with (Y lo - Y hi + 1) by lia. exact Hfuel.
    + rewrite Ehi in Hrun. exists rects. split; [exact Hrun|].
      rewrite Ehi, Elo in *. split; [lia|].
      intros k Hk. rewrite (Hnth k Hk). cbn [Top Bottom].
      repeat split; lia.
Qed.

(** In a stream selection over more than one row the first rectangle
    starts at the column of the upper coordinate, the last one ends at the
    column of the lower coordinate, and every other edge is column 0 or the
    rightmost column of the buffer. *)
Lemma stream_selection_edges (t : Terminal) (fuel : nat) :
  selection_in_range t ->
  _renderSelection t = true ->
  _boxSelection t = false ->
  Y (_selectionAnchor t) < Y (_endSelectionPosition t) ->
  (Z.to_nat (Y (_endSelectionPosition t) - Y (_selectionAnchor t) + 1)
     <= fuel)%nat ->
  exists rects : list SMALL_RECT,
    _GetSelectionRects fuel t = Ok rects /\
    Z.of_nat (List.length rects) =
      Y (_endSelectionPosition t) - Y (_selectionAnchor t) + 1 /\
    forall k : nat,
      (k < List.length rects)%nat ->
      Left (nth k rects no_rect) =
        (if (k =? 0)%nat then X (_selectionAnchor t) else 0) /\
      Right (nth k rects no_rect) =
        (if (S k =? List.length rects)%nat then X (_endSelectionPosition t)
         else to_short (RightInclusive (GetSize (_buffer t)))).
Proof.
  intros (Hs & Hfirst & Hlast & Hmin & Hmax) Hrender Hstream Hlt Hfuel.
  unfold first_selected_row, last_selected_row in *.
  unfold _GetSelectionRects. rewrite Hrender. cbn [negb].
  assert (E1 : (Y (_selectionAnchor t) <=? Y (_endSelectionPosition t)) = true)
    by (apply Z.leb_le; lia).
  assert (E2 : (Y (_selectionAnchor t) >? Y (_endSelectionPosition t)) = false)
    by (rewrite Z.gtb_ltb; apply Z.ltb_ge; lia).
  rewrite E1, E2.
  destruct (selection_rows_ok fuel t (_selectionAnchor t)
              (_endSelectionPosition t) (Y (_selectionAnchor t)))
    as (rects & Hrun & Hlen & Hnth); try assumption;
    try (unfold is_short in *; lia).
  exists rects. split; [exact Hrun|]. split; [lia|].
  intros k Hk. rewrite (Hnth k Hk). cbn [Left Right].
  unfold row_left, row_right. rewrite Hstream. split.
  - destruct k as [|k]; cbn [Nat.eqb].
    + now rewrite Z.add_0_r, Z.eqb_refl.
    + assert (E : (Y (_selectionAnchor t) + Z.of_nat (S k)
                   =? Y (_selectionAnchor t)) = false)
        by (apply Z.eqb_neq; lia).
      now rewrite E.
  - destruct (Nat.eqb_spec (S k) (List.length rects)) as [El|Nl].
    + assert (E : (Y (_selectionAnchor t) + Z.of_nat k
                   =? Y (_endSelectionPosition t)) = true)
        by (apply Z.eqb_eq; lia).
      now rewrite E.
    + assert (E : (Y (_selectionAnchor t) + Z.of_nat k
                   =? Y (_endSelectionPosition t)) = false)
        by (apply Z.eqb_neq; lia).
      now rewrite E.
Qed.

(** C7 at its failing input.  A stream selection dragged on one row from
    column 5 back to column 2 gives a single rectangle whose left edge is
    the anchor's column and whose right edge is the end's column: left 5,
    right 2, not the smaller and the larger of the two.  The box mode on
    the same coordinates gives left 2 and right 5. *)
Theorem stream_selection_same_row_backwards :
  exists t : Terminal,
    select (mkCOORD 5 0) (mkCOORD 2 0) = Ok t /\
    _boxSelection t = false /\
    _GetSelectionRects 1 t = Ok [mkRECT 5 0 2 0] /\
    5 <> Z.min 5 2 /\
    2 <> Z.max 5 2 /\
    _GetSelectionRects 1 (SetBoxSelection t true) = Ok [mkRECT 2 0 5 0].
Proof.
  eexists. split; [vm_compute; reflexivity|].
  do 2 (split; [vm_compute; reflexivity|]).
  do 2 (split; [discriminate|]).
  vm_compute. reflexivity.
Qed.

(** The scenario of the specification: anchor (5, 0), end (2, 2), width 80. *)
Lemma stream_selection_three_rows :
  exists t : Terminal,
    select (mkCOORD 5 0) (mkCOORD 2 2) = Ok t /\
    _GetSelectionRects 3 t =
      Ok [mkRECT 5 0 79 0; mkRECT 0 1 79 1; mkRECT 0 2 2 2].
Proof.
  eexists. split; [vm_compute; reflexivity|]. vm_compute. reflexivity.
Qed.

Lemma GetSelectionRects_rows_witness :
  exists t : Terminal,
    select (mkCOORD 5 0) (mkCOORD 2 2) = Ok t /\
    selection_in_range t /\
    exists rects : list SMALL_RECT,
      _GetSelectionRects 3 t = Ok rects /\
      Z.of_nat (List.length rects) = 3.
Proof.
  eexists. split; [vm_compute; reflexivity|].
  assert (Hr : selection_in_range
                 (set_selection (session 0) (mkCOORD 5 0) (mkCOORD 2 2) true)).
  { unfold selection_in_range, is_short, SHORT_MIN, SHORT_MAX. cbn. lia. }
  split; [exact Hr|].
  destruct (GetSelectionRects_rows
              (set_selection (session 0) (mkCOORD 5 0) (mkCOORD 2 2) true) 3 Hr)
    as (_ & _ & Hrows).
  - cbn. lia.
  - destruct (Hrows eq_refl) as (rects & Hrun & Hlen & _).
    exists rects. split; [exact Hrun|exact Hlen].
Defined.

(** ** The writer: whole runs *)

Lemma substr_one (s : list wchar_t) (i : Z) :
  0 <= i < Z.of_nat (List.length s) ->
  substr s i 1 = [nth (Z.to_nat i) s 0].
Proof.
  intros Hi. unfold substr.
  assert (Hn : (Z.to_nat i < List.length s)%nat) by lia.
  revert Hn. generalize (Z.to_nat i). clear Hi i.
  induction s as [|c s IH]; intros n Hn; cbn [List.length] in Hn; [lia|].
  destruct n as [|n]; [reflexivity|].
  cbn [skipn nth]. apply IH. lia.
Qed.

Section Agreement.

Variables cd1 cd2 : TextBuffer -> list wchar_t -> Z.
Hypothesis single_units : forall b c, cd1 b [c] = cd2 b [c].

Lemma propose_agree (t : Terminal) (s : list wchar_t) (i : Z) :
  0 <= i < Z.of_nat (List.length s) ->
  is_surrogate (nth (Z.to_nat i) s 0) = false ->
  propose cd1 t s i (nth (Z.to_nat i) s 0) =
  propose cd2 t s i (nth (Z.to_nat i) s 0).
Proof.
  intros Hi Hsur. unfold propose.
  rewrite Hsur, (substr_one s i Hi), single_units. reflexivity.
Qed.

(** Two buffers that report the same cells for every single code unit
    give the same run on text without surrogates. *)
Lemma _WriteBuffer_from_agree (fuel : nat) :
  forall (t : Terminal) (s : list wchar_t) (i : Z),
    Forall (fun c => is_surrogate c = false) s ->
    _WriteBuffer_from cd1 fuel t s i = _WriteBuffer_from cd2 fuel t s i.
Proof.
  induction fuel as [|fuel IH]; intros t s i Hs; [reflexivity|].
  cbn [_WriteBuffer_from].
  destruct ((0 <=? i) && (i <? Z.of_nat (List.length s))) eqn:E;
    [|reflexivity].
  apply andb_true_iff in E. destruct E as (E1 & E2).
  apply Z.leb_le in E1. apply Z.ltb_lt in E2.
  assert (Hsur : is_surrogate (nth (Z.to_nat i) s 0) = false).
  { rewrite Forall_forall in Hs. apply Hs, nth_In. lia. }
  unfold _WriteBuffer_step.
  rewrite (propose_agree t s i (conj E1 E2) Hsur).
  destruct (propose cd2 t s i (nth (Z.to_nat i) s 0)) as [[|b p skip]| |];
    cbn [bind fst snd]; try reflexivity.
  - apply IH, Hs.
  - destruct (commit t b p) as [[t1 owed]| |]; cbn [bind fst snd];
      try reflexivity.
    apply IH, Hs.
Qed.

End Agreement.

(** C9, as the code has it.  On a fresh 80 by 24 session without scrollback,
    on a buffer that takes one cell for each code unit written, writing
    "Hello\r\n" leaves the cursor at row 1, column 0; the buffer is not
    rotated and the live viewport does not move, so no redraw is requested
    and no scroll-changed notification is made, whether or not a handler is
    registered and whatever the suppression flag was before. *)
Theorem hello_crlf_on_fresh_session :
  forall (cellDistance : TextBuffer -> list wchar_t -> Z)
         (registered flag : bool),
    (forall (b : TextBuffer) (c : wchar_t), cellDistance b [c] = 1) ->
    exists t' : Terminal,
      _WriteBuffer cellDistance 7 (fresh_session registered flag) hello_crlf
        = Ok t' /\
      Cursor (_buffer t') = mkCOORD 0 1 /\
      rotations (_buffer t') = 0 /\
      _mutableViewport t' = FromDimensions (mkCOORD 0 0) (mkCOORD 80 24) /\
      trace t' = [] /\
      scroll_notifications (trace t') = [].
Proof.
  intros cellDistance registered flag Hcd. unfold _WriteBuffer.
  rewrite (_WriteBuffer_from_agree cellDistance unit_cells).
  - destruct registered, flag; eexists;
      (split; [vm_compute; reflexivity|]); now repeat split.
  - intros b c. now rewrite Hcd.
  - repeat constructor.
Qed.

Lemma hello_crlf_on_fresh_session_witness :
  exists t' : Terminal,
    _WriteBuffer (fun _ _ => 1) 7 (fresh_session true false) hello_crlf
      = Ok t' /\
    Cursor (_buffer t') = mkCOORD 0 1 /\
    trace t' = [].
Proof.
  destruct (hello_crlf_on_fresh_session (fun _ _ => 1) true false
              (fun _ _ => eq_refl))
    as (t' & Hrun & Hcur & _ & _ & Htr & _).
  exists t'. now repeat split.
Defined.

(** C9, as stated, fails: the run leaves the cursor at row 1, column 0, but
    the registered handler is not called once, it is not called at all. *)
Lemma hello_crlf_makes_no_notification :
  exists t' : Terminal,
    _WriteBuffer unit_cells 7 (session 0) hello_crlf = Ok t' /\
    _pfnScrollPositionChanged t' = true /\
    Cursor (_buffer t') = mkCOORD 0 1 /\
    List.length (scroll_notifications (trace t')) = 0%nat /\
    ~ In (ScrollPositionChanged 0 24 24) (trace t').
Proof.
  eexists. split; [vm_compute; reflexivity|].
  repeat split. intros [].
Qed.

(** C5, as stated, fails: of two line feeds in a row the second is
    suppressed, though the character before it is a line feed and not a
    carriage return; and the line feed of a carriage return, line feed pair
    is not suppressed. *)
Lemma line_feed_suppressed_after_line_feed :
  exists t1 : Terminal,
    _WriteBuffer_step unit_cells (session 0)
      [UNICODE_LINEFEED; UNICODE_LINEFEED] 0 = Ok (t1, 1) /\
    nth 0 [UNICODE_LINEFEED; UNICODE_LINEFEED] 0 <> UNICODE_CARRIAGERETURN /\
    suppresses unit_cells t1 [UNICODE_LINEFEED; UNICODE_LINEFEED] 1 = true /\
    _WriteBuffer_step unit_cells t1 [UNICODE_LINEFEED; UNICODE_LINEFEED] 1 =
      Ok (set_skipNewline t1 false, 2) /\
    Y (Cursor (_buffer t1)) = 1 /\
    (exists t2 : Terminal,
       _WriteBuffer_step unit_cells (session 0) CRLF 0 = Ok (t2, 1) /\
       Y (Cursor (_buffer t2)) = Y (Cursor (_buffer (session 0))) /\
       suppresses unit_cells t2 CRLF 1 = false).
Proof.
  eexists. split; [vm_compute; reflexivity|].
  split; [discriminate|].
  do 3 (split; [vm_compute; reflexivity|]).
  eexists. split; [vm_compute; reflexivity|].
  split; [vm_compute; reflexivity|]. vm_compute. reflexivity.
Qed.

(** C8, as stated, fails: a letter written in the last column leaves the
    cursor in column 80 of a buffer 80 columns wide. *)
Lemma cursor_column_past_last_column :
  cursor_in_buffer (_buffer last_column_session) /\
  exists t' : Terminal,
    _WriteBuffer_step unit_cells last_column_session [65] 0 = Ok (t', 1) /\
    X (Cursor (_buffer t')) = 80 /\
    Width (GetSize (_buffer t')) = 80 /\
    ~ (0 <= X (Cursor (_buffer t')) < Width (GetSize (_buffer t'))).
Proof.
  split.
  - unfold cursor_in_buffer. cbn. lia.
  - eexists. split; [vm_compute; reflexivity|]. repeat split. cbn. lia.
Qed.

(** A backspace at column 0 of row 0 commits the cursor at row -1. *)
Lemma backspace_at_origin :
  exists t' : Terminal,
    _WriteBuffer_step unit_cells (session 0) [UNICODE_BACKSPACE] 0
      = Ok (t', 1) /\
    Cursor (_buffer t') = mkCOORD 79 (-1).
Proof.
  eexists. split; [vm_compute; reflexivity|]. vm_compute. reflexivity.
Qed.

(** ** Instances on concrete sessions *)

Ltac by_evaluation :=
  repeat split; vm_compute; first [reflexivity | discriminate].

Lemma session_writer_ok : writer_ok (session 0).
Proof. unfold writer_ok, engine_ok, is_short. by_evaluation. Qed.

Lemma last_row_session_writer_ok : writer_ok last_row_session.
Proof. unfold writer_ok, engine_ok, is_short. by_evaluation. Qed.

Lemma overflow_rotates_buffer_witness :
  writer_ok last_row_session /\
  Y (Cursor (_buffer last_row_session)) = 23 /\
  exists t' : Terminal,
    _WriteBuffer_step unit_cells last_row_session [UNICODE_LINEFEED] 0
      = Ok (t', 1) /\
    rotations (_buffer t') = rotations (_buffer last_row_session) + 1 /\
    Y (Cursor (_buffer t')) = 23.
Proof.
  split; [exact last_row_session_writer_ok|]. split; [reflexivity|].
  destruct (overflow_rotates_buffer unit_cells last_row_session
              [UNICODE_LINEFEED] 0 (_buffer last_row_session)
              (mkCOORD 0 24) 0 1 last_row_session_writer_ok)
    as (t' & Hs & Hr & _ & Hy & _).
  - vm_compute. reflexivity.
  - reflexivity.
  - vm_compute. reflexivity.
  - exists t'. split; [exact Hs|]. split; [exact Hr|exact Hy].
Defined.

Lemma line_feed_suppression_witness :
  _WriteBuffer_step unit_cells (session 0)
    [UNICODE_LINEFEED; UNICODE_LINEFEED] 0 = Ok (after_line_feed, 1) /\
  _WriteBuffer_step unit_cells after_line_feed
    [UNICODE_LINEFEED; UNICODE_LINEFEED] 1 =
    Ok (set_skipNewline after_line_feed false, 2).
Proof.
  assert (Hstep : _WriteBuffer_step unit_cells (session 0)
                    [UNICODE_LINEFEED; UNICODE_LINEFEED] 0
                  = Ok (after_line_feed, 1)) by (vm_compute; reflexivity).
  split; [exact Hstep|].
  refine (proj1 (proj2 (line_feed_suppression unit_cells (session 0)
                          after_line_feed [UNICODE_LINEFEED; UNICODE_LINEFEED]
                          0 1 session_writer_ok _ Hstep _)) _).
  - vm_compute. reflexivity.
  - reflexivity.
  - vm_compute. reflexivity.
Defined.

Lemma cursor_bounds_after_step_witness :
  cursor_in_buffer (_buffer (session 0)) /\
  exists (t' : Terminal) (i' : Z),
    _WriteBuffer_step unit_cells (session 0) [65] 0 = Ok (t', i') /\
    0 <= Y (Cursor (_buffer t')) < 24 /\
    0 <= X (Cursor (_buffer t')).
Proof.
  assert (Hin : cursor_in_buffer (_buffer (session 0)))
    by (unfold cursor_in_buffer; by_evaluation).
  split; [exact Hin|].
  destruct (cursor_bounds_after_step unit_cells (session 0) [65] 0
              session_writer_ok Hin)
    as (t' & i' & Hs & _ & Hy & Hx & _).
  - vm_compute. discriminate.
  - split; vm_compute; discriminate.
  - intros (F & _). discriminate F.
  - exists t', i'. split; [exact Hs|]. split; [exact Hy|exact Hx].
Defined.

(** * Further properties of the engine *)

(** ** Notifications *)

Lemma _NotifyScrollEvent_inv (t t' : Terminal) :
  _NotifyScrollEvent t = Ok t' ->
  t' = t \/ exists e : Event, t' = emit t e.
Proof.
  unfold _NotifyScrollEvent.
  destruct (_pfnScrollPositionChanged t).
  - destruct (_GetVisibleViewport t) as [v| |]; cbn [bind]; intros E;
      inversion E. right. eexists. reflexivity.
  - intros E. inversion E. now left.
Qed.

(** ** Resizing again, and after a failure *)

(** X1.  Whatever a call of [UserResize] returned, success, failure or
    nothing to do, a second call with the same size reports nothing to do
    ([S_FALSE]) and leaves the state as it is: the buffer is not asked to
    resize again, also when its resize had failed the first time. *)
Theorem UserResize_again_unchanged :
  forall (ResizeTraditional : TextBuffer -> COORD -> HRESULT * TextBuffer)
         (t t' : Terminal) (viewportSize : COORD) (hr : HRESULT),
    UserResize ResizeTraditional t viewportSize = Ok (hr, t') ->
    UserResize ResizeTraditional t' viewportSize = Ok (S_FALSE, t').
Proof.
  intros RT t t' size hr Hrun.
  assert (Hdims : COORD_eqb size (Dimensions (_mutableViewport t')) = true).
  { unfold UserResize in Hrun.
    destruct (COORD_eqb size (Dimensions (_mutableViewport t))) eqn:E.
    - inversion Hrun; subst. exact E.
    - assert (Hrefl : COORD_eqb size size = true)
        by (unfold COORD_eqb; now rewrite !Z.eqb_refl).
      destruct (RT _ _) as [hr0 b]. destruct (FAILED hr0).
      + inversion Hrun; subst. exact Hrefl.
      + destruct (_NotifyScrollEvent _) as [t3| |] eqn:En;
          cbn [bind] in Hrun; inversion Hrun; subst.
        destruct (_NotifyScrollEvent_inv _ _ En) as [-> | (e & ->)];
          exact Hrefl. }
  unfold UserResize. now rewrite Hdims.
Qed.

Lemma UserResize_again_unchanged_witness :
  exists t' : Terminal,
    UserResize resize_fails (session 0) (mkCOORD 100 30)
      = Ok (E_FAILED E_OUTOFMEMORY, t') /\
    UserResize resize_fails t' (mkCOORD 100 30) = Ok (S_FALSE, t').
Proof.
  eexists. split; [vm_compute; reflexivity|].
  apply (UserResize_again_unchanged resize_fails (session 0) _
           (mkCOORD 100 30) (E_FAILED E_OUTOFMEMORY)).
  vm_compute. reflexivity.
Defined.

(** X2.  A resize to a different size that the buffer accepts returns
    [S_OK], puts the live viewport at the origin with the requested size
    and so drops the scrollback depth to 0, keeps the scroll offset, takes
    the buffer its resize left, requests no redraw, and calls the scroll
    handler, when one is registered, exactly once with visible top 0 and
    the new height as both height and bottom. *)
Theorem UserResize_success_effect :
  forall (ResizeTraditional : TextBuffer -> COORD -> HRESULT * TextBuffer)
         (t : Terminal) (viewportSize : COORD) (hr : HRESULT) (b : TextBuffer),
    0 <= _scrollOffset t <= INT_MAX ->
    0 < Y viewportSize <= SHORT_MAX ->
    COORD_eqb viewportSize (Dimensions (_mutableViewport t)) = false ->
    ResizeTraditional (_buffer t)
      (mkCOORD (X viewportSize)
               (to_short (Y viewportSize + _scrollbackLines t))) = (hr, b) ->
    FAILED hr = false ->
    exists t' : Terminal,
      UserResize ResizeTraditional t viewportSize = Ok (S_OK, t') /\
      _mutableViewport t' = FromDimensions (mkCOORD 0 0) viewportSize /\
      _ViewStartIndex t' = 0 /\
      GetScrollOffset t' = 0 /\
      _scrollOffset t' = _scrollOffset t /\
      _buffer t' = b /\
      _selectionAnchor t' = _selectionAnchor t /\
      _endSelectionPosition t' = _endSelectionPosition t /\
      _renderSelection t' = _renderSelection t /\
      trace t' =
        trace t ++
        (if _pfnScrollPositionChanged t
         then [ScrollPositionChanged 0 (Y viewportSize) (Y viewportSize)]
         else []).
Proof.
  intros RT t size hr b Hoff Hy Hne Hres Hok.
  rewrite (UserResize_success RT t size hr b Hne Hres Hok).
  set (t2 := set_buffer _ b).
  assert (Hok2 : engine_ok t2).
  { unfold engine_ok, t2, FromDimensions, Height, vTop; cbn.
    unfold SHORT_MAX, INT_MAX in *. split; [lia|]. split; [exact Hy|].
    exact Hoff. }
  assert (Hvis : _VisibleStartIndex t2 = 0).
  { pose proof (_VisibleStartIndex_bounds t2 Hok2) as Hb.
    change (_ViewStartIndex t2) with 0 in Hb. lia. }
  rewrite (_NotifyScrollEvent_ok t2 Hok2). cbn [bind].
  eexists. split; [reflexivity|].
  change (_pfnScrollPositionChanged t2) with (_pfnScrollPositionChanged t).
  unfold GetScrollOffset.
  destruct (_pfnScrollPositionChanged t); cbn; rewrite ?app_nil_r;
    repeat split; try exact Hvis.
  unfold GetBufferHeight, BottomExclusive, Height, vTop; cbn.
  rewrite Hvis. reflexivity.
Qed.

Lemma UserResize_success_effect_witness :
  exists t' : Terminal,
    UserResize resize_ok scrolled_session (mkCOORD 100 30) = Ok (S_OK, t') /\
    _ViewStartIndex t' = 0 /\
    trace t' = trace scrolled_session ++ [ScrollPositionChanged 0 30 30].
Proof.
  destruct (UserResize_success_effect resize_ok scrolled_session
              (mkCOORD 100 30) S_OK
              (snd (resize_ok (_buffer scrolled_session) (mkCOORD 100 130))))
    as (t' & Hrun & _ & Htop & _ & _ & _ & _ & _ & _ & Htr).
  - unfold INT_MAX. cbn. lia.
  - unfold SHORT_MAX. cbn. lia.
  - reflexivity.
  - reflexivity.
  - reflexivity.
  - exists t'. split; [exact Hrun|]. split; [exact Htop|exact Htr].
Defined.

(** ** Keys snap the view back *)



(** ** Scrolling to where the view already is *)

(** X4.  Scrolling to the row the view already shows keeps the scroll
    offset when it lies within the scrollback, and brings an offset larger
    than the scrollback (as a resize can leave it) back to the scrollback
    depth: the new offset is the smaller of the old one and the live top. *)
Theorem UserScrollViewport_to_visible_top :
  forall t : Terminal,
    0 <= _ViewStartIndex t <= SHORT_MAX ->
    0 <= _scrollOffset t <= INT_MAX ->
    _scrollOffset (UserScrollViewport t (GetScrollOffset t)) =
      Z.min (_scrollOffset t) (_ViewStartIndex t) /\
    GetScrollOffset (UserScrollViewport t (GetScrollOffset t)) =
      GetScrollOffset t.
Proof.
  intros t Ht Ho. unfold SHORT_MAX, INT_MAX in *.
  assert (Hv : GetScrollOffset t =
               Z.max 0 (_ViewStartIndex t - _scrollOffset t)).
  { unfold GetScrollOffset, _VisibleStartIndex.
    rewrite to_int_small by (unfold is_int, INT_MIN, INT_MAX; lia).
    reflexivity. }
  assert (Hi : is_int (GetScrollOffset t))
    by (rewrite Hv; unfold is_int, INT_MIN, INT_MAX; lia).
  assert (Hoff : _scrollOffset (UserScrollViewport t (GetScrollOffset t)) =
                 Z.min (_scrollOffset t) (_ViewStartIndex t)).
  { rewrite UserScrollViewport_offset by (unfold SHORT_MAX; auto; lia).
    rewrite Hv. lia. }
  split; [exact Hoff|].
  unfold GetScrollOffset at 1. unfold _VisibleStartIndex. rewrite Hoff.
  change (_ViewStartIndex (UserScrollViewport t (GetScrollOffset t)))
    with (_ViewStartIndex t).
  rewrite to_int_small by (unfold is_int, INT_MIN, INT_MAX; lia).
  rewrite Hv. lia.
Qed.

Lemma UserScrollViewport_to_visible_top_witness :
  _scrollOffset
    (UserScrollViewport scrolled_session (GetScrollOffset scrolled_session))
  = Z.min (_scrollOffset scrolled_session) (_ViewStartIndex scrolled_session).
Proof.
  refine (proj1 (UserScrollViewport_to_visible_top scrolled_session _ _)).
  - unfold SHORT_MAX. cbn. lia.
  - unfold INT_MAX. cbn. lia.
Defined.

(** ** The visible viewport *)

(** X5.  In a state with a non-negative live top and scroll offset the
    visible viewport is computed without an exception; it has the live
    viewport's dimensions, column 0 as its left edge, and its top is the
    live top less the scroll offset, cut off at row 0, so it never starts
    above the buffer nor below the live viewport. *)
Theorem _GetVisibleViewport_bounds :
  forall t : Terminal,
    engine_ok t ->
    exists v : Viewport,
      _GetVisibleViewport t = Ok v /\
      Dimensions v = Dimensions (_mutableViewport t) /\
      vLeft v = 0 /\
      vTop v = _ViewStartIndex t - Z.min (_scrollOffset t) (_ViewStartIndex t) /\
      0 <= vTop v <= _ViewStartIndex t /\
      BottomExclusive v <= BottomExclusive (_mutableViewport t).
Proof.
  intros t Hok. pose proof (_VisibleStartIndex_bounds t Hok) as Hb.
  assert (Hv : _VisibleStartIndex t =
               _ViewStartIndex t - Z.min (_scrollOffset t) (_ViewStartIndex t)).
  { destruct Hok as (Ht & _ & Ho).
    unfold _VisibleStartIndex, _ViewStartIndex, SHORT_MAX, INT_MAX in *.
    rewrite to_int_small by (unfold is_int, INT_MIN, INT_MAX; lia). lia. }
  unfold _GetVisibleViewport.
  rewrite narrow_short_small.
  - cbn [bind]. eexists. split; [reflexivity|].
    unfold BottomExclusive, Height, vTop, vLeft, Dimensions, FromDimensions;
      cbn. unfold _ViewStartIndex, vTop in *.
    repeat split; try lia.
  - destruct Hok as (Ht & _). unfold _ViewStartIndex in Hb.
    unfold is_short, SHORT_MIN, SHORT_MAX in *. lia.
Qed.

Lemma _GetVisibleViewport_bounds_witness :
  exists v : Viewport,
    _GetVisibleViewport scrolled_session = Ok v /\ vTop v = 2.
Proof.
  assert (Hok : engine_ok scrolled_session)
    by (unfold engine_ok; repeat split; vm_compute; first [reflexivity | discriminate]).
  destruct (_GetVisibleViewport_bounds scrolled_session Hok)
    as (v & Hrun & _ & _ & Htop & _).
  exists v. split; [exact Hrun|]. rewrite Htop. reflexivity.
Defined.

(** ** The text of key events *)

(** X6.  The text made of a queue of input events has one character for
    each key event, in the order of the queue, and nothing for the other
    events: the text of two queues one after the other is the two texts
    one after the other, and its length is the number of key events.  With
    no write-input handler registered nothing is handed over; with one,
    the handler gets exactly one text, be it empty. *)
Theorem _KeyEventsToText_app :
  forall evs1 evs2 : list IInputEvent,
    _KeyEventsToText (evs1 ++ evs2) =
      _KeyEventsToText evs1 ++ _KeyEventsToText evs2 /\
    _KeyEventsToText evs1 = map GetCharData (filter is_key_event evs1) /\
    List.length (_KeyEventsToText evs1) =
      List.length (filter is_key_event evs1) /\
    passAlongInput false evs1 = [] /\
    passAlongInput true evs1 = [map GetCharData (filter is_key_event evs1)].
Proof.
  intros evs1 evs2.
  assert (Hmap : forall evs,
             _KeyEventsToText evs = map GetCharData (filter is_key_event evs)).
  { induction evs as [|ev evs IH]; [reflexivity|].
    cbn [_KeyEventsToText filter]. destruct (is_key_event ev); cbn [map];
      now rewrite IH. }
  split; [|split; [|split; [|split]]].
  - now rewrite !Hmap, filter_app, map_app.
  - apply Hmap.
  - now rewrite Hmap, length_map.
  - reflexivity.
  - unfold passAlongInput; cbn [negb]. now rewrite Hmap.
Qed.

(** ** Setting the selection *)

Lemma narrow_short_cases (z : Z) :
  (is_short z /\ narrow_short z = Ok z) \/
  (~ is_short z /\ narrow_short z = Throw).
Proof.
  unfold narrow_short, in_short, is_short.
  destruct (SHORT_MIN <=? z) eqn:E1; destruct (z <=? SHORT_MAX) eqn:E2;
    cbn [andb];
    try apply Z.leb_le in E1; try apply Z.leb_le in E2;
    try apply Z.leb_gt in E1; try apply Z.leb_gt in E2;
    [left | right | right | right]; split; try reflexivity; lia.
Qed.

(** X7.  Moving the end of the selection takes the scroll offset off the
    row and stores the result as the end; the anchor and the render flag
    are not touched, so after [ClearSelection] the selection stays hidden
    and there are still no rectangles.  The call and [SetSelectionAnchor]
    throw exactly when the scroll offset, or the row less the offset, does
    not fit a [SHORT]. *)
Theorem SetEndSelectionPosition_effect :
  forall (t : Terminal) (position : COORD) (fuel : nat),
    (is_short (_scrollOffset t) /\
     is_short (Y position - _scrollOffset t) ->
       SetEndSelectionPosition t position =
         Ok (set_selection t (_selectionAnchor t)
               (mkCOORD (X position) (Y position - _scrollOffset t))
               (_renderSelection t)) /\
       exists t' : Terminal,
         SetEndSelectionPosition (ClearSelection t) position = Ok t' /\
         _renderSelection t' = false /\
         _GetSelectionRects fuel t' = Ok []) /\
    (~ (is_short (_scrollOffset t) /\
        is_short (Y position - _scrollOffset t)) ->
       SetEndSelectionPosition t position = Throw /\
       SetSelectionAnchor t position = Throw).
Proof.
  intros t position fuel. split.
  - intros (Ho & Hy).
    assert (E : forall t0, _scrollOffset t0 = _scrollOffset t ->
              SetEndSelectionPosition t0 position =
                Ok (set_selection t0 (_selectionAnchor t0)
                      (mkCOORD (X position) (Y position - _scrollOffset t))
                      (_renderSelection t0))).
    { intros t0 E0. unfold SetEndSelectionPosition, ShortSub.
      rewrite E0, (narrow_short_small _ Ho). cbn [bind].
      rewrite (narrow_short_small _ Hy). reflexivity. }
    split; [now apply E|].
    eexists. split; [now apply E|]. split; reflexivity.
  - intros Hnot. unfold SetSelectionAnchor, SetEndSelectionPosition, ShortSub.
    destruct (narrow_short_cases (_scrollOffset t)) as [(Ho & ->)|(_ & ->)];
      [|now split].
    cbn [bind].
    destruct (narrow_short_cases (Y position - _scrollOffset t))
      as [(Hy & _)|(_ & ->)]; [|now split].
    elim Hnot. now split.
Qed.

Lemma SetEndSelectionPosition_effect_witness :
  SetEndSelectionPosition scrolled_session (mkCOORD 3 10) =
    Ok (set_selection scrolled_session (_selectionAnchor scrolled_session)
          (mkCOORD 3 5) (_renderSelection scrolled_session)).
Proof.
  refine (proj1 (proj1 (SetEndSelectionPosition_effect scrolled_session
                          (mkCOORD 3 10) 1) _)).
  unfold is_short, SHORT_MIN, SHORT_MAX. cbn. lia.
Defined.

(** A selection whose rows are in range, rectangle by rectangle. *)
Lemma _GetSelectionRects_rects (t : Terminal) (fuel : nat) :
  selection_in_range t ->
  _renderSelection t = true ->
  (Z.to_nat (last_selected_row t - first_selected_row t + 1) <= fuel)%nat ->
  Y (higher_coord t) = first_selected_row t /\
  Y (lower_coord t) = last_selected_row t /\
  exists rects : list SMALL_RECT,
    _GetSelectionRects fuel t = Ok rects /\
    Z.of_nat (List.length rects) =
      last_selected_row t - first_selected_row t + 1 /\
    forall k : nat,
      (k < List.length rects)%nat ->
      nth k rects no_rect =
        mkRECT (row_left t (higher_coord t) (lower_coord t)
                  (first_selected_row t + Z.of_nat k))
               (first_selected_row t + Z.of_nat k + _ViewStartIndex t)
               (row_right t (higher_coord t) (lower_coord t)
                  (first_selected_row t + Z.of_nat k))
               (first_selected_row t + Z.of_nat k + _ViewStartIndex t).
Proof.
  intros (Hs & Hfirst & Hlast & Hmin & Hmax) Hrender Hfuel.
  destruct (selection_ends t) as (Ehi & Elo).
  fold (higher_coord t) in Ehi. fold (lower_coord t) in Elo.
  split; [exact Ehi|]. split; [exact Elo|].
  unfold _GetSelectionRects. rewrite Hrender. cbn [negb].
  fold (higher_coord t). fold (lower_coord t).
  destruct (selection_rows_ok fuel t (higher_coord t) (lower_coord t)
              (Y (higher_coord t)))
    as (rects & Hrun & Hlen & Hnth);
    rewrite ?Ehi, ?Elo; try assumption;
    try (unfold first_selected_row, last_selected_row in *; lia).
  rewrite Ehi, Elo in *. exists rects.
  split; [exact Hrun|]. split; [lia|exact Hnth].
Qed.

(** X8.  A click: [SetSelectionAnchor] at a position of the visible
    viewport stores the same re-based coordinate as anchor and as end and
    shows the selection; the rectangles are then one cell, in the column
    clicked and in the buffer row that the visible viewport shows at the
    row clicked, in box mode and in stream mode alike. *)
Theorem SetSelectionAnchor_selects_cell :
  forall (t : Terminal) (position : COORD) (fuel : nat),
    0 <= _ViewStartIndex t <= SHORT_MAX ->
    scroll_in_range t ->
    SHORT_MIN <= Y position - _scrollOffset t < SHORT_MAX ->
    Y position + GetScrollOffset t <= SHORT_MAX ->
    (1 <= fuel)%nat ->
    exists t' : Terminal,
      SetSelectionAnchor t position = Ok t' /\
      _renderSelection t' = true /\
      _selectionAnchor t' =
        mkCOORD (X position) (Y position - _scrollOffset t) /\
      _endSelectionPosition t' = _selectionAnchor t' /\
      _GetSelectionRects fuel t' =
        Ok [mkRECT (X position) (Y position + GetScrollOffset t)
                   (X position) (Y position + GetScrollOffset t)].
Proof.
  intros t position fuel Ht Hin Hrow Hsum Hfuel.
  unfold scroll_in_range in Hin. unfold SHORT_MIN, SHORT_MAX in *.
  assert (Hv : GetScrollOffset t = _ViewStartIndex t - _scrollOffset t).
  { unfold GetScrollOffset, _VisibleStartIndex.
    rewrite to_int_small by (unfold is_int, INT_MIN, INT_MAX; lia). lia. }
  set (row := Y position - _scrollOffset t) in *.
  set (c := mkCOORD (X position) row).
  assert (Hrun : SetSelectionAnchor t position = Ok (set_selection t c c true)).
  { unfold SetSelectionAnchor, SetEndSelectionPosition, ShortSub.
    assert (Ho : narrow_short (_scrollOffset t) = Ok (_scrollOffset t))
      by (apply narrow_short_small;
          unfold is_short, SHORT_MIN, SHORT_MAX; lia).
    assert (Hy : narrow_short (Y position - _scrollOffset t) = Ok row)
      by (apply narrow_short_small;
          unfold is_short, SHORT_MIN, SHORT_MAX; fold row; lia).
    rewrite Ho. cbn [bind]. rewrite Hy. cbn [bind _scrollOffset set_selection].
    rewrite Ho. cbn [bind]. rewrite Hy. reflexivity. }
  exists (set_selection t c c true). split; [exact Hrun|].
  do 3 (split; [reflexivity|]).
  set (t' := set_selection t c c true).
  assert (Hr : selection_in_range t').
  { unfold selection_in_range, first_selected_row, last_selected_row,
      is_short, SHORT_MIN, SHORT_MAX.
    change (_ViewStartIndex t') with (_ViewStartIndex t). cbn.
    rewrite Z.min_id, Z.max_id. lia. }
  destruct (_GetSelectionRects_rects t' fuel Hr eq_refl)
    as (Ehi & Elo & rects & Hsel & Hlen & Hnth).
  { unfold first_selected_row, last_selected_row; cbn.
    rewrite Z.min_id, Z.max_id. lia. }
  rewrite Hsel. f_equal.
  assert (Hfirst : first_selected_row t' = row)
    by (unfold first_selected_row; cbn; apply Z.min_id).
  assert (Hlast : last_selected_row t' = row)
    by (unfold last_selected_row; cbn; apply Z.max_id).
  rewrite Hfirst, Hlast in *.
  destruct rects as [|r [|r' rects]]; cbn [List.length] in Hlen; try lia.
  specialize (Hnth 0%nat (Nat.lt_0_succ 0)). cbn [nth] in Hnth.
  rewrite Hnth. rewrite Z.add_0_r.
  change (_ViewStartIndex t') with (_ViewStartIndex t).
  unfold row_left, row_right. rewrite Ehi, Elo, !Z.eqb_refl.
  assert (Exh : X (higher_coord t') = X position)
    by (unfold higher_coord; cbn; now rewrite Z.leb_refl).
  assert (Exl : X (lower_coord t') = X position)
    by (unfold lower_coord; cbn; now destruct (row >? row)).
  rewrite Exh, Exl, Z.min_id, Z.max_id.
  replace (row + _ViewStartIndex t) with (Y position + GetScrollOffset t)
    by (rewrite Hv; unfold row; lia).
  now destruct (_boxSelection t').
Qed.

Lemma SetSelectionAnchor_selects_cell_witness :
  exists t' : Terminal,
    SetSelectionAnchor scrolled_session (mkCOORD 3 10) = Ok t' /\
    _GetSelectionRects 1 t' = Ok [mkRECT 3 12 3 12].
Proof.
  destruct (SetSelectionAnchor_selects_cell scrolled_session (mkCOORD 3 10) 1)
    as (t' & Hrun & _ & _ & _ & Hrects).
  - unfold SHORT_MAX. cbn. lia.
  - unfold scroll_in_range. cbn. lia.
  - unfold SHORT_MIN, SHORT_MAX. cbn. lia.
  - unfold SHORT_MAX. cbn. lia.
  - lia.
  - exists t'. split; [exact Hrun|exact Hrects].
Defined.

(** ** Selection rectangles *)

Lemma selection_rows_same (fuel : nat) :
  forall (t1 t2 : Terminal) (hi lo : COORD) (row : Z),
    _ViewStartIndex t1 = _ViewStartIndex t2 ->
    _boxSelection t1 = _boxSelection t2 ->
    GetSize (_buffer t1) = GetSize (_buffer t2) ->
    selection_rows fuel t1 hi lo row = selection_rows fuel t2 hi lo row.
Proof.
  induction fuel as [|fuel IH]; intros t1 t2 hi lo row Hv Hb Hs;
    cbn [selection_rows]; [reflexivity|].
  rewrite Hv, Hb, Hs, (IH t1 t2 hi lo _ Hv Hb Hs). reflexivity.
Qed.

(** X9.  The rectangles of the selection do not depend on the scroll
    offset: a user scroll to any row, and the snap of a key event, leave
    them as they are, exceptions included.  The selection is pinned to
    rows of the buffer, not to rows of the screen. *)
Theorem _GetSelectionRects_unchanged_by_scrolling :
  forall (t : Terminal) (fuel : nat) (viewTop offset : Z),
    _GetSelectionRects fuel (UserScrollViewport t viewTop) =
      _GetSelectionRects fuel t /\
    _GetSelectionRects fuel (set_scrollOffset t offset) =
      _GetSelectionRects fuel t /\
    forall (HandleKey : Z -> Z -> bool) (vkey : Z) (ctrl alt shift : bool)
           (handled : bool) (t' : Terminal),
      SendKeyEvent HandleKey t vkey ctrl alt shift = Ok (handled, t') ->
      _GetSelectionRects fuel t' = _GetSelectionRects fuel t.
Proof.
  intros t fuel viewTop offset.
  assert (Hsame : forall t1 t2,
             _renderSelection t1 = _renderSelection t2 ->
             _selectionAnchor t1 = _selectionAnchor t2 ->
             _endSelectionPosition t1 = _endSelectionPosition t2 ->
             _ViewStartIndex t1 = _ViewStartIndex t2 ->
             _boxSelection t1 = _boxSelection t2 ->
             GetSize (_buffer t1) = GetSize (_buffer t2) ->
             _GetSelectionRects fuel t1 = _GetSelectionRects fuel t2).
  { intros t1 t2 Hr Ha He Hv Hb Hs. unfold _GetSelectionRects.
    rewrite Hr, Ha, He. destruct (negb (_renderSelection t2)); [reflexivity|].
    now apply selection_rows_same. }
  split; [now apply Hsame|]. split; [now apply Hsame|].
  intros HandleKey vkey ctrl alt shift handled t' Hrun.
  unfold SendKeyEvent in Hrun.
  destruct (_snapOnInput t && negb (_scrollOffset t =? 0)).
  - destruct (_NotifyScrollEvent (set_scrollOffset t 0)) as [t1| |] eqn:En;
      cbn [bind] in Hrun; inversion Hrun; subst.
    destruct (_NotifyScrollEvent_inv _ _ En) as [-> | (e & ->)];
      now apply Hsame.
  - cbn [bind] in Hrun. inversion Hrun; subst. reflexivity.
Qed.

(** X10.  In box mode every rectangle of the selection has the same left
    and right edge, the smaller and the larger of the two stored columns,
    whichever of anchor and end is above or to the left. *)
Theorem box_selection_edges :
  forall (t : Terminal) (fuel : nat),
    selection_in_range t ->
    _renderSelection t = true ->
    _boxSelection t = true ->
    (Z.to_nat (last_selected_row t - first_selected_row t + 1) <= fuel)%nat ->
    exists rects : list SMALL_RECT,
      _GetSelectionRects fuel t = Ok rects /\
      Z.of_nat (List.length rects) =
        last_selected_row t - first_selected_row t + 1 /\
      forall r : SMALL_RECT,
        In r rects ->
        Left r = Z.min (X (_selectionAnchor t)) (X (_endSelectionPosition t)) /\
        Right r = Z.max (X (_selectionAnchor t)) (X (_endSelectionPosition t)) /\
        Top r = Bottom r.
Proof.
  intros t fuel Hr Hrender Hbox Hfuel.
  destruct (_GetSelectionRects_rects t fuel Hr Hrender Hfuel)
    as (_ & _ & rects & Hrun & Hlen & Hnth).
  exists rects. split; [exact Hrun|]. split; [exact Hlen|].
  intros r Hin.
  destruct (In_nth rects r no_rect Hin) as (k & Hk & <-).
  rewrite (Hnth k Hk). cbn [Left Right Top Bottom].
  unfold row_left, row_right, higher_coord, lower_coord. rewrite Hbox.
  rewrite Z.gtb_ltb.
  destruct (Z.leb_spec (Y (_selectionAnchor t)) (Y (_endSelectionPosition t)));
    destruct (Z.ltb_spec (Y (_endSelectionPosition t)) (Y (_selectionAnchor t)));
    repeat split; lia.
Qed.

Lemma box_selection_edges_witness :
  exists (t : Terminal) (rects : list SMALL_RECT),
    select (mkCOORD 5 2) (mkCOORD 2 0) = Ok t /\
    _GetSelectionRects 3 (SetBoxSelection t true) = Ok rects /\
    Z.of_nat (List.length rects) = 3.
Proof.
  eexists. 
  assert (Hr : selection_in_range
                 (SetBoxSelection
                    (set_selection (session 0) (mkCOORD 5 2) (mkCOORD 2 0) true)
                    true)).
  { unfold selection_in_range, is_short, SHORT_MIN, SHORT_MAX. cbn. lia. }
  destruct (box_selection_edges _ 3 Hr eq_refl eq_refl)
    as (rects & Hrun & Hlen & _).
  { cbn. lia. }
  exists rects. split; [vm_compute; reflexivity|].
  split; [exact Hrun|exact Hlen].
Defined.

(** X11.  In stream mode the first rectangle starts at the column of the
    coordinate with the smaller row (the anchor when both are on one row)
    and every other rectangle at column 0; the last rectangle ends at the
    column of the other coordinate (the end when both are on one row) and
    every other rectangle at the rightmost column of the buffer. *)
Theorem stream_selection_all_edges :
  forall (t : Terminal) (fuel : nat),
    selection_in_range t ->
    _renderSelection t = true ->
    _boxSelection t = false ->
    (Z.to_nat (last_selected_row t - first_selected_row t + 1) <= fuel)%nat ->
    exists rects : list SMALL_RECT,
      _GetSelectionRects fuel t = Ok rects /\
      Z.of_nat (List.length rects) =
        last_selected_row t - first_selected_row t + 1 /\
      forall k : nat,
        (k < List.length rects)%nat ->
        Left (nth k rects no_rect) =
          (if (k =? 0)%nat then X (higher_coord t) else 0) /\
        Right (nth k rects no_rect) =
          (if (S k =? List.length rects)%nat then X (lower_coord t)
           else to_short (RightInclusive (GetSize (_buffer t)))).
Proof.
  intros t fuel Hr Hrender Hstream Hfuel.
  destruct (_GetSelectionRects_rects t fuel Hr Hrender Hfuel)
    as (Ehi & Elo & rects & Hrun & Hlen & Hnth).
  exists rects. split; [exact Hrun|]. split; [exact Hlen|].
  intros k Hk. rewrite (Hnth k Hk). cbn [Left Right].
  unfold row_left, row_right. rewrite Hstream, Ehi, Elo. split.
  - destruct k as [|k]; cbn [Nat.eqb].
    + now rewrite Z.add_0_r, Z.eqb_refl.
    + assert (E : (first_selected_row t + Z.of_nat (S k)
                   =? first_selected_row t) = false)
        by (apply Z.eqb_neq; lia).
      now rewrite E.
  - destruct (Nat.eqb_spec (S k) (List.length rects)) as [El|Nl].
    + assert (E : (first_selected_row t + Z.of_nat k
                   =? last_selected_row t) = true)
        by (apply Z.eqb_eq; lia).
      now rewrite E.
    + assert (E : (first_selected_row t + Z.of_nat k
                   =? last_selected_row t) = false)
        by (apply Z.eqb_neq; lia).
      now rewrite E.
Qed.

Lemma stream_selection_all_edges_witness :
  exists (t : Terminal) (rects : list SMALL_RECT),
    select (mkCOORD 5 2) (mkCOORD 2 0) = Ok t /\
    _GetSelectionRects 3 t = Ok rects /\
    Left (nth 0 rects no_rect) = 2 /\
    Right (nth 2 rects no_rect) = 5.
Proof.
  eexists.
  assert (Hr : selection_in_range
                 (set_selection (session 0) (mkCOORD 5 2) (mkCOORD 2 0) true)).
  { unfold selection_in_range, is_short, SHORT_MIN, SHORT_MAX. cbn. lia. }
  destruct (stream_selection_all_edges _ 3 Hr eq_refl eq_refl)
    as (rects & Hrun & Hlen & Hedges).
  { cbn. lia. }
  exists rects. split; [vm_compute; reflexivity|].
  split; [exact Hrun|].
  assert (H3 : List.length rects = 3%nat).
  { cbn in Hlen. lia. }
  split.
  - destruct (Hedges 0%nat) as (Hl & _); [lia|]. exact Hl.
  - destruct (Hedges 2%nat) as (_ & Hrt); [lia|].
    rewrite Hrt, H3. reflexivity.
Defined.

(** ** What the writer leaves alone *)

Lemma narrow_short_inv (z z' : Z) : narrow_short z = Ok z' -> z' = z.
Proof.
  unfold narrow_short. destruct (in_short z); intros E; inversion E.
  reflexivity.
Qed.

Lemma cycle_keeps (n : nat) :
  forall (b : TextBuffer) (y : Z),
    GetSize (fst (cycle n b y)) = GetSize b /\
    written (fst (cycle n b y)) = written b.
Proof.
  induction n as [|n IH]; intros b y; cbn [cycle]; [now split|].
  destruct (IH (IncrementCircularBuffer b) (to_short (y - 1))) as (-> & ->).
  now split.
Qed.

Lemma writer_frame_refl (t : Terminal) : writer_frame t t.
Proof. unfold writer_frame. repeat split; reflexivity || lia. Qed.

Lemma writer_frame_trans (t1 t2 t3 : Terminal) :
  writer_frame t1 t2 -> writer_frame t2 t3 -> writer_frame t1 t3.
Proof.
  unfold writer_frame.
  intros (A1 & A2 & A3 & A4 & A5 & A6 & A7 & A8 & A9 & A10 & A11 & A12)
         (B1 & B2 & B3 & B4 & B5 & B6 & B7 & B8 & B9 & B10 & B11 & B12).
  repeat split; try congruence; lia.
Qed.

(** The engine fields after a commit, and where the live top went: it is
    the larger of the old top and the row that puts the cursor on the last
    row of the viewport. *)
Lemma commit_frame (t t' : Terminal) (b : TextBuffer) (p : COORD)
  (owed : bool) :
  GetSize b = GetSize (_buffer t) ->
  commit t b p = Ok (t', owed) ->
  writer_frame t t' /\
  written (_buffer t') = written b /\
  (0 <= vTop (_mutableViewport t) ->
   vTop (_mutableViewport t') =
     Z.max (vTop (_mutableViewport t))
           (Y (Cursor (_buffer t')) - (Height (_mutableViewport t) - 1))).
Proof.
  intros Hsize. unfold commit.
  set (newRows := Y p - Height (GetSize b) + 1).
  assert (Hrot : exists b1 y1 n1,
    (if 0 <? newRows
     then let (b', y') := cycle (Z.to_nat newRows) b (Y p) in (b', y', true)
     else (b, Y p, false)) = (b1, y1, n1) /\
    GetSize b1 = GetSize b /\ written b1 = written b).
  { destruct (0 <? newRows).
    - destruct (cycle_keeps (Z.to_nat newRows) b (Y p)) as (E1 & E2).
      destruct (cycle (Z.to_nat newRows) b (Y p)) as [b' y'].
      exists b', y', true. now repeat split.
    - exists b, (Y p), false. now repeat split. }
  destruct Hrot as (b1 & y1 & n1 & -> & Hs1 & Hw1).
  cbn beta iota.
  set (b2 := SetPosition _ _).
  set (t1 := set_skipNewline (set_buffer t b2) _).
  change (_mutableViewport t1) with (_mutableViewport t).
  change (Cursor b2) with (mkCOORD (X p) y1). cbn [Y].
  assert (F1 : writer_frame t t1).
  { unfold writer_frame, t1, b2; cbn. rewrite Hs1, Hsize.
    repeat split; reflexivity || lia. }
  assert (Done : forall t2 (n2 : bool) tf ow,
             writer_frame t t2 ->
             written (_buffer t2) = written b ->
             Y (Cursor (_buffer t2)) = y1 ->
             (0 <= vTop (_mutableViewport t) ->
              vTop (_mutableViewport t2) =
                Z.max (vTop (_mutableViewport t))
                      (y1 - (Height (_mutableViewport t) - 1))) ->
             (if n2
              then t3 <- _NotifyScrollEvent (emit t2 TriggerRedrawAll) ;;
                   Ok (t3, true)
              else Ok (t2, false)) = Ok (tf, ow) ->
             writer_frame t tf /\
             written (_buffer tf) = written b /\
             (0 <= vTop (_mutableViewport t) ->
              vTop (_mutableViewport tf) =
                Z.max (vTop (_mutableViewport t))
                      (Y (Cursor (_buffer tf))
                       - (Height (_mutableViewport t) - 1)))).
  { intros t2 n2 tf ow F2 W2 C2 V2 E. destruct n2.
    - destruct (_NotifyScrollEvent (emit t2 TriggerRedrawAll)) as [t3| |] eqn:En;
        cbn [bind] in E; inversion E; subst.
      destruct (_NotifyScrollEvent_inv _ _ En) as [-> | (e & ->)];
        (split; [exact F2|]); (split; [exact W2|]); exact V2.
    - inversion E; subst. split; [exact F2|]. split; [exact W2|exact V2]. }
  destruct (y1 >? BottomInclusive (_mutableViewport t)) eqn:Ebelow.
  - assert (Hgt : y1 > vTop (_mutableViewport t)
                       + Height (_mutableViewport t) - 1)
      by (apply Z.gtb_lt in Ebelow; unfold BottomInclusive in Ebelow; lia).
    destruct (negb (Z.max 0 (y1 - (Height (_mutableViewport t) - 1))
                    =? vTop (_mutableViewport t))) eqn:Ene.
    + destruct (narrow_short _) as [top| |] eqn:En; cbn [bind];
        try discriminate.
      apply narrow_short_inv in En. subst top.
      apply (Done _ true); [| | reflexivity |].
      * destruct F1 as (A1 & A2 & A3 & A4 & A5 & A6 & A7 & A8 & A9 & A10 & A11 & A12).
        unfold writer_frame; cbn. cbn in A12.
        repeat split; try assumption; try reflexivity. lia.
      * unfold b2; cbn. exact Hw1.
      * intros H0. cbn [set_mutableViewport _mutableViewport].
        unfold vTop at 1, FromDimensions; cbn [Origin Y]. lia.
    + cbn [bind]. apply negb_false_iff, Z.eqb_eq in Ene.
      apply (Done t1 n1);
        [exact F1 | exact Hw1 | reflexivity |
         intros H0; change (_mutableViewport t1) with (_mutableViewport t); lia].
  - cbn [bind]. rewrite Z.gtb_ltb in Ebelow. apply Z.ltb_ge in Ebelow.
    unfold BottomInclusive in Ebelow.
    apply (Done t1 n1);
      [exact F1 | exact Hw1 | reflexivity |
       intros H0; change (_mutableViewport t1) with (_mutableViewport t); lia].
Qed.

Section WriterRuns.

Variable cellDistance : TextBuffer -> list wchar_t -> Z.

Lemma propose_size (t : Terminal) (s : list wchar_t) (i : Z) (wch : wchar_t)
  (b : TextBuffer) (p : COORD) (skip : Z) :
  propose cellDistance t s i wch = Ok (Proposed b p skip) ->
  GetSize b = GetSize (_buffer t) /\
  (is_surrogate wch = false -> skip = 0) /\
  (written b = written (_buffer t) \/
   exists run, written b = written (_buffer t) ++ [(Cursor (_buffer t), run)]).
Proof.
  unfold propose.
  destruct (wch =? UNICODE_LINEFEED).
  { destruct (skipNewline t); intros E; inversion E; subst. auto. }
  destruct (wch =? UNICODE_CARRIAGERETURN).
  { intros E; inversion E; subst. auto. }
  destruct (wch =? UNICODE_BACKSPACE).
  { destruct (X (Cursor (_buffer t)) =? 0); intros E; inversion E; subst;
      auto. }
  destruct (is_surrogate wch);
    destruct (narrow_short _); cbn [bind]; intros E; inversion E; subst;
    (split; [reflexivity|]); (split; [congruence || reflexivity|]);
    right; eexists; reflexivity.
Qed.

Lemma step_frame (t t1 : Terminal) (s : list wchar_t) (i i1 : Z) :
  _WriteBuffer_step cellDistance t s i = Ok (t1, i1) ->
  writer_frame t t1 /\
  (0 <= vTop (_mutableViewport t) ->
   cursor_in_view t ->
   vTop (_mutableViewport t1) =
     Z.max (vTop (_mutableViewport t))
           (Y (Cursor (_buffer t1)) - (Height (_mutableViewport t) - 1))).
Proof.
  unfold _WriteBuffer_step.
  destruct (propose cellDistance t s i (nth (Z.to_nat i) s 0))
    as [[|b p skip]| |] eqn:Hp; cbn [bind]; try discriminate.
  - intros E. inversion E; subst. split.
    + unfold writer_frame; cbn. repeat split; reflexivity || lia.
    + unfold cursor_in_view, BottomInclusive. cbn. lia.
  - destruct (commit t b p) as [[t' owed]| |] eqn:Hc; cbn [bind fst];
      try discriminate.
    intros E. inversion E; subst.
    destruct (propose_size t s i _ b p skip Hp) as (Hsize & _).
    destruct (commit_frame t t1 b p owed Hsize Hc) as (F & _ & V).
    split; [exact F|]. intros H0 _. exact (V H0).
Qed.

Lemma _WriteBuffer_from_frame (fuel : nat) :
  forall (t t' : Terminal) (s : list wchar_t) (i : Z),
    _WriteBuffer_from cellDistance fuel t s i = Ok t' ->
    writer_frame t t'.
Proof.
  induction fuel as [|fuel IH]; intros t t' s i Hrun;
    cbn [_WriteBuffer_from] in Hrun;
    destruct ((0 <=? i) && (i <? Z.of_nat (List.length s)));
    try discriminate Hrun;
    try (inversion Hrun; subst; apply writer_frame_refl).
  destruct (_WriteBuffer_step cellDistance t s i) as [[t1 i1]| |] eqn:Hs;
    cbn [bind fst snd] in Hrun; try discriminate Hrun.
  apply (writer_frame_trans t t1 t').
  - exact (proj1 (step_frame t t1 s i i1 Hs)).
  - exact (IH t1 t' s i1 Hrun).
Qed.

(** One pass keeps a session in order. *)
Lemma step_session_ok (t t1 : Terminal) (s : list wchar_t) (i i1 : Z) :
  session_ok t ->
  _WriteBuffer_step cellDistance t s i = Ok (t1, i1) ->
  session_ok t1.
Proof.
  intros (Hw & Hrow & Hvb & Hcv & Hsc) Hstep.
  assert (Hw1 := step_writer_ok cellDistance t t1 s i i1 Hw Hstep).
  assert (Hsc1 := step_scroll_in_range cellDistance t t1 s i i1 Hw Hsc Hstep).
  destruct (step_frame t t1 s i i1 Hstep) as (F & V).
  destruct F as (_ & _ & _ & _ & _ & _ & _ & _ & _ & Hd & Htop & Hsz).
  assert (Hh : Height (_mutableViewport t1) = Height (_mutableViewport t))
    by (unfold Height; unfold Dimensions in Hd; now rewrite Hd).
  assert (Hrow1 : Y (Cursor (_buffer t1)) < Height (GetSize (_buffer t1))).
  { destruct (step_inv cellDistance t t1 s i i1 Hw Hstep)
      as [(_ & -> & _) | (_ & b & p & skip & owed & _ & Hspec & _ & Hsize & _)].
    - exact Hrow.
    - destruct Hspec as (Hcur & _ & Hsz' & _).
      rewrite Hcur, Hsz'. unfold committed_row. cbn [Y]. lia. }
  destruct Hw as ((Ht0 & _) & _).
  specialize (V (proj1 Ht0) Hcv).
  unfold session_ok, viewport_in_buffer, cursor_in_view, BottomExclusive,
    BottomInclusive in *.
  rewrite Hh, Hsz in *.
  repeat split; try assumption; try apply Hw1; try apply Hsc1; lia.
Qed.

Lemma _WriteBuffer_from_session_ok (fuel : nat) :
  forall (t t' : Terminal) (s : list wchar_t) (i : Z),
    session_ok t ->
    _WriteBuffer_from cellDistance fuel t s i = Ok t' ->
    session_ok t'.
Proof.
  induction fuel as [|fuel IH]; intros t t' s i Hok Hrun;
    cbn [_WriteBuffer_from] in Hrun;
    destruct ((0 <=? i) && (i <? Z.of_nat (List.length s)));
    try discriminate Hrun; try (inversion Hrun; subst; exact Hok).
  destruct (_WriteBuffer_step cellDistance t s i) as [[t1 i1]| |] eqn:Hs;
    cbn [bind fst snd] in Hrun; try discriminate Hrun.
  apply (IH t1 t' s i1); [|exact Hrun].
  exact (step_session_ok t t1 s i i1 Hok Hs).
Qed.

(** X12.  A run of the writer that returns has changed nothing of the
    engine but the cursor, the cells and rotation count of the buffer, the
    suppression flag, the trace and the top of the live viewport: the
    scroll offset, the scrollback capacity, the selection and its flags,
    the title, the registered handler, the dimensions of the live viewport
    and the size of the buffer are as before, and the live top has not
    moved up. *)
Theorem _WriteBuffer_frame :
  forall (fuel : nat) (t t' : Terminal) (s : list wchar_t),
    _WriteBuffer cellDistance fuel t s = Ok t' ->
    writer_frame t t'.
Proof.
  intros fuel t t' s Hrun.
  exact (_WriteBuffer_from_frame fuel t t' s 0 Hrun).
Qed.

(** X13.  The writer keeps a session in order.  From a state where the
    cursor row is below the buffer height, the live viewport lies inside
    the buffer, the cursor is not below the live viewport and the scroll
    offset is within the scrollback, a run that returns leaves a state of
    the same kind: the viewport follows the cursor down and stops at the
    end of the buffer. *)
Theorem _WriteBuffer_keeps_session_ok :
  forall (fuel : nat) (t t' : Terminal) (s : list wchar_t),
    session_ok t ->
    _WriteBuffer cellDistance fuel t s = Ok t' ->
    session_ok t' /\
    Y (Cursor (_buffer t')) <= BottomInclusive (_mutableViewport t') /\
    BottomExclusive (_mutableViewport t') <= Height (GetSize (_buffer t')) /\
    0 <= _scrollOffset t' <= _ViewStartIndex t'.
Proof.
  intros fuel t t' s Hok Hrun.
  assert (H := _WriteBuffer_from_session_ok fuel t t' s 0 Hok Hrun).
  split; [exact H|]. destruct H as (_ & _ & Hvb & Hcv & Hsc).
  split; [exact Hcv|]. split; [exact Hvb|exact Hsc].
Qed.

(** X14.  A pass of the writer is silent unless it rotated the buffer or
    moved the live viewport: then, and only then, it requests one full
    redraw and calls the scroll handler, when one is registered, once with
    the visible top, the height and the live bottom of the state it
    leaves. *)
Theorem step_notifies_iff_scrolled :
  forall (t t1 : Terminal) (s : list wchar_t) (i i1 : Z),
    writer_ok t ->
    _WriteBuffer_step cellDistance t s i = Ok (t1, i1) ->
    (rotations (_buffer t1) = rotations (_buffer t) /\
     vTop (_mutableViewport t1) = vTop (_mutableViewport t) ->
       trace t1 = trace t) /\
    (rotations (_buffer t1) <> rotations (_buffer t) \/
     vTop (_mutableViewport t1) <> vTop (_mutableViewport t) ->
       trace t1 = trace t ++ owed_events t1 /\
       rotations (_buffer t) <= rotations (_buffer t1) /\
       vTop (_mutableViewport t) <= vTop (_mutableViewport t1)).
Proof.
  intros t t1 s i i1 Hw Hstep.
  destruct (step_inv cellDistance t t1 s i i1 Hw Hstep)
    as [(_ & -> & _) | (_ & b & p & skip & owed & _ & Hspec & _ & _ & Hrot & _)].
  - split; [reflexivity|]. cbn. intros [F|F]; now elim F.
  - destruct Hspec
      as (_ & Hrots & _ & _ & _ & _ & Htop & _ & _ & Howed & Htr).
    rewrite Hrot in Hrots.
    assert (Hnn : 0 <= rotated_rows b p) by (unfold rotated_rows; lia).
    split.
    + intros (Er & Et). destruct owed; [|now rewrite app_nil_r in Htr].
      destruct (proj1 Howed eq_refl) as [F|F]; [lia|now elim F].
    + intros Hch.
      assert (Eo : owed = true) by (apply Howed; destruct Hch; [left; lia|now right]).
      subst owed. repeat split; [exact Htr|lia|exact Htop].
Qed.

End WriterRuns.

Lemma session_session_ok : session_ok (session 0).
Proof.
  unfold session_ok, viewport_in_buffer, cursor_in_view, scroll_in_range.
  split; [exact session_writer_ok|]. by_evaluation.
Qed.

Lemma _WriteBuffer_frame_witness :
  exists t' : Terminal,
    _WriteBuffer unit_cells 7 (session 0) hello_crlf = Ok t' /\
    writer_frame (session 0) t'.
Proof.
  eexists. split; [vm_compute; reflexivity|].
  apply (_WriteBuffer_frame unit_cells 7 (session 0) _ hello_crlf).
  vm_compute. reflexivity.
Defined.

Lemma _WriteBuffer_keeps_session_ok_witness :
  exists t' : Terminal,
    _WriteBuffer unit_cells 60 (session 100) (repeat_run 30 CRLF) = Ok t' /\
    session_ok t' /\
    _ViewStartIndex t' = 7.
Proof.
  eexists. split; [vm_compute; reflexivity|]. split.
  - refine (proj1 (_WriteBuffer_keeps_session_ok unit_cells 60 (session 100)
                     _ (repeat_run 30 CRLF) _ _)).
    + unfold session_ok, writer_ok, engine_ok, is_short, viewport_in_buffer,
        cursor_in_view, scroll_in_range. by_evaluation.
    + vm_compute. reflexivity.
  - reflexivity.
Defined.

Lemma step_notifies_iff_scrolled_witness :
  exists t1 : Terminal,
    _WriteBuffer_step unit_cells last_row_session [UNICODE_LINEFEED] 0
      = Ok (t1, 1) /\
    trace t1 = trace last_row_session ++ owed_events t1.
Proof.
  eexists. split; [vm_compute; reflexivity|].
  refine (proj1 (proj2 (step_notifies_iff_scrolled unit_cells last_row_session
                          _ [UNICODE_LINEFEED] 0 1
                          last_row_session_writer_ok _) _)).
  - vm_compute. reflexivity.
  - left. vm_compute. discriminate.
Defined.

(** ** Runs without surrogates *)

Lemma skipn_nth_cons (s : list wchar_t) :
  forall n : nat,
    (n < List.length s)%nat ->
    skipn n s = nth n s 0 :: skipn (S n) s.
Proof.
  induction s as [|c s IH]; intros n Hn; cbn [List.length] in Hn; [lia|].
  destruct n as [|n]; [reflexivity|].
  cbn [skipn nth]. apply IH. lia.
Qed.

Lemma skipn_all_nil (s : list wchar_t) (n : nat) :
  (List.length s <= n)%nat -> skipn n s = [].
Proof.
  revert n. induction s as [|c s IH]; intros n Hn.
  - now destruct n.
  - destruct n as [|n]; cbn [List.length] in Hn; [lia|].
    cbn [skipn]. apply IH. lia.
Qed.

Lemma commit_returns_or_throws (t : Terminal) (b : TextBuffer) (p : COORD) :
  commit t b p <> OutOfFuel.
Proof.
  unfold commit.
  destruct (if 0 <? Y p - Height (GetSize b) + 1
            then let (b', y') :=
                   cycle (Z.to_nat (Y p - Height (GetSize b) + 1)) b (Y p) in
                 (b', y', true)
            else (b, Y p, false)) as [[b1 y1] n1].
  assert (Hn : forall t0, _NotifyScrollEvent t0 <> OutOfFuel).
  { intros t0. unfold _NotifyScrollEvent, _GetVisibleViewport, narrow_short.
    destruct (_pfnScrollPositionChanged t0); [|discriminate].
    destruct (in_short (_VisibleStartIndex t0)); discriminate. }
  assert (Hf : forall t2 (n2 : bool),
             (if n2
              then t3 <- _NotifyScrollEvent (emit t2 TriggerRedrawAll) ;;
                   Ok (t3, true)
              else Ok (t2, false)) <> OutOfFuel).
  { intros t2 [|]; [|discriminate].
    specialize (Hn (emit t2 TriggerRedrawAll)).
    destruct (_NotifyScrollEvent (emit t2 TriggerRedrawAll)); cbn [bind];
      congruence. }
  cbv zeta.
  destruct (_ >? _); [destruct (negb _)|]; cbn [bind]; try apply Hf.
  unfold narrow_short. destruct (in_short _); cbn [bind];
    [exact (Hf _ true)|discriminate].
Qed.

Section SurrogateFree.

Variable cellDistance : TextBuffer -> list wchar_t -> Z.

Lemma step_returns_or_throws (t : Terminal) (s : list wchar_t) (i : Z) :
  _WriteBuffer_step cellDistance t s i <> OutOfFuel.
Proof.
  unfold _WriteBuffer_step.
  assert (Hp : forall wch, propose cellDistance t s i wch <> OutOfFuel).
  { intros wch. unfold propose, narrow_short.
    repeat match goal with
           | |- context [if ?c then _ else _] => destruct c
           end; cbn [bind]; discriminate. }
  specialize (Hp (nth (Z.to_nat i) s 0)).
  destruct (propose cellDistance t s i (nth (Z.to_nat i) s 0))
    as [[|b p skip]| |]; cbn [bind]; try congruence; try discriminate.
  pose proof (commit_returns_or_throws t b p) as Hc.
  destruct (commit t b p); cbn [bind]; congruence || discriminate.
Qed.

(** On a character that is not a surrogate, a pass reads the text only at
    its index: it is the pass on that character as a run of its own. *)
Lemma step_char (t : Terminal) (s : list wchar_t) (i : Z) :
  0 <= i < Z.of_nat (List.length s) ->
  is_surrogate (nth (Z.to_nat i) s 0) = false ->
  _WriteBuffer_step cellDistance t s i =
    r <- _WriteBuffer_step cellDistance t [nth (Z.to_nat i) s 0] 0 ;;
    Ok (fst r, i + 1).
Proof.
  intros Hi Hsur. unfold _WriteBuffer_step.
  set (c := nth (Z.to_nat i) s 0) in *.
  change (nth (Z.to_nat 0) [c] 0) with c.
  assert (Hp : propose cellDistance t s i c = propose cellDistance t [c] 0 c).
  { unfold propose. rewrite Hsur, (substr_one s i Hi). reflexivity. }
  rewrite Hp.
  destruct (propose cellDistance t [c] 0 c) as [[|b p skip]| |] eqn:E;
    cbn [bind fst]; try reflexivity.
  destruct (propose_size cellDistance t [c] 0 c b p skip E) as (_ & Hskip & _).
  rewrite (Hskip Hsur).
  destruct (commit t b p) as [[t1 owed]| |]; cbn [bind fst]; try reflexivity.
  now rewrite Z.add_0_r.
Qed.

Lemma _WriteBuffer_from_chars (fuel : nat) :
  forall (t : Terminal) (s : list wchar_t) (i : Z),
    no_surrogates s ->
    0 <= i ->
    Z.of_nat (List.length s) - i <= Z.of_nat fuel ->
    _WriteBuffer_from cellDistance fuel t s i =
      write_chars cellDistance t (skipn (Z.to_nat i) s).
Proof.
  induction fuel as [|fuel IH]; intros t s i Hs Hi Hfuel;
    cbn [_WriteBuffer_from];
    destruct ((0 <=? i) && (i <? Z.of_nat (List.length s))) eqn:E.
  - apply andb_true_iff in E. destruct E as (_ & E). apply Z.ltb_lt in E. lia.
  - rewrite skipn_all_nil; [reflexivity|].
    apply andb_false_iff in E. destruct E as [E|E];
      [apply Z.leb_gt in E | apply Z.ltb_ge in E]; lia.
  - apply andb_true_iff in E. destruct E as (_ & E). apply Z.ltb_lt in E.
    assert (Hsur : is_surrogate (nth (Z.to_nat i) s 0) = false).
    { unfold no_surrogates in Hs. rewrite Forall_forall in Hs.
      apply Hs, nth_In. lia. }
    rewrite (step_char t s i (conj Hi E) Hsur).
    rewrite (skipn_nth_cons s (Z.to_nat i)) by lia.
    cbn [write_chars].
    destruct (_WriteBuffer_step cellDistance t [nth (Z.to_nat i) s 0] 0)
      as [[t1 i1]| |]; cbn [bind fst snd]; try reflexivity.
    rewrite (IH t1 s (i + 1)) by (assumption || lia).
    replace (Z.to_nat (i + 1)) with (S (Z.to_nat i)) by lia. reflexivity.
  - rewrite skipn_all_nil; [reflexivity|].
    apply andb_false_iff in E. destruct E as [E|E];
      [apply Z.leb_gt in E | apply Z.ltb_ge in E]; lia.
Qed.

Lemma write_chars_app (s1 : list wchar_t) :
  forall (t : Terminal) (s2 : list wchar_t),
    write_chars cellDistance t (s1 ++ s2) =
      t1 <- write_chars cellDistance t s1 ;; write_chars cellDistance t1 s2.
Proof.
  induction s1 as [|c s1 IH]; intros t s2; [reflexivity|].
  cbn [app write_chars].
  destruct (_WriteBuffer_step cellDistance t [c] 0) as [[t1 i1]| |];
    cbn [bind fst]; try reflexivity.
  apply IH.
Qed.

Lemma write_chars_returns_or_throws (s : list wchar_t) :
  forall t : Terminal, write_chars cellDistance t s <> OutOfFuel.
Proof.
  induction s as [|c s IH]; intros t; cbn [write_chars]; [discriminate|].
  pose proof (step_returns_or_throws t [c] 0) as Hs.
  destruct (_WriteBuffer_step cellDistance t [c] 0) as [[t1 i1]| |];
    cbn [bind fst]; [apply IH | discriminate | congruence].
Qed.

(** X15.  On text without surrogates the loop makes one pass for each
    character and ends: with fuel for the length of the text the run is
    the fold of the single-character pass over the text, it does not run
    out of fuel, and more fuel gives the same result. *)
Theorem _WriteBuffer_is_write_chars :
  forall (fuel fuel' : nat) (t : Terminal) (s : list wchar_t),
    no_surrogates s ->
    (List.length s <= fuel)%nat ->
    (List.length s <= fuel')%nat ->
    _WriteBuffer cellDistance fuel t s = write_chars cellDistance t s /\
    _WriteBuffer cellDistance fuel t s <> OutOfFuel /\
    _WriteBuffer cellDistance fuel' t s = _WriteBuffer cellDistance fuel t s.
Proof.
  intros fuel fuel' t s Hs Hf Hf'. unfold _WriteBuffer.
  rewrite !_WriteBuffer_from_chars by (assumption || lia).
  cbn [Z.to_nat skipn]. split; [reflexivity|]. split; [|reflexivity].
  apply write_chars_returns_or_throws.
Qed.

(** X16.  A text without surrogates can be handed over in two calls: the
    run on [s1 ++ s2] is the run on [s1] followed by the run on [s2] from
    the state the first one left, exceptions included.  The suppression
    flag is state of the session, so a carriage return and a line feed
    split between two calls are handled as in one. *)
Theorem _WriteBuffer_app :
  forall (t : Terminal) (s1 s2 : list wchar_t),
    no_surrogates s1 ->
    no_surrogates s2 ->
    _WriteBuffer cellDistance (List.length (s1 ++ s2)) t (s1 ++ s2) =
      t1 <- _WriteBuffer cellDistance (List.length s1) t s1 ;;
      _WriteBuffer cellDistance (List.length s2) t1 s2.
Proof.
  intros t s1 s2 H1 H2.
  assert (H12 : no_surrogates (s1 ++ s2))
    by (unfold no_surrogates in *; apply Forall_app; now split).
  unfold _WriteBuffer.
  rewrite !_WriteBuffer_from_chars by (assumption || lia).
  cbn [Z.to_nat skipn]. rewrite write_chars_app.
  destruct (write_chars cellDistance t s1) as [t1| |]; cbn [bind];
    try reflexivity.
  rewrite _WriteBuffer_from_chars by (assumption || lia). reflexivity.
Qed.

Lemma step_returns (t : Terminal) (s : list wchar_t) (i : Z) :
  writer_ok t ->
  (forall b run, is_short (cellDistance b run)) ->
  exists (t1 : Terminal) (i1 : Z),
    _WriteBuffer_step cellDistance t s i = Ok (t1, i1).
Proof.
  intros Hw Hcd.
  destruct (propose cellDistance t s i (nth (Z.to_nat i) s 0))
    as [[|b p skip]| |] eqn:Hp.
  - eexists. eexists. exact (step_suppressed cellDistance t s i Hp).
  - destruct (step_proposed cellDistance t s i b p skip Hw Hp)
      as (t1 & owed & Hs & _).
    eexists. eexists. exact Hs.
  - exfalso. revert Hp. unfold propose.
    repeat match goal with
           | |- context [if ?c then _ else _] => destruct c
           end;
      rewrite ?(narrow_short_small _ (Hcd _ _)); cbn [bind]; discriminate.
  - exfalso. revert Hp. unfold propose.
    repeat match goal with
           | |- context [if ?c then _ else _] => destruct c
           end;
      rewrite ?(narrow_short_small _ (Hcd _ _)); cbn [bind]; discriminate.
Qed.

(** X17.  The only exception the writer can raise on text without
    surrogates is the one of a cell count that does not fit a [SHORT]: from
    a state with a valid live viewport, a [SHORT] cursor and a buffer of
    positive height, on a buffer whose cell counts fit, a run with fuel for
    the length of the text returns a state. *)
Theorem _WriteBuffer_returns :
  forall (fuel : nat) (t : Terminal) (s : list wchar_t),
    writer_ok t ->
    no_surrogates s ->
    (forall b run, is_short (cellDistance b run)) ->
    (List.length s <= fuel)%nat ->
    exists t' : Terminal,
      _WriteBuffer cellDistance fuel t s = Ok t' /\ writer_ok t'.
Proof.
  intros fuel t s Hw Hs Hcd Hf. unfold _WriteBuffer.
  rewrite _WriteBuffer_from_chars by (assumption || lia).
  cbn [Z.to_nat skipn]. clear Hs Hf fuel. revert t Hw.
  induction s as [|c s IH]; intros t Hw; cbn [write_chars].
  - exists t. now split.
  - destruct (step_returns t [c] 0 Hw Hcd) as (t1 & i1 & Hstep).
    rewrite Hstep. cbn [bind fst].
    apply IH. exact (step_writer_ok cellDistance t t1 [c] 0 i1 Hw Hstep).
Qed.

(** X18.  A surrogate for which the buffer reports no cell stops the loop
    from advancing: the index comes back to the same character, the pass
    is repeated on it, and the run does not end, whatever the fuel. *)
Theorem _WriteBuffer_from_zero_cell_surrogate :
  forall (fuel : nat) (t : Terminal) (s : list wchar_t) (i : Z),
    writer_ok t ->
    0 <= i < Z.of_nat (List.length s) ->
    is_surrogate (nth (Z.to_nat i) s 0) = true ->
    (forall b, cellDistance b (substr s i 2) = 0) ->
    _WriteBuffer_from cellDistance fuel t s i = OutOfFuel.
Proof.
  induction fuel as [|fuel IH]; intros t s i Hw Hi Hsur Hcd;
    cbn [_WriteBuffer_from];
    assert (E : (0 <=? i) && (i <? Z.of_nat (List.length s)) = true)
      by (apply andb_true_iff; split; [apply Z.leb_le|apply Z.ltb_lt]; lia);
    rewrite E; [reflexivity|].
  set (wch := nth (Z.to_nat i) s 0) in *.
  assert (Hge : 55296 <= wch).
  { unfold is_surrogate in Hsur. apply andb_true_iff in Hsur.
    destruct Hsur as (H1 & _). now apply Z.leb_le in H1. }
  assert (Hp : exists b p,
             propose cellDistance t s i wch = Ok (Proposed b p (0 - 1))).
  { unfold propose.
    assert (E1 : (wch =? UNICODE_LINEFEED) = false)
      by (apply Z.eqb_neq; unfold UNICODE_LINEFEED; lia).
    assert (E2 : (wch =? UNICODE_CARRIAGERETURN) = false)
      by (apply Z.eqb_neq; unfold UNICODE_CARRIAGERETURN; lia).
    assert (E3 : (wch =? UNICODE_BACKSPACE) = false)
      by (apply Z.eqb_neq; unfold UNICODE_BACKSPACE; lia).
    rewrite E1, E2, E3, Hsur, Hcd. cbn [bind narrow_short in_short].
    eexists. eexists. reflexivity. }
  destruct Hp as (b & p & Hp).
  destruct (step_proposed cellDistance t s i b p (0 - 1) Hw Hp)
    as (t1 & owed & Hs & _).
  replace (i + (0 - 1) + 1) with i in Hs by lia.
  rewrite Hs. cbn [bind fst snd].
  apply IH; try assumption.
  exact (step_writer_ok cellDistance t t1 s i i Hw Hs).
Qed.

End SurrogateFree.

Lemma hello_crlf_no_surrogates : no_surrogates hello_crlf.
Proof. repeat constructor. Qed.

Lemma _WriteBuffer_is_write_chars_witness :
  _WriteBuffer unit_cells 7 (session 0) hello_crlf =
    write_chars unit_cells (session 0) hello_crlf /\
  _WriteBuffer unit_cells 9 (session 0) hello_crlf =
    _WriteBuffer unit_cells 7 (session 0) hello_crlf.
Proof.
  destruct (_WriteBuffer_is_write_chars unit_cells 7 9 (session 0) hello_crlf
              hello_crlf_no_surrogates)
    as (H1 & _ & H2).
  - cbn. lia.
  - cbn. lia.
  - split; [exact H1|exact H2].
Defined.

Lemma _WriteBuffer_app_witness :
  _WriteBuffer unit_cells 7 (session 0) ([72; 101; 108; 108; 111; 13] ++ [10])
  = t1 <- _WriteBuffer unit_cells 6 (session 0) [72; 101; 108; 108; 111; 13] ;;
    _WriteBuffer unit_cells 1 t1 [10].
Proof.
  apply (_WriteBuffer_app unit_cells (session 0)
           [72; 101; 108; 108; 111; 13] [10]); repeat constructor.
Defined.

Lemma _WriteBuffer_returns_witness :
  exists t' : Terminal,
    _WriteBuffer (fun _ _ => 1) 7 (session 0) hello_crlf = Ok t' /\
    writer_ok t'.
Proof.
  apply (_WriteBuffer_returns (fun _ _ => 1) 7 (session 0) hello_crlf
           session_writer_ok hello_crlf_no_surrogates).
  - intros b run. unfold is_short, SHORT_MIN, SHORT_MAX. lia.
  - cbn. lia.
Defined.

Lemma _WriteBuffer_from_zero_cell_surrogate_witness :
  _WriteBuffer_from (fun _ _ => 0) 1000 (session 0) [55357; 56832] 0
  = OutOfFuel.
Proof.
  apply (_WriteBuffer_from_zero_cell_surrogate (fun _ _ => 0) 1000 (session 0)
           [55357; 56832] 0 session_writer_ok).
  - cbn. lia.
  - reflexivity.
  - reflexivity.
Defined.

(** ** Line breaks and backspace *)

Lemma repeat_run_CRLF_facts (n : nat) :
  no_surrogates (repeat_run n CRLF) /\
  List.length (repeat_run n CRLF) = (2 * n)%nat.
Proof.
  induction n as [|n (IH1 & IH2)]; cbn [repeat_run]; [split; [constructor|reflexivity]|].
  split.
  - unfold no_surrogates in *. apply Forall_app. split; [|exact IH1].
    repeat constructor.
  - rewrite length_app, IH2. cbn. lia.
Qed.

Section Lines.

Variable cellDistance : TextBuffer -> list wchar_t -> Z.

(** A carriage return and a line feed, as two single-character passes. *)
Lemma crlf_pair (t : Terminal) :
  writer_ok t ->
  Y (Cursor (_buffer t)) < Height (GetSize (_buffer t)) ->
  exists t2 : Terminal,
    write_chars cellDistance t CRLF = Ok t2 /\
    writer_ok t2 /\
    GetSize (_buffer t2) = GetSize (_buffer t) /\
    X (Cursor (_buffer t2)) = 0 /\
    Y (Cursor (_buffer t2)) =
      Z.min (Y (Cursor (_buffer t)) + 1) (Height (GetSize (_buffer t)) - 1) /\
    rotations (_buffer t2) =
      rotations (_buffer t) +
      Z.max 0 (Y (Cursor (_buffer t)) + 2 - Height (GetSize (_buffer t))).
Proof.
  intros Hw Hlt. unfold CRLF. cbn [write_chars].
  assert (Hp : propose cellDistance t [UNICODE_CARRIAGERETURN] 0
                 (nth (Z.to_nat 0) [UNICODE_CARRIAGERETURN] 0) =
               Ok (Proposed (_buffer t)
                     (mkCOORD 0 (Y (Cursor (_buffer t)))) 0))
    by reflexivity.
  destruct (step_proposed cellDistance t _ 0 _ _ _ Hw Hp)
    as (t1 & owed & Hs1 & Hspec & _).
  destruct Hspec as (Hcur & Hrots & Hsz & _ & Hflag & _).
  assert (Hw1 := step_writer_ok cellDistance t t1 _ 0 _ Hw Hs1).
  rewrite Hs1. cbn [bind fst].
  unfold committed_row, rotated_rows in *. cbn [X Y] in *.
  assert (Hy1 : Y (Cursor (_buffer t1)) = Y (Cursor (_buffer t)))
    by (rewrite Hcur; cbn [Y]; lia).
  assert (Hx1 : X (Cursor (_buffer t1)) = 0) by now rewrite Hcur.
  assert (Hf1 : skipNewline t1 = false)
    by (rewrite Hflag; apply Z.eqb_neq; lia).
  destruct (line_feed_step cellDistance t1 [UNICODE_LINEFEED] 0 Hw1)
    as (_ & Hadv); [rewrite Hy1, Hsz; exact Hlt | reflexivity |].
  destruct (Hadv Hf1) as (t2 & Hs2 & Hx2 & Hy2 & Hr2).
  assert (Hw2 := step_writer_ok cellDistance t1 t2 _ 0 _ Hw1 Hs2).
  destruct (step_frame cellDistance t1 t2 _ 0 _ Hs2) as (F & _).
  destruct F as (_ & _ & _ & _ & _ & _ & _ & _ & _ & _ & _ & Hsz2).
  exists t2. rewrite Hs2. cbn [bind fst].
  rewrite Hsz2, Hx2, Hy2, Hr2, Hrots, Hsz, Hy1, Hx1.
  split; [reflexivity|]. split; [exact Hw2|].
  do 3 (split; [reflexivity|]). lia.
Qed.

Lemma crlf_lines (n : nat) :
  forall t : Terminal,
    writer_ok t ->
    Y (Cursor (_buffer t)) < Height (GetSize (_buffer t)) ->
    exists t' : Terminal,
      write_chars cellDistance t (repeat_run n CRLF) = Ok t' /\
      writer_ok t' /\
      GetSize (_buffer t') = GetSize (_buffer t) /\
      ((0 < n)%nat -> X (Cursor (_buffer t')) = 0) /\
      Y (Cursor (_buffer t')) =
        Z.min (Y (Cursor (_buffer t)) + Z.of_nat n)
              (Height (GetSize (_buffer t)) - 1) /\
      rotations (_buffer t') =
        rotations (_buffer t) +
        Z.max 0 (Y (Cursor (_buffer t)) + Z.of_nat n
                 - (Height (GetSize (_buffer t)) - 1)).
Proof.
  induction n as [|n IH]; intros t Hw Hlt.
  - exists t. cbn [repeat_run write_chars].
    split; [reflexivity|]. split; [exact Hw|].
    split; [reflexivity|]. split; [lia|]. split; lia.
  - cbn [repeat_run]. rewrite write_chars_app.
    destruct (crlf_pair t Hw Hlt) as (t2 & Hrun & Hw2 & Hsz & Hx & Hy & Hr).
    rewrite Hrun. cbn [bind].
    destruct (IH t2 Hw2) as (t' & Hrun' & Hw' & Hsz' & Hx' & Hy' & Hr');
      [rewrite Hy, Hsz; lia|].
    exists t'. rewrite Hrun', Hsz', Hy', Hr', Hsz, Hy, Hr.
    split; [reflexivity|]. split; [exact Hw'|].
    split; [reflexivity|]. split; [|split; lia].
    intros _. destruct n as [|n]; [|apply Hx'; lia].
    cbn [repeat_run write_chars] in Hrun'. inversion Hrun'; subst. exact Hx.
Qed.

(** X19.  A carriage return followed by a line feed is one line break: [n]
    such pairs put the cursor in column 0, [n] rows further down, and once
    the last row of the buffer is reached each further pair rotates the
    buffer by one row and leaves the cursor on the last row. *)
Theorem _WriteBuffer_crlf_lines :
  forall (n fuel : nat) (t : Terminal),
    writer_ok t ->
    Y (Cursor (_buffer t)) < Height (GetSize (_buffer t)) ->
    (2 * n <= fuel)%nat ->
    exists t' : Terminal,
      _WriteBuffer cellDistance fuel t (repeat_run n CRLF) = Ok t' /\
      ((0 < n)%nat -> X (Cursor (_buffer t')) = 0) /\
      Y (Cursor (_buffer t')) =
        Z.min (Y (Cursor (_buffer t)) + Z.of_nat n)
              (Height (GetSize (_buffer t)) - 1) /\
      rotations (_buffer t') =
        rotations (_buffer t) +
        Z.max 0 (Y (Cursor (_buffer t)) + Z.of_nat n
                 - (Height (GetSize (_buffer t)) - 1)).
Proof.
  intros n fuel t Hw Hlt Hfuel.
  destruct (repeat_run_CRLF_facts n) as (Hs & Hlen).
  unfold _WriteBuffer.
  rewrite _WriteBuffer_from_chars by (assumption || lia).
  cbn [Z.to_nat skipn].
  destruct (crlf_lines n t Hw Hlt) as (t' & Hrun & _ & _ & Hx & Hy & Hr).
  exists t'. repeat split; assumption.
Qed.

(** X20.  A backspace takes back the step of a one-cell character and
    nothing else: after the character and the backspace the cursor is
    where it was, the buffer has not rotated, and the cell written by the
    character is still written. *)
Theorem _WriteBuffer_char_backspace :
  forall (t : Terminal) (c : wchar_t),
    writer_ok t ->
    0 <= X (Cursor (_buffer t)) < SHORT_MAX ->
    Y (Cursor (_buffer t)) < Height (GetSize (_buffer t)) ->
    is_content c ->
    is_surrogate c = false ->
    cellDistance (_buffer t) [c] = 1 ->
    exists t' : Terminal,
      _WriteBuffer cellDistance 2 t [c; UNICODE_BACKSPACE] = Ok t' /\
      Cursor (_buffer t') = Cursor (_buffer t) /\
      rotations (_buffer t') = rotations (_buffer t) /\
      written (_buffer t') =
        written (_buffer t) ++ [(Cursor (_buffer t), [c])].
Proof.
  intros t c Hw Hx Hlt (Nlf & Ncr & Nbs) Hsur Hcd.
  assert (Hs : no_surrogates [c; UNICODE_BACKSPACE])
    by (repeat constructor; assumption).
  unfold _WriteBuffer.
  rewrite _WriteBuffer_from_chars by (assumption || cbn; lia).
  cbn [Z.to_nat skipn write_chars].
  assert (Hw' := Hw). destruct Hw' as (_ & _ & Hsy & Hh).
  unfold is_short, SHORT_MIN, SHORT_MAX in *.
  assert (Hp : propose cellDistance t [c] 0 (nth (Z.to_nat 0) [c] 0) =
               Ok (Proposed (record_write (_buffer t) [c])
                     (mkCOORD (X (Cursor (_buffer t)) + 1)
                              (Y (Cursor (_buffer t)))) 0)).
  { cbn [Z.to_nat nth]. unfold propose.
    apply Z.eqb_neq in Nlf, Ncr, Nbs. rewrite Nlf, Ncr, Nbs, Hsur.
    change (substr [c] 0 1) with [c]. rewrite Hcd.
    change (narrow_short 1) with (Ok 1). cbn [bind].
    rewrite to_short_small
      by (unfold is_short, SHORT_MIN, SHORT_MAX; lia).
    reflexivity. }
  destruct (step_proposed cellDistance t _ 0 _ _ _ Hw Hp)
    as (t1 & owed & Hs1 & Hspec & _).
  destruct Hspec as (Hcur & Hrots & Hsz & Hwr & _).
  assert (Hw1 := step_writer_ok cellDistance t t1 _ 0 _ Hw Hs1).
  rewrite Hs1. cbn [bind fst].
  unfold committed_row, rotated_rows in *.
  cbn [X Y record_write GetSize rotations written] in *.
  assert (Hp2 : propose cellDistance t1 [UNICODE_BACKSPACE] 0
                  (nth (Z.to_nat 0) [UNICODE_BACKSPACE] 0) =
                Ok (Proposed (_buffer t1)
                      (mkCOORD (X (Cursor (_buffer t)))
                               (Y (Cursor (_buffer t)))) 0)).
  { cbn [Z.to_nat nth]. unfold propose.
    change (UNICODE_BACKSPACE =? UNICODE_LINEFEED) with false.
    change (UNICODE_BACKSPACE =? UNICODE_CARRIAGERETURN) with false.
    change (UNICODE_BACKSPACE =? UNICODE_BACKSPACE) with true.
    rewrite Hcur. cbn [X Y].
    assert (E : (X (Cursor (_buffer t)) + 1 =? 0) = false)
      by (apply Z.eqb_neq; lia).
    rewrite E.
    rewrite to_short_small
      by (unfold is_short, SHORT_MIN, SHORT_MAX; lia).
    replace (X (Cursor (_buffer t)) + 1 - 1) with (X (Cursor (_buffer t)))
      by lia.
    replace (Z.min (Y (Cursor (_buffer t)))
               (Height (GetSize (_buffer t)) - 1))
      with (Y (Cursor (_buffer t))) by lia.
    reflexivity. }
  destruct (step_proposed cellDistance t1 _ 0 _ _ _ Hw1 Hp2)
    as (t2 & owed2 & Hs2 & Hspec2 & _).
  destruct Hspec2 as (Hcur2 & Hrots2 & Hsz2 & Hwr2 & _).
  rewrite Hs2. cbn [bind fst].
  exists t2. split; [reflexivity|].
  unfold committed_row, rotated_rows in *. cbn [X Y] in *.
  rewrite Hcur2, Hrots2, Hwr2, Hrots, Hwr, Hsz.
  repeat split.
  - destruct (Cursor (_buffer t)) as [x y]; cbn [X Y] in *. f_equal. lia.
  - lia.
Qed.

End Lines.

Lemma _WriteBuffer_crlf_lines_witness :
  exists t' : Terminal,
    _WriteBuffer unit_cells 48 (session 0) (repeat_run 24 CRLF) = Ok t' /\
    Y (Cursor (_buffer t')) = 23 /\
    rotations (_buffer t') = 1.
Proof.
  destruct (_WriteBuffer_crlf_lines unit_cells 24 48 (session 0)
              session_writer_ok)
    as (t' & Hrun & _ & Hy & Hr).
  - vm_compute. reflexivity.
  - lia.
  - exists t'. split; [exact Hrun|]. split; [exact Hy|exact Hr].
Defined.

Lemma _WriteBuffer_char_backspace_witness :
  exists t' : Terminal,
    _WriteBuffer unit_cells 2 (session 0) [65; UNICODE_BACKSPACE] = Ok t' /\
    Cursor (_buffer t') = Cursor (_buffer (session 0)).
Proof.
  destruct (_WriteBuffer_char_backspace unit_cells (session 0) 65
              session_writer_ok)
    as (t' & Hrun & Hcur & _).
  - unfold SHORT_MAX. cbn. lia.
  - vm_compute. reflexivity.
  - repeat split; discriminate.
  - reflexivity.
  - reflexivity.
  - exists t'. split; [exact Hrun|exact Hcur].
Defined.

(** ** Creation and whole sessions *)

(** X21.  [Create] on a new terminal, with a positive viewport size and a
    non-negative scrollback whose sum with the height fits a [SHORT], gives
    a session in order: the buffer is as wide as the viewport and as high
    as the viewport plus the scrollback, the cursor is at its origin, the
    live viewport is at row 0 with nothing scrolled back, no selection is
    shown and nothing has been notified. *)
Theorem Create_session_ok :
  forall (viewportSize : COORD) (scrollbackLines : Z) (fuel : nat),
    0 < X viewportSize <= SHORT_MAX ->
    0 < Y viewportSize ->
    0 <= scrollbackLines ->
    Y viewportSize + scrollbackLines <= SHORT_MAX ->
    session_ok (Create Terminal_new viewportSize scrollbackLines) /\
    cursor_in_buffer (_buffer (Create Terminal_new viewportSize scrollbackLines)) /\
    Dimensions (GetSize (_buffer (Create Terminal_new viewportSize scrollbackLines)))
      = mkCOORD (X viewportSize) (Y viewportSize + scrollbackLines) /\
    Dimensions (_mutableViewport (Create Terminal_new viewportSize scrollbackLines))
      = viewportSize /\
    _ViewStartIndex (Create Terminal_new viewportSize scrollbackLines) = 0 /\
    GetScrollOffset (Create Terminal_new viewportSize scrollbackLines) = 0 /\
    _GetSelectionRects fuel (Create Terminal_new viewportSize scrollbackLines)
      = Ok [] /\
    trace (Create Terminal_new viewportSize scrollbackLines) = [].
Proof.
  intros size sb fuel Hx Hy Hsb Hsum. unfold SHORT_MAX in *.
  assert (Hbuf : to_short (Y size + sb) = Y size + sb)
    by (apply to_short_small; unfold is_short, SHORT_MIN, SHORT_MAX; lia).
  unfold session_ok, writer_ok, engine_ok, viewport_in_buffer, cursor_in_view,
    scroll_in_range, cursor_in_buffer, is_short, SHORT_MIN, SHORT_MAX, INT_MAX,
    BottomExclusive, BottomInclusive, _ViewStartIndex, GetScrollOffset,
    _VisibleStartIndex, Dimensions, Height, Width, vTop, Create.
  cbn. rewrite Hbuf. destruct size as [w h]; cbn [X Y] in *.
  repeat split; try reflexivity; lia.
Qed.

Lemma Create_session_ok_witness :
  session_ok (Create Terminal_new (mkCOORD 80 24) 100) /\
  Dimensions (GetSize (_buffer (Create Terminal_new (mkCOORD 80 24) 100)))
    = mkCOORD 80 124.
Proof.
  destruct (Create_session_ok (mkCOORD 80 24) 100 0) as (H1 & _ & H2 & _).
  - unfold SHORT_MAX. cbn. lia.
  - cbn. lia.
  - lia.
  - unfold SHORT_MAX. cbn. lia.
  - split; [exact H1|exact H2].
Defined.

(** A state that differs only in the scroll offset, the selection, the
    flags and the trace is as much in order, as long as the offset stays
    within the scrollback. *)
Lemma session_ok_same (t t' : Terminal) :
  _mutableViewport t' = _mutableViewport t ->
  _buffer t' = _buffer t ->
  0 <= _scrollOffset t' <= _ViewStartIndex t ->
  session_ok t ->
  session_ok t'.
Proof.
  unfold session_ok, writer_ok, engine_ok, viewport_in_buffer, cursor_in_view,
    scroll_in_range, _ViewStartIndex.
  intros -> -> Ho (((Ht & Hh & _) & Hrest) & H2 & H3 & H4 & _).
  unfold SHORT_MAX, INT_MAX in *.
  repeat split; try apply Hrest; try assumption; try lia.
Qed.

(** X22.  Every call of a session except a resize keeps it in order.
    From a state in order, any sequence of writes, user scrolls to [int]
    targets, key events and selection calls that returns leaves the scroll
    offset within the scrollback, the live viewport inside the buffer, the
    cursor row below the buffer height and not below the live viewport,
    and the visible top between 0 and the live top. *)
Theorem perform_all_keeps_session_ok :
  forall (cellDistance : TextBuffer -> list wchar_t -> Z)
         (HandleKey : Z -> Z -> bool)
         (l : list action) (t t' : Terminal),
    session_ok t ->
    Forall action_ok l ->
    perform_all cellDistance HandleKey t l = Ok t' ->
    session_ok t' /\
    0 <= GetScrollOffset t' <= _ViewStartIndex t'.
Proof.
  intros cellDistance HandleKey l.
  assert (Hone : forall a t t',
             session_ok t -> action_ok a ->
             perform cellDistance HandleKey t a = Ok t' -> session_ok t').
  { intros a t t' Hok Ha Hrun.
    assert (Hok' := Hok).
    destruct Hok' as (((Ht & _ & Hoff) & _) & _ & _ & _ & Hsc).
    unfold scroll_in_range in Hsc.
    destruct a as [fuel s|viewTop|vkey c a s|position|position|isEnabled|];
      cbn [perform] in Hrun.
    - exact (_WriteBuffer_from_session_ok cellDistance fuel t t' s 0 Hok Hrun).
    - inversion Hrun; subst.
      apply (session_ok_same t); try reflexivity; [|exact Hok].
      exact (UserScrollViewport_scroll_in_range t viewTop Ha Ht).
    - unfold SendKeyEvent in Hrun.
      destruct (_snapOnInput t && negb (_scrollOffset t =? 0)).
      + destruct (_NotifyScrollEvent (set_scrollOffset t 0)) as [t1| |] eqn:En;
          cbn [bind snd] in Hrun; inversion Hrun; subst.
        destruct (_NotifyScrollEvent_inv _ _ En) as [-> | (e & ->)];
          (apply (session_ok_same t); try reflexivity; [|exact Hok]);
          cbn; lia.
      + cbn [bind snd] in Hrun. inversion Hrun; subst. exact Hok.
    - unfold SetSelectionAnchor, SetEndSelectionPosition in Hrun.
      destruct (narrow_short (_scrollOffset t)); cbn [bind] in Hrun;
        try discriminate.
      destruct (ShortSub (Y position) a); cbn [bind] in Hrun;
        try discriminate.
      cbn [_scrollOffset set_selection] in Hrun.
      destruct (narrow_short (_scrollOffset t)); cbn [bind] in Hrun;
        try discriminate.
      destruct (ShortSub (Y position) a1); cbn [bind] in Hrun;
        try discriminate.
      inversion Hrun; subst.
      apply (session_ok_same t); try reflexivity; [exact Hsc|exact Hok].
    - unfold SetEndSelectionPosition in Hrun.
      destruct (narrow_short (_scrollOffset t)); cbn [bind] in Hrun;
        try discriminate.
      destruct (ShortSub (Y position) a); cbn [bind] in Hrun;
        try discriminate.
      inversion Hrun; subst.
      apply (session_ok_same t); try reflexivity; [exact Hsc|exact Hok].
    - inversion Hrun; subst.
      apply (session_ok_same t); try reflexivity; [exact Hsc|exact Hok].
    - inversion Hrun; subst.
      apply (session_ok_same t); try reflexivity; [exact Hsc|exact Hok]. }
  assert (Hall : forall l t t',
             session_ok t -> Forall action_ok l ->
             perform_all cellDistance HandleKey t l = Ok t' -> session_ok t').
  { clear l. induction l as [|a l IH]; intros t t' Hok Hl Hrun;
      cbn [perform_all] in Hrun.
    - inversion Hrun; subst. exact Hok.
    - inversion Hl; subst.
      destruct (perform cellDistance HandleKey t a) as [t1| |] eqn:E;
        cbn [bind] in Hrun; try discriminate.
      apply (IH t1 t'); try assumption. now apply (Hone a t t1). }
  intros t t' Hok Hl Hrun.
  assert (Hok' := Hall l t t' Hok Hl Hrun).
  split; [exact Hok'|].
  destruct Hok' as ((He & _) & _).
  exact (_VisibleStartIndex_bounds t' He).
Qed.

Lemma perform_all_keeps_session_ok_witness :
  exists t' : Terminal,
    perform_all unit_cells no_key_output (session 100)
      [AWrite 60 (repeat_run 30 CRLF); AScroll 2; ASetAnchor (mkCOORD 3 1);
       AKey 65 false false false; AWrite 1 [65]] = Ok t' /\
    session_ok t'.
Proof.
  eexists. split; [vm_compute; reflexivity|].
  refine (proj1 (perform_all_keeps_session_ok unit_cells no_key_output
                   [AWrite 60 (repeat_run 30 CRLF); AScroll 2;
                    ASetAnchor (mkCOORD 3 1); AKey 65 false false false;
                    AWrite 1 [65]] (session 100) _ _ _ _)).
  - unfold session_ok, writer_ok, engine_ok, is_short, viewport_in_buffer,
      cursor_in_view, scroll_in_range. by_evaluation.
  - repeat constructor; unfold INT_MIN, INT_MAX; lia.
  - vm_compute. reflexivity.
Defined.

(** ** Creation from settings *)

Lemma store_length (table : list Z) :
  forall (i : nat) (v : Z), List.length (store i v table) = List.length table.
Proof.
  induction table as [|x table IH]; intros i v; [now destruct i|].
  destruct i as [|i]; cbn [store List.length]; [reflexivity|].
  now rewrite IH.
Qed.

Lemma store_nth (table : list Z) :
  forall (i k : nat) (v : Z),
    (i < List.length table)%nat ->
    nth k (store i v table) 0 = if (k =? i)%nat then v else nth k table 0.
Proof.
  induction table as [|x table IH]; intros i k v Hi; cbn [List.length] in Hi;
    [lia|].
  destruct i as [|i]; destruct k as [|k]; cbn [store nth Nat.eqb];
    try reflexivity.
  apply IH. lia.
Qed.

Lemma copy_color_entries_spec (settings : ICoreSettings) (n : nat) :
  forall (i : Z) (table : list Z),
    0 <= i ->
    (Z.to_nat i + n <= List.length table)%nat ->
    List.length (copy_color_entries settings n i table) = List.length table /\
    forall k : nat,
      nth k (copy_color_entries settings n i table) 0 =
        if (Z.to_nat i <=? k)%nat && (k <? Z.to_nat i + n)%nat
        then GetColorTableEntry settings (Z.of_nat k)
        else nth k table 0.
Proof.
  induction n as [|n IH]; intros i table Hi Hlen; cbn [copy_color_entries].
  - split; [reflexivity|]. intros k.
    destruct (Nat.leb_spec (Z.to_nat i) k);
      destruct (Nat.ltb_spec k (Z.to_nat i + 0)); cbn [andb];
      try reflexivity; lia.
  - destruct (IH (i + 1) (store (Z.to_nat i) (GetColorTableEntry settings i) table))
      as (Hl & Hk); [lia|rewrite store_length; lia|].
    rewrite store_length in Hl. split; [exact Hl|].
    intros k. rewrite Hk, store_nth by lia.
    destruct (Nat.leb_spec (Z.to_nat (i + 1)) k);
      destruct (Nat.ltb_spec k (Z.to_nat (i + 1) + n));
      destruct (Nat.leb_spec (Z.to_nat i) k);
      destruct (Nat.ltb_spec k (Z.to_nat i + S n));
      destruct (Nat.eqb_spec k (Z.to_nat i));
      cbn [andb]; try reflexivity; try lia.
    subst k. now rewrite Z2Nat.id.
Qed.

(** X23.  [CreateFromSettings] takes the first 16 entries of the colour
    table from the settings, one by one, and leaves every other entry and
    the length of the table as they were; the default colours and the
    scroll-on-input flag are the settings', the viewport has the settings'
    columns and rows and the scrollback capacity is the settings' history
    size, each cut to a [SHORT]. *)
Theorem CreateFromSettings_effect :
  forall (settings : ICoreSettings) (t : Terminal) (palette : Palette),
    (16 <= List.length (_colorTable palette))%nat ->
    List.length (_colorTable (snd (CreateFromSettings settings t palette)))
      = List.length (_colorTable palette) /\
    (forall k : nat,
       nth k (_colorTable (snd (CreateFromSettings settings t palette))) 0 =
         if (k <? 16)%nat then GetColorTableEntry settings (Z.of_nat k)
         else nth k (_colorTable palette) 0) /\
    _defaultFg (snd (CreateFromSettings settings t palette))
      = DefaultForeground settings /\
    _defaultBg (snd (CreateFromSettings settings t palette))
      = DefaultBackground settings /\
    _snapOnInput (fst (CreateFromSettings settings t palette))
      = SnapOnInput settings /\
    Dimensions (_mutableViewport (fst (CreateFromSettings settings t palette)))
      = mkCOORD (to_short (InitialCols settings))
                (to_short (InitialRows settings)) /\
    _scrollbackLines (fst (CreateFromSettings settings t palette))
      = to_short (HistorySize settings).
Proof.
  intros settings t palette Hlen. unfold CreateFromSettings.
  cbn [fst snd _colorTable _defaultFg _defaultBg].
  destruct (copy_color_entries_spec settings 16 0 (_colorTable palette))
    as (Hl & Hk); [lia|cbn; lia|].
  split; [exact Hl|]. split.
  - intros k. rewrite Hk. cbn [Z.to_nat Nat.leb andb Nat.add]. reflexivity.
  - repeat split.
Qed.

Lemma CreateFromSettings_effect_witness :
  nth 3 (_colorTable
           (snd (CreateFromSettings
                   (mkSettings 1 2 (fun i => 100 + i) false 80 24 100)
                   Terminal_new (mkPalette 0 0 (repeat 7 256))))) 0 = 103 /\
  nth 16 (_colorTable
            (snd (CreateFromSettings
                    (mkSettings 1 2 (fun i => 100 + i) false 80 24 100)
                    Terminal_new (mkPalette 0 0 (repeat 7 256))))) 0 = 7.
Proof.
  destruct (CreateFromSettings_effect
              (mkSettings 1 2 (fun i => 100 + i) false 80 24 100)
              Terminal_new (mkPalette 0 0 (repeat 7 256)))
    as (_ & Hk & _).
  - cbn [_colorTable]. rewrite repeat_length. lia.
  - split; [exact (Hk 3%nat)|exact (Hk 16%nat)].
Defined.

(** X24.  A history size of -1, which the settings use for an unlimited
    scrollback, is taken as a row count: the scrollback capacity becomes
    -1 and the buffer is created one row lower than the live viewport, so
    the viewport does not fit in it. *)
Theorem CreateFromSettings_unlimited_history :
  forall (settings : ICoreSettings) (t : Terminal) (palette : Palette),
    HistorySize settings = -1 ->
    0 < InitialRows settings <= SHORT_MAX ->
    _scrollbackLines (fst (CreateFromSettings settings t palette)) = -1 /\
    Height (GetSize (_buffer (fst (CreateFromSettings settings t palette))))
      = InitialRows settings - 1 /\
    Height (_mutableViewport (fst (CreateFromSettings settings t palette)))
      = InitialRows settings /\
    ~ viewport_in_buffer (fst (CreateFromSettings settings t palette)).
Proof.
  intros settings t palette Hh Hrows. unfold SHORT_MAX in *.
  unfold CreateFromSettings, viewport_in_buffer, BottomExclusive.
  cbn [fst]. rewrite Hh.
  change (to_short (-1)) with (-1).
  assert (Hr : to_short (InitialRows settings) = InitialRows settings)
    by (apply to_short_small; unfold is_short, SHORT_MIN, SHORT_MAX; lia).
  unfold Create, Height, vTop; cbn. rewrite Hr.
  rewrite to_short_small
    by (unfold is_short, SHORT_MIN, SHORT_MAX; lia).
  repeat split; lia.
Qed.

Lemma CreateFromSettings_unlimited_history_witness :
  Height (GetSize (_buffer (fst (CreateFromSettings
                                   (mkSettings 1 2 (fun i => i) true 80 24 (-1))
                                   Terminal_new (mkPalette 0 0 [])))))
  = 24 - 1.
Proof.
  refine (proj1 (proj2 (CreateFromSettings_unlimited_history
                          (mkSettings 1 2 (fun i => i) true 80 24 (-1))
                          Terminal_new (mkPalette 0 0 []) _ _))).
  - reflexivity.
  - unfold SHORT_MAX. cbn. lia.
Defined.

Lemma _GetSelectionRects_unchanged_by_scrolling_witness :
  exists t' : Terminal,
    SendKeyEvent no_key_output scrolled_session 65 false false false
      = Ok (false, t') /\
    _GetSelectionRects 1 t' = _GetSelectionRects 1 scrolled_session.
Proof.
  eexists. split; [vm_compute; reflexivity|].
  refine (proj2 (proj2 (_GetSelectionRects_unchanged_by_scrolling
                          scrolled_session 1 0 0))
            no_key_output 65 false false false false _ _).
  vm_compute. reflexivity.
Defined.
